(* ===== verification/_CoqProject ===== *)
-Q . S2P
Prelude.v
Py.v
Mcp.v
Calculator.v
Division.v
Notes.v
Adapters.v
Engine.v
Blind.v
Runs.v
Session.v
Dispatch.v
Server.v
