(* ===== verification/Prelude.v ===== *)
(** * A verification development of local-agent-with-mcp

    The repository is a command-line assistant that lets a local language
    model call six tools served by two MCP ("Model Context Protocol")
    executor processes: a calculator ([src/server_calculator.py]) and a
    notes store ([server_notes.py], named by [src/agent.py] but not part of
    the sources, so it is modelled from the spec).  [src/agent.py] wraps
    each remote tool in a local LangChain tool (the adapters), hands them
    to a LangGraph agent with a recursion limit of 50 and runs an
    interactive loop; [src/main.py] is an earlier chat-only variant with a
    prompt template, a conversation history and two consecutive loops.

    Files, in dependency order (each opens with what it holds):
    - [Prelude]: the exception-and-state monad [PyM] in which every Python
      function of the development is written ([x ← m; k], [raise],
      [try_catch]), its laws, frame properties along a preorder
      ([preserves]) and their closure under the combinators, the hint databases [pym] and [agent] (with their rewrite
      databases [pym_rw] and [agent_rw]) and the
      tactics [pym_run] and [pym_case].
    - [Py]: the fragment of the Python runtime the code relies on: the
      exceptions it raises and their [str()], [str.strip], [str.lower] on
      Latin-1 code points, [str(int)] with its decimal parser,
      [str.join] and [str.split] with their round trip.
    - [Mcp]: the remote-call boundary of spec section 6: tool
      descriptors, JSON argument maps ([gmap string PyVal]), validation
      against a descriptor and FastMCP's dispatch by name; the class
      [McpServer] is what an executor promises to the adapters, and
      [McpServerTyped] that its handlers return values of the type their
      return annotation declares ([td_returns], an [RType]).
    - [Calculator]: [src/server_calculator.py]: [add], [subtract],
      [multiply] on unbounded integers (Python [int] as [Z]) and [divide],
      whose float result is IEEE-754 binary64 round-to-nearest-even
      division (Stdlib's [SpecFloat.SFdiv] at precision 53, emax 1024),
      with the zero-divisor sentinel string and CPython's [OverflowError].
    - [Division]: the rounding analysis of [SFdiv] on integers: exact
      quotients of at most 53 bits come back exactly, a zero dividend
      gives the divisor's signed zero, and the overflow threshold.
    - [Notes]: the spec's notes executor: an append-only list of strings.
    - [Adapters]: the module prologue and the six [@tool] wrappers of
      [src/agent.py] (lines 12-90) over a world of stdin (lines that
      decode or do not), stdout, executor reachability and the notes
      process; the prologue takes which script files exist ([present]),
      as [Client(path)] raises [FileNotFoundError] on a missing one and
      the [except] branch then calls [exit()]; the class [WorldFrame] of
      frames (stdin untouched, stdout append-only) that every operation
      respects.
    - [Engine]: [create_agent]'s decide/dispatch/compose loop with its
      recursion limit and [run_agent] (agent.py 112-131).
    - [Blind]: worlds equal up to stdout ([≈ₒ], an [Equivalence]) and the
      [Proper] instances that show every operation of a turn blind to
      what was printed before.
    - [Runs]: whole completed runs of the loop: the calculator's
      reachability is a frame, and every arithmetic call is answered
      exactly in the transcript; the spec's two-turn notes dialogue.
    - [Session]: the interactive loops of agent.py (134-152) and main.py
      (62-108), and main.py's prompt-template [run_agent] (15-59).
    - [Dispatch]: the order of the calls of one answer: calculator calls
      only print ([prints_only], a denotation in a writer monad) and
      commute; notes calls do not.
    - [Server]: the executor processes ([main()] of
      [src/server_calculator.py], lines 32-38: [mcp.run()] serving one
      session, [Mcp.serve]) and the comparison of the adapters' per-call
      connections with one pooled client session ([Mcp.client_session]).

    How the parts interact, and where the model keeps their state: the
    world [Adapters.World] holds stdin, stdout, the reachability of each
    executor, the keep-alive behaviour of the notes transport and the
    notes process's store.  A session ([Session.repl]) reads a line and
    calls [Engine.run_agent], which runs [Engine.agent_steps]: the model
    oracle decides, [Engine.run_tool_call] looks the call up in
    [Adapter.tools], validates it and runs the adapter, which prints its
    trace and reaches the executor through [Mcp.call_tool] on the
    registries [Calculator.calculator] and [Notes.notes_server].

    What the theorems show (claim ids C1-C38 in the manifest's order):
    - the engine's contract (Engine): [run_agent] never raises and always
      answers without tool calls (C1); its reply is the graph's final
      answer or the fixed-format error message, printed first (C2); a
      returning run is complete rounds with exactly one tool result per
      call, in order, and at most [(limit+1)/2] model calls (C3); a model
      that never stops calling tools ends in the recursion-limit error
      (C4);
    - the calculator (Calculator): exact unbounded arithmetic through the
      dispatch (C5), the divide-by-zero sentinel (C6), division by a
      nonzero integer is a finite binary64 value or CPython's overflow
      error (C7);
    - the composition (Engine): the tool node refines the arithmetic
      contract (C8), the sentinel reaches the model as a value, an
      unreachable executor is reported and not answered around (C10), and
      a call with an unknown name or a missing argument comes back as an
      error message without reaching any adapter (C28); over a whole
      completed run, every arithmetic call of the model on printable
      integers has its exact result in the transcript (Runs, C29), and
      every [divide(a, 0)] call its sentinel string (C31); in
      the spec's "remember" / "what did I ask" dialogue the note comes
      back only when the notes process is kept alive (Runs, C30); a
      turn of agent.py shows the model only conversations that start
      with its own question, and its outcome does not depend on what was
      printed before (C33, with [Blind]);
    - the notes store: order and a lossless read for newline-free notes
      (C11), persistence across calls only when the transport keeps the
      process alive (C12); otherwise a note is acknowledged by a process
      that stores it and is gone at the next call (C13);
    - the sessions (Session): with both server scripts present agent.py
      always ends, on a sentinel or on an uncaught [EOFError] or
      [UnicodeDecodeError] of [input()], and with one missing (as
      shipped: there is no [server_notes.py]) it exits in its prologue
      before reading stdin (C14); main.py always ends, after its second
      loop or on one of those two errors (C26); main.py's history is the ordered pairs of
      stripped lines and the model's replies over the previous turns
      (C15); a sentinel in main.py starts a second loop instead of exiting
      (C16); sentinels are found through whitespace and case (C18); a
      blank line is a question in main.py's first loop and a sentinel in
      its second (C32);
      agent.py's transcript is the prologue's two lines (its
      [list_tools()] calls are not awaited and contact no executor) and
      the banner, then per line the prompt, ["Agent: "], the turn's
      trace, the reply and an empty line, then ["Goodbye!"] (C27);
    - CPython's 4300-digit limit makes the adapters fail on huge
      integers (C17);
    - concurrent note sessions (Notes, the step relation [nstep]): no
      lost update and per-session order under every interleaving (C19);
      a run serving every note exists and ends with the sessions' notes
      appended, and each step serves exactly one note (C20);
    - the trace lines: two calculator traces are equal exactly when the
      arguments are (C21),
      while one [add_note] call whose message holds a newline puts on
      the terminal exactly the text of two calls (C22);
    - the executor processes (Server): the adapters' per-call
      connections answer a sequence of calls as one pooled session of
      spec section 9 does, for the calculator always and for the notes
      executor when its process is kept alive, and a session of
      successful calculator calls is the process [main()] on them (C9);
    - division (Division): an integer quotient of at most 53 bits is
      returned exactly, as [float(a // b)] (C23); [0 / b] is the zero with
      the sign of [b], so [0 / -3] is [-0.0] (C24); [OverflowError] is
      never raised below [|a| < 2^1023 * |b|] and always from
      [|a| >= 2^1024 * |b|] (C25);
    - the return annotations: a successful calculator call returns an
      [int] under [add], [subtract], [multiply] and a [float] or [str]
      under [divide] (Calculator, C34);
    - the dispatch of one answer (Dispatch): with the calculator
      reachable, any reordering of an answer's calculator calls gives the
      same tool messages and trace lines, permuted (C35), as spec
      section 5 allows; an [add_note] and a [read_notes] of one answer
      give different results in the two orders (C36);
    - two more spec properties (Runs): a second [read_notes()] returns
      what the first did, in both transport modes (C37); a run that
      completes under a recursion limit is the same under every larger
      one (C38).

    Bounds and fuel.  The graph loop runs on the recursion limit itself
    (50, one unit per node run), which is the code's own bound; a run
    that completes under it is the same under any larger one (C38).  The
    session loops run on fuel [1 + (lines left on stdin)]: every iteration
    reads a line or raises [EOFError] or [UnicodeDecodeError], and the frame lemmas
    ([frame_*] at the frame [same_stdin]) show that nothing else touches stdin, so that fuel
    is never exhausted (C14).  Integers are [Z] (Python's are unbounded);
    the only width is binary64's in [divide]; the 53-bit bound of C23 is
    the binary64 mantissa and is tight ([(2^53+1) / 1] rounds).

    Not modelled: the language model itself (an arbitrary oracle, so every
    theorem holds for every model); the [CallToolResult] wrapper that
    [Client.call_tool] returns (identified with its [.data], so no
    theorem here speaks of the type of a tool message's text) and
    LangChain's conversion of tool results to message text, and the JSON
    wire encoding; pydantic's lax coercions ([Mcp.validate] is strict:
    it rejects ["3"] for an [int], which pydantic accepts, so the
    theorems rely on validation only for an unknown tool or a missing
    argument); FastMCP's exact error texts (the model's texts are
    stand-ins); asynchronous scheduling inside one tool node (the calls of
    one answer run in order, which spec section 5 allows; [Dispatch]
    shows which reorderings change nothing); process
    start-up banners beyond their printed lines; the [.env] loading of
    main.py, which has no effect on the modelled behaviour. *)

From stdpp Require Export base list list_monad.
From Stdlib Require Export ZArith.

(** ** The exception-and-state monad

    Python functions of the repository either return a value or raise; the
    ones with effects read or write a world (stdout, stdin, the executor
    processes).  [PyM E S A] is a state monad over [S] whose result is a
    value or an exception of type [E]; the world after a raise is kept,
    because Python effects done before the raise (a printed trace line)
    are not undone. *)

Inductive Out (E A : Type) : Type :=
| Ret (a : A)
| Raise (e : E).
Arguments Ret {E A} a.
Arguments Raise {E A} e.

Definition PyM (E S A : Type) : Type := S -> Out E A * S.

#[export] Instance PyM_ret E S : MRet (PyM E S) := fun A a s => (Ret a, s).
#[export] Instance PyM_bind E S : MBind (PyM E S) := fun A B f m s =>
  match m s with
  | (Ret a, s') => f a s'
  | (Raise e, s') => (Raise e, s')
  end.

Definition raise {E S A} (e : E) : PyM E S A := fun s => (Raise e, s).
Definition get {E S} : PyM E S S := fun s => (Ret s, s).
Definition put {E S} (s : S) : PyM E S unit := fun _ => (Ret tt, s).
Definition modify {E S} (f : S -> S) : PyM E S unit := fun s => (Ret tt, f s).

(** stdpp's [mapM] runs a list of computations in order and collects
    the results; in [PyM] the first exception stops the sequence. *)

(** A pure result as a computation that leaves the state alone. *)
Definition of_out {E S A} (o : Out E A) : PyM E S A := fun s => (o, s).

(** [try: m except e: h e] with a handler that catches every exception. *)
Definition try_catch {E S A} (m : PyM E S A) (h : E -> PyM E S A) : PyM E S A :=
  fun s => match m s with
           | (Ret a, s') => (Ret a, s')
           | (Raise e, s') => h e s'
           end.

Definition is_ret {E A} (o : Out E A) : bool :=
  match o with Ret _ => true | Raise _ => false end.

(** [preserves R m]: every run of [m], returning or raising, moves the
    state forward along [R].  With [R] a preorder this is a frame
    property closed under the monad's combinators. *)
Definition preserves {E S A} (R : relation S) (m : PyM E S A) : Prop :=
  forall s o s', m s = (o, s') -> R s s'.

Create HintDb pym discriminated.
Create Rewrite HintDb pym_rw.
Create HintDb agent discriminated.
Create Rewrite HintDb agent_rw.

Section Laws.
Context {E S : Type}.

Lemma bind_ret_l {A B} (a : A) (f : A -> PyM E S B) s :
  (mret a ≫= f) s = f a s.
Proof. reflexivity. Qed.

Lemma bind_Ret {A B} (m : PyM E S A) (f : A -> PyM E S B) s a s' :
  m s = (Ret a, s') -> (m ≫= f) s = f a s'.
Proof. intros H. cbv [mbind PyM_bind]. by rewrite H. Qed.

Lemma bind_Raise {A B} (m : PyM E S A) (f : A -> PyM E S B) s e s' :
  m s = (Raise e, s') -> (m ≫= f) s = (Raise e, s').
Proof. intros H. cbv [mbind PyM_bind]. by rewrite H. Qed.

Lemma bind_assoc {A B C} (m : PyM E S A) (f : A -> PyM E S B)
    (g : B -> PyM E S C) s :
  ((m ≫= f) ≫= g) s = (m ≫= (fun a => f a ≫= g)) s.
Proof. cbv [mbind PyM_bind]. destruct (m s) as [[a|e] s']; reflexivity. Qed.

Lemma bind_ret_r {A} (m : PyM E S A) s : (m ≫= mret) s = m s.
Proof. cbv [mbind PyM_bind mret PyM_ret]. by destruct (m s) as [[a|e] s']. Qed.

Lemma raise_bind {A B} (e : E) (f : A -> PyM E S B) s :
  (raise e ≫= f) s = (Raise e, s).
Proof. reflexivity. Qed.

(** Nothing escapes a handler that itself never raises. *)
Lemma try_catch_total {A} (m : PyM E S A) (h : E -> PyM E S A) s :
  (forall e s', is_ret (fst (h e s')) = true) ->
  is_ret (fst (try_catch m h s)) = true.
Proof.
  intros Hh. unfold try_catch. destruct (m s) as [[a|e] s']; [done|apply Hh].
Qed.

(** One step of [mapM], with the rest of the list left folded. *)
Lemma mapM_cons_run {A B} (f : A -> PyM E S B) x l s :
  mapM f (x :: l) s =
    match f x s with
    | (Ret y, s1) =>
        match mapM f l s1 with
        | (Ret ys, s2) => (Ret (y :: ys), s2)
        | (Raise e, s2) => (Raise e, s2)
        end
    | (Raise e, s1) => (Raise e, s1)
    end.
Proof.
  cbn [mapM]. cbv [mbind PyM_bind mret PyM_ret].
  destruct (f x s) as [[y|e] s1]; [|done]. by destruct (mapM f l s1) as [[ys|e] s2].
Qed.

Lemma mapM_length {A B} (f : A -> PyM E S B) l s ys s' :
  mapM f l s = (Ret ys, s') -> length ys = length l.
Proof.
  revert s ys s'. induction l as [|x l IH]; intros s ys s' H; simpl in H;
    cbv [mbind PyM_bind mret PyM_ret] in H.
  - by injection H as <- _.
  - destruct (f x s) as [[y|e] s1]; simpl in H; [|by injection H].
    destruct (mapM f l s1) as [[ys'|e] s2] eqn:Hl; simpl in H; [|by injection H].
    injection H as <- _. simpl. f_equal. by eapply IH.
Qed.
(** Every result of a successful [mapM] was computed from an element. *)
Lemma mapM_Ret_origin {A B} (f : A -> PyM E S B) l s ys s' :
  mapM f l s = (Ret ys, s') ->
  forall y, y ∈ ys -> exists x s1 s2, x ∈ l /\ f x s1 = (Ret y, s2).
Proof.
  revert s ys s'. induction l as [|x0 l IH]; intros s ys s' H y Hy;
    cbn [mapM] in H; cbv [mbind PyM_bind mret PyM_ret] in H.
  - injection H as <- _. by apply not_elem_of_nil in Hy.
  - destruct (f x0 s) as [[y0|e] s1] eqn:E0; [|discriminate].
    destruct (mapM f l s1) as [[ys1|e] s2] eqn:E1; [|discriminate].
    injection H as <- _. apply elem_of_cons in Hy as [->|Hy].
    + exists x0, s, s1. split; [apply elem_of_cons; by left|done].
    + destruct (IH _ _ _ E1 y Hy) as (x & s3 & s4 & Hx & Hf).
      exists x, s3, s4. split; [apply elem_of_cons; by right|done].
Qed.
End Laws.

Section Preserves.
Context {E S : Type} (R : relation S) `{!PreOrder R}.

Lemma preserves_ret {A} (a : A) : preserves (E:=E) R (mret a).
Proof. intros s o s' [= _ <-]. reflexivity. Qed.

Lemma preserves_raise {A} (e : E) : preserves R (raise (S:=S) (A:=A) e).
Proof. intros s o s' [= _ <-]. reflexivity. Qed.

Lemma preserves_modify (f : S -> S) :
  (forall s, R s (f s)) -> preserves (E:=E) R (modify f).
Proof. intros Hf s o s' [= _ <-]. apply Hf. Qed.

Lemma preserves_bind {A B} (m : PyM E S A) (f : A -> PyM E S B) :
  preserves R m -> (forall a, preserves R (f a)) -> preserves R (m ≫= f).
Proof.
  intros Hm Hf s o s' H. cbv [mbind PyM_bind] in H.
  destruct (m s) as [[a|e] s1] eqn:E1.
  - transitivity s1; [by eapply Hm|]. by eapply Hf.
  - injection H as _ <-. by eapply Hm.
Qed.

Lemma preserves_try_catch {A} (m : PyM E S A) (h : E -> PyM E S A) :
  preserves R m -> (forall e, preserves R (h e)) -> preserves R (try_catch m h).
Proof.
  intros Hm Hh s o s' H. unfold try_catch in H.
  destruct (m s) as [[a|e] s1] eqn:E1.
  - injection H as _ <-. by eapply Hm.
  - transitivity s1; [by eapply Hm|]. by eapply Hh.
Qed.

Lemma preserves_mapM {A B} (f : A -> PyM E S B) l :
  (forall x, preserves R (f x)) -> preserves R (mapM f l).
Proof.
  intros Hf. induction l as [|x l IH]; simpl; [apply preserves_ret|].
  apply preserves_bind; [done|]. intros y.
  apply preserves_bind; [done|]. intros ys. apply preserves_ret.
Qed.

(** Each element of a successful [mapM] was computed from a state
    reached along [R]. *)
Lemma preserves_mapM_elem {A B} (f : A -> PyM E S B) l s ys s' :
  (forall x, preserves R (f x)) -> mapM f l s = (Ret ys, s') ->
  forall x, x ∈ l -> exists s1 s2 y, R s s1 /\ f x s1 = (Ret y, s2) /\ y ∈ ys.
Proof.
  intros Hf. revert s ys s'. induction l as [|x0 l IH]; intros s ys s' H x Hx;
    [by apply not_elem_of_nil in Hx|].
  cbn [mapM] in H. cbv [mbind PyM_bind mret PyM_ret] in H.
  destruct (f x0 s) as [[y0|e] s1] eqn:E0; [|discriminate].
  destruct (mapM f l s1) as [[ys1|e] s2] eqn:E1; [|discriminate].
  injection H as <- _. apply elem_of_cons in Hx as [->|Hx].
  - exists s, s1, y0. split; [reflexivity|]. split; [done|]. apply elem_of_cons. by left.
  - destruct (IH _ _ _ E1 x Hx) as (s3 & s4 & y & HR & Hy & Hin).
    exists s3, s4, y. split; [trans s1; [by eapply Hf|done]|]. split; [done|].
    apply elem_of_cons. by right.
Qed.
End Preserves.

#[export] Hint Rewrite @bind_ret_l @raise_bind : pym_rw.
#[export] Hint Resolve bind_Ret bind_Raise : pym.

(** [pym_run] unfolds the monad's plumbing and computes. *)
Ltac pym_run :=
  cbv [mbind PyM_bind mret PyM_ret raise get put modify try_catch of_out] in *;
  simpl in *.

(** [pym_case] splits on the first intermediate result of a computation. *)
Ltac pym_case :=
  match goal with
  | |- context [match ?t with _ => _ end] =>
      lazymatch type of t with
      | (Out _ _ * _)%type =>
          let o := fresh "o" in let s' := fresh "s" in let E := fresh "Hrun" in
          destruct t as [o s'] eqn:E; destruct o
      end
  end.

(** stdpp's list lemmas that the rewrite database uses. *)
#[export] Hint Rewrite @last_snoc @length_app : agent_rw.
