(* ===== verification/Py.v ===== *)
(** * The fragment of the Python runtime the repository relies on

    Python [str] values are modelled as Stdlib [string]s read as Latin-1
    code points (the ASCII and Latin-1 fragment of Unicode); Python [int]
    as [Z].  This file holds the exceptions the code can raise with their
    [str()], [str.strip] and [str.lower] as CPython defines them on that
    fragment, [str(int)] with CPython's digit limit, and [str.join] /
    [str.split] with their round trip. *)

From S2P Require Import Prelude.
From stdpp Require Import strings sets.
From Stdlib Require Import Ascii String DecimalString DecimalZ.

(** ** Exceptions *)

Inductive PyExc : Type :=
| ZeroDivisionError (msg : string)
| OverflowError (msg : string)
| ValueError (msg : string)
| ToolError (msg : string)          (** [fastmcp.exceptions.ToolError] *)
| ConnectionError (msg : string)    (** the executor could not be reached *)
| GraphRecursionError (limit : nat) (** LangGraph's recursion limit *)
| ModelError (msg : string)         (** the model backend raised *)
| IndexError (msg : string)
| EOFError
| UnicodeDecodeError (msg : string) (** [input()] on bytes that are not UTF-8 *)
| FileNotFoundError (msg : string)  (** [Client(path)] on a missing script *)
| SystemExit.

(** ** [str(int)]: decimal, with a leading [-] for negatives *)

Definition py_str_int (z : Z) : string := NilZero.string_of_int (Z.to_int z).

(** The decimal reader that inverts it (the digits [int()] accepts). *)
Definition py_int_of_str (s : string) : option Z :=
  Z.of_int <$> NilZero.int_of_string s.

(** CPython (3.10.7 and later) refuses to convert an [int] of more than
    [sys.int_info.default_max_str_digits] = 4300 decimal digits to a
    string; an f-string that formats such an [int] raises [ValueError]. *)
Definition int_max_str_digits : Z := 4300.

Definition int_str_limit_msg : string :=
  "Exceeds the limit (4300 digits) for integer string conversion; use sys.set_int_max_str_digits() to increase the limit".

Definition py_format_int {S} (z : Z) : PyM PyExc S string :=
  if decide (Z.abs z < 10 ^ int_max_str_digits)%Z then mret (py_str_int z)
  else raise (ValueError int_str_limit_msg).

Local Open Scope string_scope.

(** [str(e)] of each exception as [run_agent] formats it.  The texts of
    library exceptions are LangGraph's and FastMCP's. *)
Definition py_str_exc (e : PyExc) : string :=
  match e with
  | ZeroDivisionError m | OverflowError m | ValueError m
  | ToolError m | ConnectionError m | ModelError m | IndexError m
  | UnicodeDecodeError m | FileNotFoundError m => m
  | GraphRecursionError n =>
      "Recursion limit of " ++ py_str_int (Z.of_nat n) ++
      " reached without hitting a stop condition. You can increase the limit by setting the `recursion_limit` config key."
  | EOFError | SystemExit => ""
  end.

(** ** [str.isspace], [str.strip], [str.lower] on Latin-1 *)

(** CPython's whitespace below U+0100: [\t \n \v \f \r], the separators
    U+001C..U+001F, space, NEL (U+0085) and NO-BREAK SPACE (U+00A0). *)
Definition py_isspace (c : ascii) : bool :=
  let n := nat_of_ascii c in
  (((9 <=? n) && (n <=? 13)) || ((28 <=? n) && (n <=? 32)) || (n =? 133) || (n =? 160))%nat.

Fixpoint py_lstrip (s : string) : string :=
  match s with
  | EmptyString => EmptyString
  | String c r => if py_isspace c then py_lstrip r else s
  end.

Fixpoint py_rstrip (s : string) : string :=
  match s with
  | EmptyString => EmptyString
  | String c r =>
      let r' := py_rstrip r in
      if py_isspace c && String.eqb r' "" then "" else String c r'
  end.

Definition py_strip (s : string) : string := py_rstrip (py_lstrip s).

(** [str.lower]: A-Z and the Latin-1 capitals U+00C0..U+00DE except the
    multiplication sign U+00D7 map 32 code points up; every other code
    point below U+0100 is its own lower case. *)
Definition py_lower_char (c : ascii) : ascii :=
  let n := nat_of_ascii c in
  if (((65 <=? n) && (n <=? 90)) || ((192 <=? n) && (n <=? 222) && negb (n =? 215)))%nat
  then ascii_of_nat (n + 32)%nat else c.

Fixpoint py_lower (s : string) : string :=
  match s with
  | EmptyString => EmptyString
  | String c r => String (py_lower_char c) (py_lower r)
  end.

(** ** [sep.join(parts)] and [s.split(sep)] for a one-character [sep] *)

Definition newline : ascii := "010"%char.
Definition nl : string := String newline EmptyString.

Fixpoint py_join (sep : string) (parts : list string) : string :=
  match parts with
  | [] => ""
  | [p] => p
  | p :: ps => p ++ sep ++ py_join sep ps
  end.

Fixpoint py_split (c : ascii) (s : string) : list string :=
  match s with
  | EmptyString => [""]
  | String d r =>
      let parts := py_split c r in
      if decide (d = c) then "" :: parts
      else match parts with
           | p :: ps => String d p :: ps
           | [] => [String d ""]
           end
  end.

(** [c] occurs in [s]. *)
Fixpoint str_has (c : ascii) (s : string) : bool :=
  match s with
  | EmptyString => false
  | String d r => bool_decide (d = c) || str_has c r
  end.


(** ** [split] inverts [join] on parts without the separator *)

Lemma py_split_no_sep c p :
  str_has c p = false -> py_split c p = [p].
Proof.
  induction p as [|d p IH]; simpl; [done|]. intros H.
  apply orb_false_iff in H as [Hd Hp]. rewrite IH by done.
  by rewrite decide_False by (intros ->; by rewrite bool_decide_eq_true_2 in Hd).
Qed.

Lemma py_split_app_sep c p rest :
  str_has c p = false -> py_split c (p ++ String c rest) = p :: py_split c rest.
Proof.
  induction p as [|d p IH]; simpl; intros H.
  - by rewrite decide_True.
  - apply orb_false_iff in H as [Hd Hp]. rewrite IH by done.
    by rewrite decide_False by (intros ->; by rewrite bool_decide_eq_true_2 in Hd).
Qed.

Lemma py_split_join c parts :
  parts <> [] -> Forall (fun p => str_has c p = false) parts ->
  py_split c (py_join (String c EmptyString) parts) = parts.
Proof.
  induction parts as [|p [|q ps] IH]; intros Hne Hall; [done| |].
  - inversion Hall. by apply py_split_no_sep.
  - inversion Hall as [|? ? Hp Hrest]; subst.
    replace (py_join (String c EmptyString) (p :: q :: ps))
      with (p ++ String c (py_join (String c EmptyString) (q :: ps)))%string by reflexivity.
    rewrite py_split_app_sep by done. f_equal. by apply IH.
Qed.

(** ** [str.strip] removes exactly the surrounding whitespace *)

Fixpoint all_space (s : string) : bool :=
  match s with
  | EmptyString => true
  | String c r => py_isspace c && all_space r
  end.

(** [s] does not start, resp. end, with whitespace. *)
Definition head_ok (s : string) : bool :=
  match s with EmptyString => true | String c _ => negb (py_isspace c) end.

Fixpoint last_ok (s : string) : bool :=
  match s with
  | EmptyString => true
  | String c EmptyString => negb (py_isspace c)
  | String _ r => last_ok r
  end.

Lemma lstrip_all_space s : all_space s = true -> py_lstrip s = "".
Proof. induction s as [|c s IH]; simpl; [done|]. intros [-> H]%andb_true_iff. by apply IH. Qed.

Lemma rstrip_all_space s : all_space s = true -> py_rstrip s = "".
Proof. induction s as [|c s IH]; simpl; [done|]. intros [-> H]%andb_true_iff. by rewrite IH. Qed.

Lemma lstrip_app_space pre s : all_space pre = true -> py_lstrip (pre ++ s) = py_lstrip s.
Proof. induction pre as [|c pre IH]; simpl; [done|]. intros [-> H]%andb_true_iff. by apply IH. Qed.

Lemma lstrip_head_ok s : head_ok s = true -> py_lstrip s = s.
Proof. destruct s as [|c s]; simpl; [done|]. by destruct (py_isspace c). Qed.

Lemma last_ok_cons c r : r <> "" -> last_ok (String c r) = last_ok r.
Proof. by destruct r. Qed.

Lemma rstrip_app_space core suf :
  all_space suf = true -> last_ok core = true -> py_rstrip (core ++ suf) = core.
Proof.
  intros Hsuf. induction core as [|c r IH]; intros Hl; [by apply rstrip_all_space|].
  change (String c r ++ suf)%string with (String c (r ++ suf)). cbn [py_rstrip].
  destruct (decide (r = "")) as [->|Hr].
  - simpl. rewrite rstrip_all_space by done. simpl in Hl.
    by destruct (py_isspace c).
  - rewrite last_ok_cons in Hl by done. rewrite IH by done.
    destruct r; [done|]. by rewrite andb_false_r.
Qed.

Lemma py_strip_frame pre core suf :
  all_space pre = true -> all_space suf = true -> head_ok core = true -> last_ok core = true ->
  py_strip (pre ++ core ++ suf) = core.
Proof.
  intros Hp Hs Hh Hl. unfold py_strip. rewrite lstrip_app_space by done.
  destruct core as [|c r].
  - simpl. by rewrite lstrip_all_space.
  - rewrite lstrip_head_ok by (simpl in *; done). by apply rstrip_app_space.
Qed.

(** ** [str(int)] is read back by the decimal reader *)

Lemma py_str_int_roundtrip z : py_int_of_str (py_str_int z) = Some z.
Proof.
  unfold py_int_of_str, py_str_int. remember (Z.to_int z) as d eqn:E.
  assert (Hz : Z.of_int d = z) by (subst; apply DecimalZ.of_to).
  assert (Hd1 : d <> Decimal.Pos Decimal.Nil) by (intros ->; rewrite <-Hz in E; cbv in E; discriminate).
  assert (Hd2 : d <> Decimal.Neg Decimal.Nil) by (intros ->; rewrite <-Hz in E; cbv in E; discriminate).
  rewrite NilZero.isi by done. simpl. by rewrite Hz.
Qed.

Lemma py_str_int_inj z z' : py_str_int z = py_str_int z' -> z = z'.
Proof.
  intros H. apply (f_equal py_int_of_str) in H. rewrite !py_str_int_roundtrip in H. by injection H.
Qed.

(** The decimal digits and the minus sign are the only characters of
    [str(int)]. *)
Lemma str_has_uint c d :
  c ∉ ["0"; "1"; "2"; "3"; "4"; "5"; "6"; "7"; "8"; "9"]%char ->
  str_has c (NilEmpty.string_of_uint d) = false.
Proof.
  intros Hc. induction d; simpl; rewrite ?IHd; [done|..];
    (rewrite bool_decide_eq_false_2; [done|]); intros Heq; apply Hc; rewrite <-Heq; set_solver.
Qed.

Lemma str_has_py_str_int c z :
  c ∉ ["0"; "1"; "2"; "3"; "4"; "5"; "6"; "7"; "8"; "9"; "-"]%char ->
  str_has c (py_str_int z) = false.
Proof.
  intros Hc. unfold py_str_int, NilZero.string_of_int.
  assert (Hu : forall d, str_has c (NilZero.string_of_uint d) = false).
  { intros d. destruct d; [simpl|apply str_has_uint; set_solver ..].
    rewrite bool_decide_eq_false_2; [done|]. intros Heq. apply Hc. rewrite <-Heq. set_solver. }
  destruct (Z.to_int z) as [d|d]; [apply Hu|]. simpl. rewrite Hu.
  rewrite bool_decide_eq_false_2; [done|]. intros Heq. apply Hc. rewrite <-Heq. set_solver.
Qed.

(** Two strings without [c], each followed by [c], split the same way. *)
Lemma app_sep_inj c x x' y y' :
  str_has c x = false -> str_has c x' = false ->
  (x ++ String c y = x' ++ String c y')%string -> x = x' /\ y = y'.
Proof.
  revert x'. induction x as [|d x IH]; intros [|d' x'] Hx Hx' H; simpl in *.
  - by injection H.
  - injection H as -> _. by rewrite bool_decide_eq_true_2 in Hx'.
  - injection H as <- _. by rewrite bool_decide_eq_true_2 in Hx.
  - apply orb_false_iff in Hx as [_ Hx], Hx' as [_ Hx'].
    injection H as -> H. destruct (IH x' Hx Hx' H) as [-> ->]. done.
Qed.

Lemma str_app_assoc (x y z : string) : ((x ++ y) ++ z = x ++ (y ++ z))%string.
Proof. induction x as [|c x IH]; [done|]. exact (f_equal (String c) IH). Qed.

Lemma str_app_nil_r (x : string) : (x ++ "")%string = x.
Proof. induction x as [|c x IH]; [done|]. exact (f_equal (String c) IH). Qed.

(** What a terminal shows of a sequence of writes: their concatenation. *)
Lemma str_concat_app (l1 l2 : list string) :
  String.concat "" (l1 ++ l2) = (String.concat "" l1 ++ String.concat "" l2)%string.
Proof.
  induction l1 as [|x l1 IH]; [done|]. destruct l1 as [|y l1].
  - destruct l2; simpl; [by rewrite str_app_nil_r|done].
  - cbn [app] in *.
    change (String.concat "" (x :: y :: l1 ++ l2)) with (x ++ String.concat "" (y :: l1 ++ l2))%string.
    change (String.concat "" (x :: y :: l1)) with (x ++ String.concat "" (y :: l1))%string.
    by rewrite IH, str_app_assoc.
Qed.
