(* ===== verification/Mcp.v ===== *)
(** * The tool-call boundary (spec section 6)

    An MCP executor lists tool descriptors and runs a tool by name on a
    JSON argument object.  The adapters of [src/agent.py] only ever reach
    an executor through [Client.call_tool], and the executors of
    [src/server_calculator.py] declare their tools with FastMCP's
    [@mcp.tool()]; the dispatch between the two is library code, modelled
    here from the spec: look the tool up by name, validate the arguments
    against its parameter list, run the handler, and turn an exception of
    the handler into an error result.  The class [McpServer] is the
    interface an executor offers the adapters; [McpServerWf] is its law
    (tool names are unique), and [McpServerTyped] the promise that a
    handler's value has the type of the tool's return annotation
    ([td_returns], FastMCP's output schema), which each executor
    discharges.  The last part is the server loop of [mcp.run()]
    ([serve]) and a client session on one connection
    ([client_session]). *)

From S2P Require Import Prelude Py.
From stdpp Require Import strings gmap.
From Stdlib Require Import String Floats.SpecFloat.

(** ** Values, types, descriptors *)

(** The JSON values the tools exchange: Python [int], [float], [str]. *)
Inductive PyVal : Type :=
| VInt (z : Z)
| VFloat (f : spec_float)
| VStr (s : string).

(** The parameter types the tools declare. *)
Inductive PType : Type := TInt | TStr.

(** A tool's return annotation ([-> int], [-> Union[float, str]],
    [-> str]); FastMCP derives the tool's output schema from it. *)
Inductive RType : Type :=
| RInt
| RFloat
| RStr
| RUnion (a b : RType).

Record ToolDescriptor : Type := {
  td_name : string;
  td_description : string;
  td_params : list (string * PType);
  td_returns : RType
}.

(** A tool call's argument object. *)
Abbreviation Args := (gmap string PyVal).

Definition has_type (t : PType) (v : PyVal) : bool :=
  match t, v with
  | TInt, VInt _ | TStr, VStr _ => true
  | _, _ => false
  end.

Fixpoint has_rtype (r : RType) (v : PyVal) : bool :=
  match r, v with
  | RInt, VInt _ | RFloat, VFloat _ | RStr, VStr _ => true
  | RUnion a b, _ => has_rtype a v || has_rtype b v
  | _, _ => false
  end.

(** The argument values in the order of the parameter list, or the name
    of the first parameter that is missing or of the wrong type (pydantic
    in FastMCP; its lax coercions, e.g. of ["3"] to [3], are not modelled).
    Extra arguments are ignored. *)
Fixpoint validate (ps : list (string * PType)) (args : Args) : string + list PyVal :=
  match ps with
  | [] => inr []
  | (x, t) :: ps' =>
      match args !! x with
      | Some v =>
          if has_type t v then
            match validate ps' args with
            | inr vs => inr (v :: vs)
            | inl bad => inl bad
            end
          else inl x
      | None => inl x
      end
  end.

(** ** Executors *)

(** A tool of an executor with state [S]: its descriptor and its handler,
    a Python function of the validated arguments that may raise. *)
Record ToolImpl (S : Type) : Type := {
  ti_desc : ToolDescriptor;
  ti_run : list PyVal -> PyM PyExc S PyVal
}.
Arguments ti_desc {S} _.
Arguments ti_run {S} _ _ _.

(** The result an executor sends back: the tool's value, or an error
    result ([isError] in MCP) carrying a message. *)
Inductive ToolOutcome : Type :=
| TOk (v : PyVal)
| TErr (msg : string).

Class McpServer (S : Type) := mcp_registry : list (ToolImpl S).

Section Dispatch.
Context {S : Type} `{McpServer S}.

Definition list_tools : list ToolDescriptor := map ti_desc mcp_registry.

Definition find_tool (name : string) : option (ToolImpl S) :=
  List.find (fun t => bool_decide (td_name (ti_desc t) = name)) mcp_registry.

(** FastMCP's [call_tool] on the server side. *)
Definition call_tool (name : string) (args : Args) (s : S) : ToolOutcome * S :=
  match find_tool name with
  | None => (TErr ("Unknown tool: " ++ name)%string, s)
  | Some t =>
      match validate (td_params (ti_desc t)) args with
      | inl bad =>
          (TErr ("Error executing tool " ++ name ++ ": validation error for " ++ bad)%string, s)
      | inr vs =>
          match ti_run t vs s with
          | (Ret v, s') => (TOk v, s')
          | (Raise e, s') =>
              (TErr ("Error executing tool " ++ name ++ ": " ++ py_str_exc e)%string, s')
          end
      end
  end.
End Dispatch.

(** The law an executor promises: one tool per name. *)
Class McpServerWf (S : Type) `{McpServer S} :=
  mcp_names_nodup : NoDup (map td_name list_tools).

(** The typing law: every handler returns values of its declared type. *)
Class McpServerTyped (S : Type) `{McpServer S} :=
  mcp_returns_typed : forall t vs s v s', t ∈ mcp_registry -> ti_run t vs s = (Ret v, s') ->
    has_rtype (td_returns (ti_desc t)) v = true.

(** ** The dispatch, case by case *)

Section DispatchLemmas.
Context {S : Type} `{McpServer S}.

Lemma find_tool_Some name t :
  find_tool name = Some t -> td_name (ti_desc t) = name /\ t ∈ mcp_registry.
Proof.
  unfold find_tool. intros Hf. apply List.find_some in Hf as [Hin Hn].
  split; [by apply bool_decide_eq_true in Hn | by apply list_elem_of_In].
Qed.

Lemma call_tool_unknown name args s :
  find_tool name = None -> call_tool name args s = (TErr ("Unknown tool: " ++ name)%string, s).
Proof. intros Hf. unfold call_tool. by rewrite Hf. Qed.

Lemma call_tool_run name args s t vs :
  find_tool name = Some t -> validate (td_params (ti_desc t)) args = inr vs ->
  call_tool name args s =
    match ti_run t vs s with
    | (Ret v, s') => (TOk v, s')
    | (Raise e, s') => (TErr ("Error executing tool " ++ name ++ ": " ++ py_str_exc e)%string, s')
    end.
Proof. intros Hf Hv. unfold call_tool. by rewrite Hf, Hv. Qed.

(** With unique names, a registered tool is found by its name. *)
Lemma find_tool_registered `{!McpServerWf S} t :
  t ∈ mcp_registry -> find_tool (td_name (ti_desc t)) = Some t.
Proof.
  unfold find_tool. pose proof mcp_names_nodup as Hnd.
  unfold list_tools in Hnd. rewrite List.map_map in Hnd.
  intros Hin. apply list_elem_of_In in Hin. revert Hnd Hin.
  generalize (@mcp_registry S _) as l.
  induction l as [|t' l IH]; intros Hnd Hin; [done|].
  simpl in *. inversion Hnd as [|? ? Hnot Hnd']; subst.
  destruct Hin as [->|Hin].
  - by rewrite bool_decide_eq_true_2.
  - case_bool_decide as Heq; [|by apply IH].
    exfalso. apply Hnot. rewrite Heq. apply list_elem_of_In.
    by apply (in_map (fun x => td_name (ti_desc x))).
Qed.
End DispatchLemmas.

(** ** Validation *)

(** [validate] succeeds exactly on argument objects that give every
    declared parameter a value of its type, and returns those values in
    the order of the parameters. *)
Lemma validate_spec ps args vs :
  validate ps args = inr vs <->
  Forall2 (fun '(x, t) v => args !! x = Some v /\ has_type t v = true) ps vs.
Proof.
  revert vs. induction ps as [|[x t] ps IH]; intros vs; simpl.
  - split; [intros [= <-]; constructor|intros Hf; by inversion Hf].
  - split.
    + destruct (args !! x) as [v|] eqn:Hx; [|done].
      destruct (has_type t v) eqn:Ht; [|done].
      destruct (validate ps args) as [bad|vs'] eqn:Hv; [done|]. intros [= <-].
      constructor; [done|]. by apply IH.
    + intros Hf. inversion Hf as [|? v ? vs' Hxt Hrest]; subst. destruct Hxt as [Hx Ht].
      rewrite Hx, Ht. apply IH in Hrest. by rewrite Hrest.
Qed.

Lemma validate_fails ps args :
  (forall vs, ~ Forall2 (fun '(x, t) v => args !! x = Some v /\ has_type t v = true) ps vs) ->
  exists bad, validate ps args = inl bad.
Proof.
  intros Hno. destruct (validate ps args) as [bad|vs] eqn:Hv; [by eexists|].
  exfalso. apply (Hno vs). by apply validate_spec.
Qed.

(** ** Typed results *)

(** A result of a typed executor conforms to the declared return type of
    the tool that produced it. *)
Lemma call_tool_typed {S} `{McpServer S, !McpServerTyped S} name args s v s' :
  call_tool name args s = (TOk v, s') ->
  exists t, find_tool name = Some t /\ has_rtype (td_returns (ti_desc t)) v = true.
Proof.
  unfold call_tool. destruct (find_tool name) as [t|] eqn:Hf; [|discriminate].
  destruct (validate _ _) as [bad|vs]; [discriminate|].
  destruct (ti_run t vs s) as [[r|e] s1] eqn:Hr; [|discriminate]. intros [= <- _].
  exists t. split; [done|]. apply (mcp_returns_typed t vs s r s1); [|done].
  by apply find_tool_Some in Hf as [_ ?].
Qed.

(** ** The server loop and a client session

    [mcp.run()] serves one client over stdio: it answers the requests of
    the session one after the other, in order, threading the executor's
    state ([serve]).  A [fastmcp.Client] on one connection sends a tool
    call, awaits its result and raises [ToolError] on an error result,
    after which it sends nothing more ([client_session]). *)

Inductive Request : Type :=
| ReqListTools
| ReqCallTool (name : string) (args : Args).

Inductive Response : Type :=
| RespTools (ds : list ToolDescriptor)
| RespResult (o : ToolOutcome).

(** The request of a tool call. *)
Definition call_req (c : string * Args) : Request := ReqCallTool c.1 c.2.

Section Serve.
Context {S : Type} `{McpServer S}.

Definition handle (r : Request) (s : S) : Response * S :=
  match r with
  | ReqListTools => (RespTools list_tools, s)
  | ReqCallTool name args => let '(o, s') := call_tool name args s in (RespResult o, s')
  end.

Fixpoint serve (reqs : list Request) (s : S) : list Response * S :=
  match reqs with
  | [] => ([], s)
  | r :: rs => let '(o, s1) := handle r s in let '(os, s2) := serve rs s1 in (o :: os, s2)
  end.

Fixpoint client_session (calls : list (string * Args)) (s : S) : Out PyExc (list PyVal) * S :=
  match calls with
  | [] => (Ret [], s)
  | (name, args) :: cs =>
      match call_tool name args s with
      | (TErr m, s1) => (Raise (ToolError m), s1)
      | (TOk v, s1) =>
          match client_session cs s1 with
          | (Ret vs, s2) => (Ret (v :: vs), s2)
          | (Raise e, s2) => (Raise e, s2)
          end
      end
  end.
End Serve.

Section ServeLemmas.
Context {S : Type} `{McpServer S}.

(** One reply per request, in the order of the requests. *)
Lemma serve_length reqs s : List.length (serve reqs s).1 = List.length reqs.
Proof.
  revert s. induction reqs as [|r rs IH]; intros s; [done|]. simpl.
  destruct (handle r s) as [o s1]. specialize (IH s1). destruct (serve rs s1). simpl. by f_equal.
Qed.

Lemma serve_app r1 r2 s :
  serve (r1 ++ r2) s = let '(o1, s1) := serve r1 s in let '(o2, s2) := serve r2 s1 in (o1 ++ o2, s2).
Proof.
  revert s. induction r1 as [|r rs IH]; intros s; simpl; [by destruct (serve r2 s)|].
  destruct (handle r s) as [o s1]. rewrite IH.
  destruct (serve rs s1) as [o1 s2]. by destruct (serve r2 s2).
Qed.

(** A session whose calls all succeed is the server loop on those calls:
    the client sees exactly the server's replies. *)
Lemma client_session_serve calls s vs s' :
  client_session calls s = (Ret vs, s') ->
  serve (map call_req calls) s = (map (fun v => RespResult (TOk v)) vs, s').
Proof.
  revert s vs. induction calls as [|[n a] cs IH]; intros s vs Hs; simpl in *; [by injection Hs as <- <-|].
  destruct (call_tool n a s) as [[v|m] s1]; [|discriminate].
  destruct (client_session cs s1) as [[vs1|e] s2] eqn:Hc; [|discriminate]. injection Hs as <- <-.
  by rewrite (IH s1 vs1 Hc).
Qed.
End ServeLemmas.
