(* ===== verification/Calculator.v ===== *)
(** * The calculator executor ([src/server_calculator.py])

    Four stateless tools registered on [FastMCP("calculator")].  Python
    [int] is unbounded, so [add], [subtract] and [multiply] are [Z]
    arithmetic with no wrap-around.  [divide] returns [Union[float, str]]:
    the sentinel string when the divisor is zero, otherwise CPython's
    [int / int], which rounds the exact quotient once to the nearest
    binary64 (ties to even) and raises [OverflowError] when the rounded
    quotient is too large for a float.  The rounding is Stdlib's
    [SpecFloat.SFdiv] at precision 53 and maximal exponent 1024 applied to
    the two integers read as exact floats with exponent 0.  The
    instance [calculator_typed] shows that every handler returns a value
    of its annotated return type ([-> int], [-> Union[float, str]]). *)

From S2P Require Import Prelude Py Mcp.
From stdpp Require Import strings gmap.
From Stdlib Require Import String Floats.SpecFloat.
Local Open Scope Z_scope.

(** ** The tools (server_calculator.py, lines 7-30) *)

Definition add (a b : Z) : Z := a + b.
Definition subtract (a b : Z) : Z := a - b.
Definition multiply (a b : Z) : Z := a * b.

(** [Union[float, str]] *)
Inductive FloatOrStr : Type :=
| DFloat (f : spec_float)
| DStr (s : string).

(** An integer as an exact float with exponent 0 (mantissa unbounded):
    the operands CPython's [long_true_divide] rounds from. *)
Definition float_of_int (z : Z) : spec_float :=
  match z with
  | Z0 => S754_zero false
  | Zpos p => S754_finite false p 0
  | Zneg p => S754_finite true p 0
  end.

(** CPython's [a / b] on two [int]s. *)
Definition py_truediv (a b : Z) : Out PyExc spec_float :=
  if decide (b = 0) then Raise (ZeroDivisionError "division by zero")
  else match SFdiv 53 1024 (float_of_int a) (float_of_int b) with
       | S754_infinity _ => Raise (OverflowError "integer division result too large for a float")
       | f => Ret f
       end.

Definition divide_by_zero_msg : string := "Error: Cannot divide by zero.".

Definition divide (a b : Z) : Out PyExc FloatOrStr :=
  if decide (b = 0) then Ret (DStr divide_by_zero_msg)
  else match py_truediv a b with
       | Ret f => Ret (DFloat f)
       | Raise e => Raise e
       end.

(** ** The registry ([mcp = FastMCP("calculator")] and [@mcp.tool()]) *)

Definition int_params : list (string * PType) := [("a", TInt); ("b", TInt)].

Definition val_of_float_or_str (r : FloatOrStr) : PyVal :=
  match r with DFloat f => VFloat f | DStr s => VStr s end.

(** A handler of two [int] parameters; validation guarantees the shape, so
    the last branch is never taken. *)
Definition int2_tool (name descr : string) (ret : RType) (f : Z -> Z -> Out PyExc PyVal) : ToolImpl unit :=
  {| ti_desc := {| td_name := name; td_description := descr; td_params := int_params;
                   td_returns := ret |};
     ti_run := fun vs => match vs with
                         | [VInt a; VInt b] => of_out (f a b)
                         | _ => raise (ValueError "invalid arguments")
                         end |}.

Definition add_tool : ToolImpl unit :=
  int2_tool "add" "Adds two integers together" RInt (fun a b => Ret (VInt (add a b))).
Definition subtract_tool : ToolImpl unit :=
  int2_tool "subtract" "Subtracts the second integer from the first." RInt
    (fun a b => Ret (VInt (subtract a b))).
Definition multiply_tool : ToolImpl unit :=
  int2_tool "multiply" "Multiplies two integers together." RInt (fun a b => Ret (VInt (multiply a b))).
Definition divide_tool : ToolImpl unit :=
  int2_tool "divide"
    "Divides the first integer by the second.
Returns a float or an error message if dividing by zero."
    (RUnion RFloat RStr)
    (fun a b => match divide a b with
                | Ret r => Ret (val_of_float_or_str r)
                | Raise e => Raise e
                end).

#[export] Instance calculator : McpServer unit :=
  [add_tool; subtract_tool; multiply_tool; divide_tool].

#[export] Instance calculator_wf : McpServerWf unit.
Proof. unfold McpServerWf. apply (bool_decide_unpack _ (dec := NoDup_dec _)). vm_compute. reflexivity. Qed.

(** The argument object the adapters send: [{"a": a, "b": b}]. *)
Definition int_args (a b : Z) : Args := {[ "a" := VInt a; "b" := VInt b ]}.

(** ** Properties of the executor *)

Definition overflow_msg : string :=
  "Error executing tool divide: integer division result too large for a float".

(** The two-[int] tools of the registry run their handler on the two
    arguments of [int_args]. *)
Lemma call_int2_tool name descr ret f a b :
  int2_tool name descr ret f ∈ mcp_registry ->
  call_tool name (int_args a b) tt =
    match f a b with
    | Ret v => (TOk v, tt)
    | Raise e => (TErr ("Error executing tool " ++ name ++ ": " ++ py_str_exc e)%string, tt)
    end.
Proof.
  intros Hin. rewrite (call_tool_run name _ _ (int2_tool name descr ret f) [VInt a; VInt b]).
  - simpl. by destruct (f a b).
  - apply (find_tool_registered _ Hin).
  - reflexivity.
Qed.

Lemma float_of_int_opp z :
  z <> 0 -> float_of_int (- z) = SFopp (float_of_int z).
Proof. by destruct z. Qed.

(** The abstract contract of the arithmetic tools: Python's unbounded
    [+], [-], [*] on the two arguments. *)
Definition arith_spec (name : string) (a b : Z) : option Z :=
  if String.eqb name "add" then Some (a + b)
  else if String.eqb name "subtract" then Some (a - b)
  else if String.eqb name "multiply" then Some (a * b)
  else None.

Lemma arith_spec_cases name a b r :
  arith_spec name a b = Some r ->
  (name = "add" /\ r = a + b) \/ (name = "subtract" /\ r = a - b) \/
  (name = "multiply" /\ r = a * b).
Proof.
  unfold arith_spec.
  destruct (String.eqb_spec name "add"); [injection 1; auto|].
  destruct (String.eqb_spec name "subtract"); [injection 1; auto|].
  destruct (String.eqb_spec name "multiply"); [injection 1; auto|done].
Qed.

Lemma call_arith name a b r :
  arith_spec name a b = Some r -> call_tool name (int_args a b) tt = (TOk (VInt r), tt).
Proof.
  intros Hs. apply arith_spec_cases in Hs as [[-> ->]|[[-> ->]|[-> ->]]].
  - by rewrite (call_int2_tool _ _ _ _ a b (ltac:(set_solver) : add_tool ∈ mcp_registry)).
  - by rewrite (call_int2_tool _ _ _ _ a b (ltac:(set_solver) : subtract_tool ∈ mcp_registry)).
  - by rewrite (call_int2_tool _ _ _ _ a b (ltac:(set_solver) : multiply_tool ∈ mcp_registry)).
Qed.

(** C5: the three arithmetic tools, called through FastMCP's dispatch with
    the argument object the adapters build, return the exact
    (unbounded) sum, difference and product and leave the executor as it
    was. *)
Theorem calculator_arith_exact (a b : Z) :
  call_tool "add" (int_args a b) tt = (TOk (VInt (a + b)), tt) /\
  call_tool "subtract" (int_args a b) tt = (TOk (VInt (a - b)), tt) /\
  call_tool "multiply" (int_args a b) tt = (TOk (VInt (a * b)), tt).
Proof. repeat split; by apply call_arith. Qed.

Lemma divide_tool_registered : divide_tool ∈ mcp_registry.
Proof. unfold mcp_registry, calculator. set_solver. Qed.

Lemma call_divide a b :
  call_tool "divide" (int_args a b) tt =
    match divide a b with
    | Ret r => (TOk (val_of_float_or_str r), tt)
    | Raise e => (TErr ("Error executing tool divide: " ++ py_str_exc e)%string, tt)
    end.
Proof. rewrite (call_int2_tool _ _ _ _ a b divide_tool_registered). by destruct (divide a b). Qed.

(** C6: dividing by zero is not an error of the call: whatever the
    dividend, the executor answers with the exact sentinel string. *)
Theorem divide_by_zero_sentinel (a : Z) :
  call_tool "divide" (int_args a 0) tt = (TOk (VStr "Error: Cannot divide by zero."), tt).
Proof. by rewrite call_divide. Qed.

(** C7: with a nonzero divisor the executor never answers with the
    sentinel and never lets [ZeroDivisionError] out: it returns the
    binary64 rounding of the exact quotient, a finite float, or, when that
    rounding overflows, the error result of CPython's [OverflowError]. *)
Theorem divide_nonzero_float (a b : Z) :
  b <> 0 ->
  (exists f, call_tool "divide" (int_args a b) tt = (TOk (VFloat f), tt) /\
             f = SFdiv 53 1024 (float_of_int a) (float_of_int b) /\
             forall s, f <> S754_infinity s) \/
  call_tool "divide" (int_args a b) tt = (TErr overflow_msg, tt).
Proof.
  intros Hb. rewrite call_divide. unfold divide, py_truediv.
  rewrite !decide_False by done.
  destruct (SFdiv 53 1024 (float_of_int a) (float_of_int b)) eqn:Hf;
    [| by right | ..]; left; eexists; (split; [reflexivity|]); split; congruence.
Qed.

(** The witness of C7 at [7 / 2]: the quotient [3.5] is exact. *)
Lemma divide_nonzero_float_witness :
  2 <> 0 /\
  call_tool "divide" (int_args 7 2) tt
    = (TOk (VFloat (S754_finite false 7881299347898368 (-51))), tt).
Proof.
  split; [lia|].
  destruct (divide_nonzero_float 7 2 ltac:(lia)) as [[f [-> [Hf _]]] | Hov].
  - subst f. vm_compute. reflexivity.
  - vm_compute in Hov. discriminate.
Defined.

(** The overflow branch is reachable: [10**400 / 1]. *)
Example divide_overflow_10_400 :
  call_tool "divide" (int_args (10 ^ 400) 1) tt = (TErr overflow_msg, tt).
Proof. vm_compute. reflexivity. Qed.

(** ** The return annotations hold *)

Lemma int2_tool_typed name descr ret f :
  (forall a b v, f a b = Ret v -> has_rtype ret v = true) ->
  forall vs s v s', ti_run (int2_tool name descr ret f) vs s = (Ret v, s') -> has_rtype ret v = true.
Proof.
  intros Hf vs s v s' H. destruct vs as [|[a| |] [|[b| |] [|]]]; simpl in H; try discriminate.
  destruct (f a b) eqn:E; [injection H as <- _; by eapply Hf|discriminate].
Qed.

#[export] Instance calculator_typed : McpServerTyped unit.
Proof.
  intros t vs s v s' Ht. unfold mcp_registry, calculator in Ht.
  repeat (apply elem_of_cons in Ht as [->|Ht]); [..|by apply not_elem_of_nil in Ht];
    apply int2_tool_typed; intros a b r Hr; cbv beta in Hr; [by injection Hr as <- ..|].
  destruct (divide a b) as [[f|str]|e]; [by injection Hr as <- ..|discriminate].
Qed.

(** C34: the calculator's results have the types its functions declare:
    a successful call of [add], [subtract] or [multiply] returns an
    [int], a successful call of [divide] a [float] or a [str], and no
    other name returns anything. *)
Theorem calculator_results_typed name args v s :
  call_tool name args tt = (TOk v, s) ->
  (name ∈ ["add"; "subtract"; "multiply"] /\ exists z, v = VInt z) \/
  (name = "divide" /\ ((exists f, v = VFloat f) \/ exists str, v = VStr str)).
Proof.
  intros Hc. destruct (call_tool_typed _ _ _ _ _ Hc) as (t & Hf & Hty).
  apply find_tool_Some in Hf as [<- Ht]. unfold mcp_registry, calculator in Ht.
  repeat (apply elem_of_cons in Ht as [->|Ht]); [..|by apply not_elem_of_nil in Ht];
    simpl in *; destruct v; try discriminate.
  1-3: left; split; [set_solver|by eexists].
  - right. split; [done|]. left. by eexists.
  - right. split; [done|]. right. by eexists.
Qed.

(** The witness of C34 at [divide(5, 0)]: the sentinel is a [str]. *)
Lemma calculator_results_typed_witness :
  call_tool "divide" (int_args 5 0) tt = (TOk (VStr divide_by_zero_msg), tt) /\
  (("divide" ∈ ["add"; "subtract"; "multiply"] /\ exists z, VStr divide_by_zero_msg = VInt z) \/
   ("divide" = "divide" /\ ((exists f, VStr divide_by_zero_msg = VFloat f) \/
                            exists str, VStr divide_by_zero_msg = VStr str))).
Proof.
  split; [vm_compute; reflexivity|].
  apply (calculator_results_typed "divide" (int_args 5 0) (VStr divide_by_zero_msg) tt).
  vm_compute. reflexivity.
Defined.
