(* ===== verification/Division.v ===== *)
(** * Exactness of [divide] on integer quotients ([src/server_calculator.py], line 30)

    CPython's [int / int] ([long_true_divide]) rounds the exact rational
    quotient once to binary64.  Calculator.v models it as Stdlib's
    [SpecFloat.SFdiv] at precision 53 and maximal exponent 1024 on the two
    integers read as exact floats.  This file proves that when [b] divides
    [a] and the quotient has at most 53 significant bits, the rounding is
    exact: the tool returns the float [float(a // b)], whose value is
    [a / b] itself, as the spec's contract ("returns a/b as a
    floating-point value") asks.  The proof follows SpecFloat's algorithm:
    [SFdiv_core_binary] shifts the dividend so that the integer quotient
    has 53 or 54 bits; the remainder is zero, so the location is exact; and
    [binary_round_aux] is invariant under exact rescaling of a canonical
    mantissa ([binary_round_aux_rescale]).  A zero dividend gives a zero
    whose sign is the divisor's ([0 / -3] is [-0.0]).

    The second half bounds the rounding itself: [shr_fexp_spec] says what
    one shift step computes, from which a mantissa [m * 2^e] below
    [2^1023] never rounds to infinity ([binary_round_aux_not_inf]) and one
    of at least [2^1024] always does ([binary_round_aux_inf]).  Hence
    [divide] raises CPython's [OverflowError] exactly by magnitude: never
    when [|a| < 2^1023 * |b|], always when [|a| >= 2^1024 * |b|]. *)

From S2P Require Import Prelude Py Mcp Calculator.
From stdpp Require Import strings gmap.
From Stdlib Require Import String Floats.SpecFloat.
Local Open Scope Z_scope.

(** The shift record of an exactly represented mantissa (no round bit, no
    sticky bit), and SpecFloat's canonical-exponent condition at binary64. *)
Definition exact_rec (m : positive) : shr_record :=
  {| shr_m := Zpos m; shr_r := false; shr_s := false |}.

Definition canonical53 (m : positive) (e : Z) : Prop :=
  fexp 53 1024 (Zpos (digits2_pos m) + e) = e.

(** ** Digits and shifts of positive mantissas *)

Lemma digits2_pos_size p : digits2_pos p = Pos.size p.
Proof. induction p; simpl; congruence. Qed.

Lemma digits2_pos_shift m k : digits2_pos (Pos.iter xO m k) = (digits2_pos m + k)%positive.
Proof.
  induction k using Pos.peano_ind.
  - simpl. rewrite Pos.add_1_r. reflexivity.
  - rewrite Pos.iter_succ. simpl. rewrite IHk. rewrite Pos.add_succ_r. reflexivity.
Qed.

Lemma iter_xO_mul m k : Zpos (Pos.iter xO m k) = Zpos m * 2 ^ Zpos k.
Proof.
  induction k using Pos.peano_ind.
  - simpl. lia.
  - rewrite Pos.iter_succ. rewrite Pos2Z.inj_succ, Z.pow_succ_r by lia.
    change (Zpos (Pos.iter xO m k)~0) with (2 * Zpos (Pos.iter xO m k)). rewrite IHk. lia.
Qed.

(** Shifting out [p] zero bits is exact. *)
Lemma shr_iter_exact p m :
  iter_pos shr_1 p (exact_rec (Pos.iter xO m p)) = exact_rec m.
Proof.
  revert m. induction p as [p IH|p IH|]; intros m; unfold exact_rec in *; simpl.
  - rewrite IH, IH. reflexivity.
  - rewrite IH, IH. reflexivity.
  - reflexivity.
Qed.

(** ** Rounding a canonical mantissa, possibly rescaled, is exact *)

Lemma shr_fexp_canon m e :
  canonical53 m e -> shr_fexp 53 1024 (Zpos m) e loc_Exact = (exact_rec m, e).
Proof.
  unfold canonical53, shr_fexp, shr. simpl Zdigits2. intros ->. by rewrite Z.sub_diag.
Qed.

Lemma shr_fexp_rescale m e k :
  canonical53 m e ->
  shr_fexp 53 1024 (Zpos (Pos.iter xO m k)) (e - Zpos k) loc_Exact = (exact_rec m, e).
Proof.
  unfold canonical53, shr_fexp, shr. simpl Zdigits2. rewrite digits2_pos_shift.
  intros Hc. replace (Zpos (digits2_pos m + k) + (e - Zpos k)) with (Zpos (digits2_pos m) + e) by lia.
  rewrite Hc. replace (e - (e - Zpos k)) with (Zpos k) by lia.
  change (shr_record_of_loc (Zpos (Pos.iter xO m k)) loc_Exact) with (exact_rec (Pos.iter xO m k)). rewrite shr_iter_exact. f_equal. lia.
Qed.

Lemma binary_round_aux_canon sx m e :
  canonical53 m e -> e <= 971 ->
  binary_round_aux 53 1024 sx (Zpos m) e loc_Exact = S754_finite sx m e.
Proof.
  intros Hc He. unfold binary_round_aux. rewrite shr_fexp_canon by done. simpl.
  rewrite shr_fexp_canon by done. simpl. destruct (Z.leb_spec e (1024 - 53)); [reflexivity|lia].
Qed.

Lemma binary_round_aux_rescale sx m e k :
  canonical53 m e -> e <= 971 ->
  binary_round_aux 53 1024 sx (Zpos (Pos.iter xO m k)) (e - Zpos k) loc_Exact = S754_finite sx m e.
Proof.
  intros Hc He. unfold binary_round_aux. rewrite shr_fexp_rescale by done. simpl.
  rewrite shr_fexp_canon by done. simpl. destruct (Z.leb_spec e (1024 - 53)); [reflexivity|lia].
Qed.

(** ** Digit counts of a quotient *)

Lemma digits2_pos_bounds p :
  2 ^ (Zpos (digits2_pos p) - 1) <= Zpos p < 2 ^ Zpos (digits2_pos p).
Proof.
  rewrite digits2_pos_size. split.
  - pose proof (Pos2Z.pos_le_pos _ _ (Pos.size_le p)) as H. rewrite Pos2Z.inj_pow in H.
    change (Zpos p~0) with (2 * Zpos p) in H.
    rewrite Z.pow_sub_r by lia. apply Z.div_le_upper_bound; lia.
  - pose proof (Pos2Z.pos_lt_pos _ _ (Pos.size_gt p)) as H. rewrite Pos2Z.inj_pow in H. exact H.
Qed.

Lemma pow2_lt_exp x y : 0 <= y -> 2 ^ x < 2 ^ y -> x < y.
Proof.
  intros Hy H. destruct (Z.lt_ge_cases x 0) as [Hx|Hx]; [lia|].
  apply (Z.pow_lt_mono_r_iff 2); lia.
Qed.

Lemma digits2_pos_mul pq pb :
  Zpos (digits2_pos pq) + Zpos (digits2_pos pb) - 1 <= Zpos (digits2_pos (pq * pb))
  <= Zpos (digits2_pos pq) + Zpos (digits2_pos pb).
Proof.
  destruct (digits2_pos_bounds pq) as [Hq1 Hq2].
  destruct (digits2_pos_bounds pb) as [Hb1 Hb2].
  destruct (digits2_pos_bounds (pq * pb)) as [Ha1 Ha2].
  rewrite Pos2Z.inj_mul in Ha1, Ha2. split.
  - enough (Zpos (digits2_pos pq) + Zpos (digits2_pos pb) - 2 < Zpos (digits2_pos (pq * pb))) by lia.
    apply pow2_lt_exp; [lia|].
    replace (Zpos (digits2_pos pq) + Zpos (digits2_pos pb) - 2)
      with ((Zpos (digits2_pos pq) - 1) + (Zpos (digits2_pos pb) - 1)) by lia.
    rewrite Z.pow_add_r by lia. eapply Z.le_lt_trans; [|exact Ha2].
    apply Z.mul_le_mono_nonneg; auto using Z.pow_nonneg with lia.
  - enough (Zpos (digits2_pos (pq * pb)) - 1 < Zpos (digits2_pos pq) + Zpos (digits2_pos pb)) by lia.
    apply pow2_lt_exp; [lia|]. rewrite Z.pow_add_r by lia.
    eapply Z.le_lt_trans; [exact Ha1|]. apply Z.mul_lt_mono_nonneg; lia.
Qed.

Lemma fexp53_eq x : -1021 <= x -> fexp 53 1024 x = x - 53.
Proof. intros Hx. unfold fexp, emin. lia. Qed.

(** ** Integer division by SpecFloat *)

(** [float(p)] for [p] of at most 53 bits: the mantissa shifted to 53 bits. *)
Lemma binary_round_int sx p :
  Zpos (digits2_pos p) <= 53 ->
  exists m, Zpos m = Zpos p * 2 ^ (53 - Zpos (digits2_pos p)) /\
    canonical53 m (Zpos (digits2_pos p) - 53) /\
    binary_round 53 1024 sx p 0 = S754_finite sx m (Zpos (digits2_pos p) - 53).
Proof.
  intros Hd. unfold binary_round, shl_align. rewrite fexp53_eq by lia.
  destruct (Z.eq_dec (Zpos (digits2_pos p)) 53) as [E|E].
  - rewrite E. exists p. simpl. split; [lia|].
    assert (Hc : canonical53 p 0) by (unfold canonical53; rewrite fexp53_eq; lia).
    split; [exact Hc|]. apply binary_round_aux_canon; [exact Hc|lia].
  - destruct (Zpos (digits2_pos p) + 0 - 53 - 0) as [|k|k] eqn:Hk; [lia|lia|].
    assert (Hk' : Zpos k = 53 - Zpos (digits2_pos p)) by lia.
    assert (Hc : canonical53 (Pos.iter xO p k) (Zpos (digits2_pos p) - 53)).
    { unfold canonical53. rewrite digits2_pos_shift, fexp53_eq; lia. }
    exists (Pos.iter xO p k). split; [rewrite iter_xO_mul, Hk'; reflexivity|]. split; [exact Hc|].
    replace (Zpos (digits2_pos p) + 0 - 53) with (Zpos (digits2_pos p) - 53) by lia.
    apply binary_round_aux_canon; [exact Hc|lia].
Qed.

Lemma binary_round_aux_shift sx p s :
  Zpos (digits2_pos p) <= 53 ->
  s = 53 - Zpos (digits2_pos p) \/ s = 54 - Zpos (digits2_pos p) ->
  binary_round_aux 53 1024 sx (Zpos p * 2 ^ s) (- s) loc_Exact = binary_round 53 1024 sx p 0.
Proof.
  intros Hd Hs. destruct (binary_round_int sx p Hd) as (m & Hm & Hc & ->).
  destruct Hs as [-> | ->].
  - rewrite <-Hm. replace (- (53 - Zpos (digits2_pos p))) with (Zpos (digits2_pos p) - 53) by lia.
    apply binary_round_aux_canon; [exact Hc|lia].
  - replace (Zpos p * 2 ^ (54 - Zpos (digits2_pos p))) with (Zpos (Pos.iter xO m 1)).
    + replace (- (54 - Zpos (digits2_pos p))) with (Zpos (digits2_pos p) - 53 - Zpos 1) by lia.
      apply binary_round_aux_rescale; [exact Hc|lia].
    + rewrite iter_xO_mul, Hm, <-Z.mul_assoc, <-Z.pow_add_r by lia. f_equal. f_equal. lia.
Qed.

Lemma div_eucl_exact x y : y <> 0 -> Z.div_eucl (x * y) y = (x, 0).
Proof.
  intros Hy. pose proof (Z.div_mul x y Hy) as Hq. pose proof (Z.mod_mul x y Hy) as Hr.
  unfold Z.div, Z.modulo in *. destruct (Z.div_eucl (x * y) y). congruence.
Qed.

(** Dividing [pq * pb] by [pb] rounds to [float(pq)]. *)
Lemma SFdiv_exact sa sb pq pb :
  Zpos (digits2_pos pq) <= 53 ->
  SFdiv 53 1024 (S754_finite sa (pq * pb) 0) (S754_finite sb pb 0)
  = binary_round 53 1024 (xorb sa sb) pq 0.
Proof.
  intros Hd. pose proof (digits2_pos_mul pq pb) as Hm.
  unfold SFdiv, SFdiv_core_binary. simpl Zdigits2.
  rewrite fexp53_eq by lia. rewrite Z.min_l by lia.
  set (s := 0 - 0 - _).
  assert (Hs : match s with Zpos _ => Z.shiftl (Zpos (pq * pb)) s | Z0 => Zpos (pq * pb)
               | Zneg _ => 0 end = Zpos pq * 2 ^ s * Zpos pb).
  { rewrite (Z.mul_comm _ (Zpos pb)), Z.mul_assoc, <-Pos2Z.inj_mul, (Pos.mul_comm pb).
    destruct s eqn:E; [lia| |lia]. rewrite <-E. apply Z.shiftl_mul_pow2. lia. }
  rewrite Hs, div_eucl_exact by lia.
  replace (new_location (Zpos pb) 0) with loc_Exact by (unfold new_location; by destruct (Z.even _)).
  replace (Zpos (digits2_pos (pq * pb)) + 0 - _ - 53) with (- s) by (unfold s; lia).
  apply binary_round_aux_shift; [exact Hd|]. unfold s. lia.
Qed.

(** ** From positive mantissas to the tool *)

Lemma digits2_pos_small p : Zpos p < 2 ^ 53 -> Zpos (digits2_pos p) <= 53.
Proof.
  intros Hp. destruct (digits2_pos_bounds p) as [H _].
  enough (Zpos (digits2_pos p) - 1 < 53) by lia. apply pow2_lt_exp; lia.
Qed.

Lemma float_of_int_nonzero z :
  z <> 0 -> float_of_int z = S754_finite (z <? 0) (Z.to_pos (Z.abs z)) 0.
Proof. destruct z; done. Qed.

(** CPython's [a / b] when [b] divides [a] with a quotient of at most 53
    bits: the float [float(a // b)], a zero carrying the sign of [b] when
    [a = 0]. *)
Lemma py_truediv_exact a b :
  b <> 0 -> (b | a) -> Z.abs (a / b) < 2 ^ 53 ->
  py_truediv a b = Ret (binary_normalize 53 1024 (a / b) 0 (b <? 0)).
Proof.
  intros Hb [q ->]. rewrite Z.div_mul by done. intros Hq.
  unfold py_truediv. rewrite decide_False by done.
  destruct q as [|pq|pq]; [by destruct b|..];
    (destruct b as [|pb|pb]; [done|..]); simpl in Hq; simpl Z.mul; simpl float_of_int;
    (rewrite SFdiv_exact; [|by apply digits2_pos_small]); simpl;
    match goal with |- context [binary_round 53 1024 ?s pq 0] =>
      destruct (binary_round_int s pq) as (m & _ & _ & Hr); [by apply digits2_pos_small|] end;
    by rewrite Hr.
Qed.

Lemma binary_normalize_int q s :
  q <> 0 -> Z.abs q < 2 ^ 53 ->
  exists m e, binary_normalize 53 1024 q 0 s = S754_finite (q <? 0) m e /\
    e <= 0 /\ Zpos m = Z.abs q * 2 ^ (- e).
Proof.
  intros Hq Hs. destruct q as [|p|p]; [done|..]; simpl in Hs; simpl;
    pose proof (digits2_pos_small p Hs) as Hd;
    match goal with |- context [binary_round 53 1024 ?sx p 0] =>
      destruct (binary_round_int sx p Hd) as (m & Hm & _ & Hr) end;
    exists m, (Zpos (digits2_pos p) - 53); rewrite Hr;
    (split; [done|]); (split; [lia|]); rewrite Hm; simpl Z.abs; do 2 f_equal; lia.
Qed.

Lemma div_nonzero a b : b <> 0 -> (b | a) -> a <> 0 -> a / b <> 0.
Proof. intros Hb [q ->] Ha. rewrite Z.div_mul by done. intros ->. lia. Qed.

(** ** The tool on exact quotients *)

(** C23: when [b] divides [a] (both nonzero) and the quotient has at most
    53 significant bits, [divide(a, b)] called through the tool interface
    returns a finite float with the quotient's sign whose value
    [m * 2^e] is exactly [a / b]: no rounding happens. *)
Theorem divide_exact_quotient a b :
  b <> 0 -> (b | a) -> a <> 0 -> Z.abs (a / b) < 2 ^ 53 ->
  exists m e, call_tool "divide" (int_args a b) tt
                = (TOk (VFloat (S754_finite (a / b <? 0) m e)), tt) /\
              e <= 0 /\ Zpos m = Z.abs (a / b) * 2 ^ (- e).
Proof.
  intros Hb Hd Ha Hs. rewrite call_divide. unfold Calculator.divide.
  rewrite decide_False, py_truediv_exact by done.
  destruct (binary_normalize_int (a / b) (b <? 0)) as (m & e & -> & He & Hm);
    [by apply div_nonzero|done|].
  by exists m, e.
Qed.

(** The witness of C23 at [84 / -2 = -42]. *)
Lemma divide_exact_quotient_witness :
  -2 <> 0 /\ (-2 | 84) /\ 84 <> 0 /\ Z.abs (84 / -2) < 2 ^ 53 /\
  exists m e, call_tool "divide" (int_args 84 (-2)) tt
                = (TOk (VFloat (S754_finite (84 / -2 <? 0) m e)), tt) /\
              e <= 0 /\ Zpos m = Z.abs (84 / -2) * 2 ^ (- e).
Proof.
  assert (H1 : -2 <> 0) by lia. assert (H2 : (-2 | 84)) by (exists (-42); reflexivity).
  assert (H3 : 84 <> 0) by lia. assert (H4 : Z.abs (84 / -2) < 2 ^ 53) by reflexivity.
  split; [exact H1|]. split; [exact H2|]. split; [exact H3|]. split; [exact H4|].
  exact (divide_exact_quotient 84 (-2) H1 H2 H3 H4).
Defined.

(** C24: a zero dividend gives a zero float whose sign is the divisor's:
    [divide(0, b)] is [0.0] for [b > 0] and [-0.0] for [b < 0]. *)
Theorem divide_zero_dividend b :
  b <> 0 -> call_tool "divide" (int_args 0 b) tt = (TOk (VFloat (S754_zero (b <? 0))), tt).
Proof.
  intros Hb. rewrite call_divide. unfold Calculator.divide, py_truediv.
  rewrite !decide_False by done. by destruct b.
Qed.

(** The witness of C24 at [0 / -3], which Python prints as [-0.0]. *)
Lemma divide_zero_dividend_witness :
  -3 <> 0 /\ call_tool "divide" (int_args 0 (-3)) tt = (TOk (VFloat (S754_zero true)), tt).
Proof. split; [lia|]. exact (divide_zero_dividend (-3) ltac:(lia)). Defined.


(** ** Overflow: bounds on SpecFloat's rounding *)

Lemma zdigits2_nonneg m : 0 <= Zdigits2 m.
Proof. destruct m; simpl; lia. Qed.

Lemma zdigits2_upper m : 0 <= m -> m < 2 ^ Zdigits2 m.
Proof. destruct m as [|p|p]; simpl; [lia| |lia]. intros _. apply digits2_pos_bounds. Qed.

Lemma zdigits2_lower m : 0 < m -> 2 ^ (Zdigits2 m - 1) <= m.
Proof. destruct m as [|p|p]; simpl; [lia| |lia]. intros _. apply digits2_pos_bounds. Qed.

Lemma zdigits2_le m D : 0 <= m < 2 ^ D -> 0 <= D -> Zdigits2 m <= D.
Proof.
  intros [H0 H1] HD. destruct (Z.eq_dec m 0) as [->|Hm]; [simpl; lia|].
  pose proof (zdigits2_lower m ltac:(lia)).
  enough (Zdigits2 m - 1 < D) by lia. apply pow2_lt_exp; lia.
Qed.

Lemma zdigits2_ge m D : 0 <= D -> 2 ^ D <= m -> D < Zdigits2 m.
Proof.
  intros HD H. pose proof (zdigits2_upper m ltac:(lia)).
  apply pow2_lt_exp; [apply zdigits2_nonneg|lia].
Qed.

Lemma shr_1_div r : 0 <= shr_m r -> shr_m (shr_1 r) = shr_m r / 2.
Proof.
  destruct r as [[|p|p] rr ss]; simpl; intros H; [done| |lia].
  destruct p; simpl; [rewrite Pos2Z.inj_xI | rewrite Pos2Z.inj_xO|]; Z.div_mod_to_equations; lia.
Qed.

Lemma shr_1_nonneg r : 0 <= shr_m r -> 0 <= shr_m (shr_1 r).
Proof. intros H. rewrite shr_1_div by done. apply Z.div_pos; lia. Qed.

Lemma iter_shr_div p r :
  0 <= shr_m r -> shr_m (iter_pos shr_1 p r) = shr_m r / 2 ^ Zpos p /\ 0 <= shr_m (iter_pos shr_1 p r).
Proof.
  revert r. induction p as [p IH|p IH|]; intros r Hr; simpl.
  - pose proof (shr_1_nonneg r Hr) as H1. destruct (IH _ H1) as [E1 N1]. destruct (IH _ N1) as [E2 N2].
    split; [|done]. rewrite E2, E1, shr_1_div, !Z.div_div by lia. f_equal.
    replace (Zpos p~1) with (1 + Zpos p + Zpos p) by lia.
    rewrite !Z.pow_add_r by lia. lia.
  - destruct (IH _ Hr) as [E1 N1]. destruct (IH _ N1) as [E2 N2].
    split; [|done]. rewrite E2, E1, Z.div_div by lia. f_equal.
    replace (Zpos p~0) with (Zpos p + Zpos p) by lia.
    rewrite Z.pow_add_r by lia. lia.
  - split; [apply shr_1_div|apply shr_1_nonneg]; done.
Qed.

Lemma shr_fexp_spec m e l r e1 :
  0 <= m -> shr_fexp 53 1024 m e l = (r, e1) ->
  e1 = Z.max e (fexp 53 1024 (Zdigits2 m + e)) /\ shr_m r = m / 2 ^ (e1 - e) /\ 0 <= shr_m r.
Proof.
  intros Hm. unfold shr_fexp, shr.
  assert (Hl : shr_m (shr_record_of_loc m l) = m) by (destruct l as [|[]]; reflexivity).
  destruct (fexp 53 1024 (Zdigits2 m + e) - e) as [|p|p] eqn:E; intros [= <- <-].
  - rewrite Z.sub_diag, Z.div_1_r. lia.
  - destruct (iter_shr_div p (shr_record_of_loc m l)) as [H1 H2]; [lia|].
    split; [lia|split; [|exact H2]]. rewrite H1, Hl. do 2 f_equal. lia.
  - rewrite Z.sub_diag, Z.div_1_r. lia.
Qed.

Lemma round_nearest_even_bounds m l : m <= round_nearest_even m l <= m + 1.
Proof. destruct l as [|[]]; simpl; try destruct (Z.even m); lia. Qed.

Lemma fexp53_le x : fexp 53 1024 x <= Z.max (x - 53) (-1074).
Proof. unfold fexp, emin. lia. Qed.

Lemma div_pow_lt m k d : 0 <= k <= d -> m < 2 ^ d -> m / 2 ^ k < 2 ^ (d - k).
Proof.
  intros Hk Hm. apply Z.div_lt_upper_bound; [lia|].
  rewrite <-Z.pow_add_r by lia. replace (k + (d - k)) with d by lia. exact Hm.
Qed.

(** A mantissa [m * 2^e] below [2^1023] does not round to infinity. *)
Lemma binary_round_aux_not_inf sx m e l :
  0 <= m -> e <= 971 -> Zdigits2 m + e <= 1023 ->
  forall s, binary_round_aux 53 1024 sx m e l <> S754_infinity s.
Proof.
  intros Hm He HD s. unfold binary_round_aux.
  destruct (shr_fexp 53 1024 m e l) as [r1 e1] eqn:H1.
  destruct (shr_fexp_spec _ _ _ _ _ Hm H1) as (Ee1 & Em1 & Nm1).
  pose proof (round_nearest_even_bounds (shr_m r1) (loc_of_shr_record r1)) as Hr.
  set (m2 := round_nearest_even (shr_m r1) (loc_of_shr_record r1)) in *.
  destruct (shr_fexp 53 1024 m2 e1 loc_Exact) as [r2 e2] eqn:H2.
  destruct (shr_fexp_spec m2 e1 loc_Exact r2 e2 ltac:(lia) H2) as (Ee2 & _ & _).
  assert (Hd2 : Zdigits2 m2 + e1 <= 1024).
  { pose proof (zdigits2_upper m Hm). pose proof (fexp53_le (Zdigits2 m + e)).
    destruct (Z.eq_dec (shr_m r1) 0) as [E0|E0].
    - assert (Zdigits2 m2 <= 1) by (apply zdigits2_le; lia). lia.
    - assert (Hk : e1 - e < Zdigits2 m).
      { apply pow2_lt_exp; [apply zdigits2_nonneg|].
        assert (2 ^ (e1 - e) <= m); [|lia].
        destruct (Z.le_gt_cases (2 ^ (e1 - e)) m) as [|Hlt]; [done|].
        rewrite Em1, Z.div_small in E0; [done|]. lia. }
      pose proof (div_pow_lt m (e1 - e) (Zdigits2 m) ltac:(lia) ltac:(lia)).
      assert (Zdigits2 m2 <= Zdigits2 m - (e1 - e) + 1); [|lia].
      apply zdigits2_le; [|lia]. rewrite Z.pow_add_r by lia. lia. }
  assert (He2 : e2 <= 971).
  { pose proof (fexp53_le (Zdigits2 m + e)). pose proof (fexp53_le (Zdigits2 m2 + e1)). lia. }
  destruct (shr_m r2) as [|p|p]; [done| |done].
  destruct (Z.leb_spec e2 (1024 - 53)); [done|lia].
Qed.

(** A mantissa of at least 53 bits with [m * 2^e >= 2^1024] rounds to
    infinity. *)
Lemma binary_round_aux_inf sx m e l :
  0 < m -> 53 <= Zdigits2 m -> 1025 <= Zdigits2 m + e ->
  binary_round_aux 53 1024 sx m e l = S754_infinity sx.
Proof.
  intros Hm Hd HD. unfold binary_round_aux.
  destruct (shr_fexp 53 1024 m e l) as [r1 e1] eqn:H1.
  destruct (shr_fexp_spec m e l r1 e1 ltac:(lia) H1) as (Ee1 & Em1 & Nm1).
  rewrite fexp53_eq in Ee1 by lia. replace e1 with (Zdigits2 m + e - 53) in * by lia.
  replace (Zdigits2 m + e - 53 - e) with (Zdigits2 m - 53) in Em1 by lia.
  assert (Hlo : 2 ^ 52 <= shr_m r1).
  { rewrite Em1. apply Z.div_le_lower_bound; [lia|].
    rewrite <-Z.pow_add_r by lia. replace (Zdigits2 m - 53 + 52) with (Zdigits2 m - 1) by lia.
    by apply zdigits2_lower. }
  assert (Hhi : shr_m r1 < 2 ^ 53).
  { rewrite Em1. replace 53 with (Zdigits2 m - (Zdigits2 m - 53)) at 2 by lia.
    apply div_pow_lt; [lia|]. apply zdigits2_upper. lia. }
  pose proof (round_nearest_even_bounds (shr_m r1) (loc_of_shr_record r1)) as Hr.
  set (m2 := round_nearest_even (shr_m r1) (loc_of_shr_record r1)) in *.
  destruct (shr_fexp 53 1024 m2 (Zdigits2 m + e - 53) loc_Exact) as [r2 e2] eqn:H2.
  destruct (shr_fexp_spec m2 _ loc_Exact r2 e2 ltac:(lia) H2) as (Ee2 & Em2 & _).
  assert (Zdigits2 m2 <= 54) by (apply zdigits2_le; lia).
  pose proof (fexp53_le (Zdigits2 m2 + (Zdigits2 m + e - 53))).
  assert (Hk : e2 - (Zdigits2 m + e - 53) = 0 \/ e2 - (Zdigits2 m + e - 53) = 1) by lia.
  assert (Hpos : 0 < shr_m r2).
  { rewrite Em2. destruct Hk as [-> | ->]; simpl; apply Z.div_str_pos; lia. }
  destruct (shr_m r2) as [|p|p]; [lia| |lia].
  destruct (Z.leb_spec e2 (1024 - 53)); [lia|done].
Qed.

Lemma SFdiv_core_int pa pb q e' lz :
  SFdiv_core_binary 53 1024 (Zpos pa) 0 (Zpos pb) 0 = (q, e', lz) ->
  e' = Z.min (fexp 53 1024 (Zpos (digits2_pos pa) - Zpos (digits2_pos pb))) 0 /\
  q = Zpos pa * 2 ^ (- e') / Zpos pb.
Proof.
  unfold SFdiv_core_binary. simpl Zdigits2. rewrite !Z.add_0_r, !Z.sub_0_r.
  set (e0 := Z.min _ 0).
  assert (Hs : match - e0 with Zpos _ => Z.shiftl (Zpos pa) (- e0) | Z0 => Zpos pa
               | Zneg _ => 0 end = Zpos pa * 2 ^ (- e0)).
  { destruct (- e0) eqn:E; [lia| |unfold e0 in E; lia].
    rewrite <-E. apply Z.shiftl_mul_pow2. lia. }
  replace (0 - e0) with (- e0) by lia. rewrite Hs.
  destruct (Z.div_eucl (Zpos pa * 2 ^ (- e0)) (Zpos pb)) as [q0 r0] eqn:E.
  intros [= <- <- _]. split; [done|]. unfold Z.div. by rewrite E.
Qed.

Lemma SFdiv_int_finite sa sb pa pb :
  Zpos pa < 2 ^ 1023 * Zpos pb ->
  forall s, SFdiv 53 1024 (S754_finite sa pa 0) (S754_finite sb pb 0) <> S754_infinity s.
Proof.
  intros Hlt. simpl SFdiv.
  destruct (SFdiv_core_binary 53 1024 (Zpos pa) 0 (Zpos pb) 0) as [[q e'] lz] eqn:E.
  apply SFdiv_core_int in E as [He' ->].
  assert (e' <= 0) by lia.
  assert (Hq : Zpos pa * 2 ^ (- e') / Zpos pb < 2 ^ (1023 - e')).
  { apply Z.div_lt_upper_bound; [lia|].
    replace (1023 - e') with (1023 + - e') by lia. rewrite Z.pow_add_r by lia.
    pose proof (Z.pow_pos_nonneg 2 (- e')). nia. }
  apply binary_round_aux_not_inf; [apply Z.div_pos; [apply Z.mul_nonneg_nonneg|]; lia|lia|].
  enough (Zdigits2 (Zpos pa * 2 ^ (- e') / Zpos pb) <= 1023 - e') by lia.
  apply zdigits2_le; [split; [apply Z.div_pos; [apply Z.mul_nonneg_nonneg|]; lia|exact Hq]|lia].
Qed.

Lemma SFdiv_int_overflow sa sb pa pb :
  2 ^ 1024 * Zpos pb <= Zpos pa ->
  SFdiv 53 1024 (S754_finite sa pa 0) (S754_finite sb pb 0) = S754_infinity (xorb sa sb).
Proof.
  intros Hge. simpl SFdiv.
  destruct (SFdiv_core_binary 53 1024 (Zpos pa) 0 (Zpos pb) 0) as [[q e'] lz] eqn:E.
  apply SFdiv_core_int in E as [He' ->].
  destruct (digits2_pos_bounds pb) as [Hb _].
  assert (Hd : 1023 + Zpos (digits2_pos pb) < Zpos (digits2_pos pa)).
  { apply (zdigits2_ge (Zpos pa)); [lia|].
    replace (1023 + Zpos (digits2_pos pb)) with (1024 + (Zpos (digits2_pos pb) - 1)) by lia.
    rewrite Z.pow_add_r by lia. nia. }
  rewrite fexp53_eq, Z.min_r in He' by lia. subst e'. rewrite Z.mul_1_r.
  assert (Hq : 2 ^ 1024 <= Zpos pa / Zpos pb) by (apply Z.div_le_lower_bound; lia).
  assert (1024 < Zdigits2 (Zpos pa / Zpos pb)) by (apply zdigits2_ge; lia).
  apply binary_round_aux_inf; lia.
Qed.

Lemma py_truediv_bounds a b :
  b <> 0 ->
  (Z.abs a < 2 ^ 1023 * Z.abs b -> exists f, py_truediv a b = Ret f) /\
  (2 ^ 1024 * Z.abs b <= Z.abs a ->
     py_truediv a b = Raise (OverflowError "integer division result too large for a float")).
Proof.
  intros Hb. unfold py_truediv. rewrite decide_False by done.
  rewrite (float_of_int_nonzero b Hb).
  destruct (Z.eq_dec a 0) as [->|Ha].
  - split; [intros _; by eexists|]. lia.
  - rewrite (float_of_int_nonzero a Ha).
    replace (Z.abs a) with (Zpos (Z.to_pos (Z.abs a))) by lia.
    replace (Z.abs b) with (Zpos (Z.to_pos (Z.abs b))) by lia.
    split.
    + intros Hlt. destruct (SFdiv _ _ _ _) eqn:E; try by eexists.
      by apply SFdiv_int_finite in E.
    + intros Hge. by rewrite SFdiv_int_overflow.
Qed.

(** C25: OverflowError is a matter of magnitude only: [divide(a, b)]
    returns a float whenever [|a| < 2^1023 * |b|], and answers with
    CPython's overflow error whenever [|a| >= 2^1024 * |b|]. *)
Theorem divide_overflow_threshold a b :
  b <> 0 ->
  (Z.abs a < 2 ^ 1023 * Z.abs b ->
     exists f, call_tool "divide" (int_args a b) tt = (TOk (VFloat f), tt)) /\
  (2 ^ 1024 * Z.abs b <= Z.abs a ->
     call_tool "divide" (int_args a b) tt = (TErr overflow_msg, tt)).
Proof.
  intros Hb. rewrite call_divide. unfold Calculator.divide. rewrite decide_False by done.
  destruct (py_truediv_bounds a b Hb) as [H1 H2]. split.
  - intros Hlt. destruct (H1 Hlt) as [f ->]. by exists f.
  - intros Hge. by rewrite (H2 Hge).
Qed.

(** The witness of C25 on both sides of the threshold: [7 / 2] is a
    float and [10**400 / 1] overflows. *)
Lemma divide_overflow_threshold_witness :
  1 <> 0 /\ 2 <> 0 /\
  (exists f, call_tool "divide" (int_args 7 2) tt = (TOk (VFloat f), tt)) /\
  call_tool "divide" (int_args (10 ^ 400) 1) tt = (TErr overflow_msg, tt).
Proof.
  assert (H1 : 1 <> 0) by lia. assert (H2 : 2 <> 0) by lia.
  split; [exact H1|]. split; [exact H2|]. split.
  - apply (proj1 (divide_overflow_threshold 7 2 H2)). lia.
  - apply (proj2 (divide_overflow_threshold (10 ^ 400) 1 H1)). apply Z.leb_le. vm_compute. reflexivity.
Defined.

(** The bound of C23 is tight: [2^53 + 1] has 54 bits and [(2^53 + 1) / 1]
    rounds to the even neighbour [2^53]. *)
Example divide_rounds_past_53_bits :
  call_tool "divide" (int_args (2 ^ 53 + 1) 1) tt
  = (TOk (VFloat (S754_finite false 4503599627370496 1)), tt).
Proof. vm_compute. reflexivity. Qed.
