(* ===== verification/Notes.v ===== *)
(** * The notes executor ([server_notes.py], modelled from the spec)

    [src/agent.py] starts [Client("server_notes.py")], but the script is
    not part of the sources; spec sections 3 and 4.1 describe it: an
    in-memory, append-only, ordered list of strings with two tools,
    [add_note(message)] (append, return a confirmation) and [read_notes()]
    (all notes joined into one string, or an explicit empty-store
    message).  The confirmation and empty-store texts and the newline
    separator are the choices of this model.

    Spec section 5 asks what happens when several sessions append at
    once.  The executor serves one request at a time and [list.append] is
    one step, so concurrent sessions are modelled by the step relation
    [nstep]: any session with a pending note has it appended by one
    [add_note] call through the dispatch.  The theorems show that every
    interleaving loses no note, keeps each session's order, and finishes
    after exactly as many steps as there are notes. *)

From S2P Require Import Prelude Py Mcp.
From stdpp Require Import strings gmap.
From Stdlib Require Import String.
From stdpp Require Import relations.

(** The store of a running notes process. *)
Abbreviation NotesState := (list string).

Definition no_notes_msg : string := "No notes found.".

Definition add_note (message : string) (notes : NotesState) : string * NotesState :=
  (("Note added: " ++ message)%string, notes ++ [message]).

Definition read_notes (notes : NotesState) : string :=
  match notes with
  | [] => no_notes_msg
  | _ => py_join nl notes
  end.

Definition add_note_tool : ToolImpl NotesState :=
  {| ti_desc := {| td_name := "add_note"; td_description := "Adds a note.";
                   td_params := [("message", TStr)]; td_returns := RStr |};
     ti_run := fun vs st => match vs with
                            | [VStr m] => let '(r, st') := add_note m st in (Ret (VStr r), st')
                            | _ => (Raise (ValueError "invalid arguments"), st)
                            end |}.

Definition read_notes_tool : ToolImpl NotesState :=
  {| ti_desc := {| td_name := "read_notes"; td_description := "Reads all notes.";
                   td_params := []; td_returns := RStr |};
     ti_run := fun _ st => (Ret (VStr (read_notes st)), st) |}.

#[export] Instance notes_server : McpServer NotesState := [add_note_tool; read_notes_tool].

#[export] Instance notes_server_wf : McpServerWf NotesState.
Proof. unfold McpServerWf. apply (bool_decide_unpack _ (dec := NoDup_dec _)). vm_compute. reflexivity. Qed.

#[export] Instance notes_server_typed : McpServerTyped NotesState.
Proof.
  intros t vs s v s' Ht Hr. unfold mcp_registry, notes_server in Ht.
  repeat (apply elem_of_cons in Ht as [->|Ht]); [..|by apply not_elem_of_nil in Ht]; simpl in Hr.
  - destruct vs as [|[| |m] [|]]; simplify_eq; done.
  - by simplify_eq.
Qed.

Definition note_args (m : string) : Args := {[ "message" := VStr m ]}.

(** ** The two tools through the dispatch *)

Lemma call_add_note m st :
  call_tool "add_note" (note_args m) st = (TOk (VStr ("Note added: " ++ m)%string), st ++ [m]).
Proof. reflexivity. Qed.

Lemma call_read_notes args st :
  call_tool "read_notes" args st = (TOk (VStr (read_notes st)), st).
Proof. reflexivity. Qed.

Definition no_newline (n : string) : bool := negb (str_has newline n).

(** C11: the notes store keeps insertion order and [read_notes] loses
    nothing: after [add_note(x)] and [add_note(y)] on any store, the store
    is the old one with [x] and [y] appended, a read leaves it unchanged,
    and when no note contains a newline, splitting the read's text at
    newlines gives back exactly the stored notes. *)
Theorem notes_add_add_read x y st :
  Forall (fun n => no_newline n = true) (st ++ [x; y]) ->
  let '(_, st1) := call_tool "add_note" (note_args x) st in
  let '(_, st2) := call_tool "add_note" (note_args y) st1 in
  st2 = st ++ [x; y] /\
  exists text, call_tool "read_notes" ∅ st2 = (TOk (VStr text), st2) /\
               py_split newline text = st ++ [x; y].
Proof.
  intros Hall. rewrite !call_add_note.
  replace ((st ++ [x]) ++ [y]) with (st ++ [x; y]) by (by rewrite <-app_assoc).
  split; [done|]. eexists. rewrite call_read_notes. split; [done|].
  unfold read_notes, nl. destruct (st ++ [x; y]) as [|n ns] eqn:E; [by destruct st|].
  apply py_split_join; [done|].
  eapply Forall_impl; [exact Hall|]. intros m. unfold no_newline. by destruct (str_has _ _).
Qed.

Lemma notes_add_add_read_witness :
  let '(_, st1) := call_tool "add_note" (note_args "deploy key rotates monthly") [] in
  let '(_, st2) := call_tool "add_note" (note_args "standup at 10") st1 in
  st2 = [] ++ ["deploy key rotates monthly"; "standup at 10"] /\
  exists text, call_tool "read_notes" ∅ st2 = (TOk (VStr text), st2) /\
               py_split newline text = [] ++ ["deploy key rotates monthly"; "standup at 10"].
Proof. apply notes_add_add_read. repeat constructor. Defined.

(** ** Concurrent sessions appending notes (spec section 5) *)

Record NotesSys : Type := mkNotesSys {
  pending : list (list string);  (** each session's notes still to add, in order *)
  store : NotesState
}.

Inductive nstep : NotesSys -> NotesSys -> Prop :=
| nstep_add P st i m rest r st' :
    P !! i = Some (m :: rest) ->
    call_tool "add_note" (note_args m) st = (r, st') ->
    nstep (mkNotesSys P st) (mkNotesSys (<[i := rest]> P) st').

Lemma concat_insert_perm (P : list (list string)) i m rest :
  P !! i = Some (m :: rest) -> m :: concat (<[i := rest]> P) ≡ₚ concat P.
Proof.
  revert i. induction P as [|l P IH]; intros [|i] H; simpl in *; try done.
  - by injection H as ->.
  - rewrite <-(IH i H). apply Permutation_middle.
Qed.

Lemma nstep_store P st P' st' :
  nstep (mkNotesSys P st) (mkNotesSys P' st') ->
  exists i m rest, P !! i = Some (m :: rest) /\ P' = <[i := rest]> P /\ st' = st ++ [m].
Proof.
  inversion 1 as [? ? i m rest r st'' Hi Hc]; subst.
  rewrite call_add_note in Hc. injection Hc as _ <-. exists i, m, rest. by repeat split.
Qed.

(** What holds of every state reached from [(P0, st0)]. *)
Definition notes_inv (P0 : list (list string)) (st0 : NotesState) (s : NotesSys) : Prop :=
  exists app, store s = st0 ++ app /\ app ++ concat (pending s) ≡ₚ concat P0 /\
    forall i l0, P0 !! i = Some l0 ->
      exists done l, pending s !! i = Some l /\ l0 = done ++ l /\ done `sublist_of` app.

Lemma notes_inv_step P0 st0 s s' : notes_inv P0 st0 s -> nstep s s' -> notes_inv P0 st0 s'.
Proof.
  destruct s as [P st], s' as [P' st']. intros (app & Hst & Hperm & Hses) Hstep.
  apply nstep_store in Hstep as (i & m & rest & Hi & -> & ->). simpl in *.
  exists (app ++ [m]). split; [by rewrite Hst, app_assoc|]. split.
  - rewrite <-app_assoc. simpl. rewrite concat_insert_perm by done. done.
  - intros j l0 Hj. destruct (Hses j l0 Hj) as (done & l & Hl & -> & Hsub).
    destruct (decide (i = j)) as [<-|Hne].
    + rewrite Hi in Hl. injection Hl as <-.
      exists (done ++ [m]), rest. split; [|split].
      * simpl. apply list_lookup_insert_eq. by eapply lookup_lt_Some.
      * by rewrite <-app_assoc.
      * by apply sublist_app.
    + exists done, l. simpl. rewrite list_lookup_insert_ne by done.
      split; [done|]. split; [done|]. by apply sublist_inserts_r.
Qed.

Lemma notes_inv_reach P0 st0 s :
  rtc nstep (mkNotesSys P0 st0) s -> notes_inv P0 st0 s.
Proof.
  revert s. apply rtc_ind_r.
  - exists []. split; [by rewrite app_nil_r|]. split; [done|].
    intros i l0 Hi. exists [], l0. split; [done|]. split; [done|]. apply sublist_nil_l.
  - intros y z _ Hyz Hy. by eapply notes_inv_step.
Qed.

(** C19: no lost update under any interleaving: when all sessions have
    been served, in whatever order the executor took their requests, the
    store is the old store followed by exactly the sessions' notes (a
    permutation of all of them), and each session's notes appear in the
    order that session sent them. *)
Theorem notes_concurrent_appends P0 st0 s :
  rtc nstep (mkNotesSys P0 st0) s -> Forall (fun l => l = []) (pending s) ->
  exists app, store s = st0 ++ app /\ app ≡ₚ concat P0 /\
              Forall (fun l0 => l0 `sublist_of` app) P0.
Proof.
  intros Hrun Hdone. destruct (notes_inv_reach _ _ _ Hrun) as (app & Hst & Hperm & Hses).
  assert (Hnil : concat (pending s) = []).
  { clear -Hdone. induction Hdone as [|l P Hl _ IH]; simpl; [done|]. by rewrite Hl, IH. }
  exists app. rewrite Hnil, app_nil_r in Hperm. split; [done|]. split; [done|].
  apply Forall_lookup. intros i l0 Hi. destruct (Hses i l0 Hi) as (done & l & Hl & -> & Hsub).
  rewrite Forall_lookup in Hdone. rewrite (Hdone i l Hl), app_nil_r. done.
Qed.

Lemma notes_concurrent_appends_witness :
  exists app, store (mkNotesSys [[]; []] ["a"; "c"; "b"]) = [] ++ app /\
              app ≡ₚ concat [["a"; "b"]; ["c"]] /\
              Forall (fun l0 => l0 `sublist_of` app) [["a"; "b"]; ["c"]].
Proof.
  apply (notes_concurrent_appends [["a"; "b"]; ["c"]] [] (mkNotesSys [[]; []] ["a"; "c"; "b"])).
  - eapply rtc_l; [eapply (nstep_add _ _ 0 "a" ["b"]); reflexivity|].
    eapply rtc_l; [eapply (nstep_add _ _ 1 "c" []); reflexivity|].
    eapply rtc_l; [eapply (nstep_add _ _ 0 "b" []); reflexivity|].
    apply rtc_refl.
  - repeat constructor.
Defined.

(** ** Every interleaving ends, after one step per note *)

Lemma nstep_measure s s' :
  nstep s s' -> S (length (concat (pending s'))) = length (concat (pending s)).
Proof.
  destruct s as [P st], s' as [P' st']. intros H.
  apply nstep_store in H as (i & m & rest & Hi & -> & ->). simpl.
  by rewrite <-(Permutation_length (concat_insert_perm _ _ _ _ Hi)).
Qed.

Lemma nstep_cons l P st P' st' :
  nstep (mkNotesSys P st) (mkNotesSys P' st') ->
  nstep (mkNotesSys (l :: P) st) (mkNotesSys (l :: P') st').
Proof.
  inversion 1 as [? ? i m rest r ? Hi Hc]; subst.
  by apply (nstep_add (l :: P) st (S i) m rest r st').
Qed.

Lemma rtc_nstep_cons l P st P' st' :
  rtc nstep (mkNotesSys P st) (mkNotesSys P' st') ->
  rtc nstep (mkNotesSys (l :: P) st) (mkNotesSys (l :: P') st').
Proof.
  intros H. apply (rtc_congruence (R:=nstep) (fun s => mkNotesSys (l :: pending s) (store s)) nstep
                     (mkNotesSys P st) (mkNotesSys P' st')); [|done].
  intros [] []. apply nstep_cons.
Qed.

Lemma drain_head l P st :
  rtc nstep (mkNotesSys (l :: P) st) (mkNotesSys ([] :: P) (st ++ l)).
Proof.
  revert st. induction l as [|m l IH]; intros st; [rewrite app_nil_r; apply rtc_refl|].
  eapply rtc_l; [eapply (nstep_add _ _ 0 m l); [reflexivity | apply call_add_note]|].
  simpl. replace (st ++ m :: l) with ((st ++ [m]) ++ l) by (by rewrite <-app_assoc).
  apply IH.
Qed.

Lemma nstep_store_length s s' : nstep s s' -> length (store s') = S (length (store s)).
Proof.
  destruct s as [P st], s' as [P' st']. intros H.
  apply nstep_store in H as (i & m & rest & Hi & -> & ->). simpl. rewrite length_app. simpl. lia.
Qed.

Lemma nsteps_nstep_counts n x z :
  nsteps nstep n x z ->
  n + length (concat (pending z)) = length (concat (pending x)) /\
  length (store z) = length (store x) + n.
Proof.
  induction 1 as [x|n x y z Hxy _ IH]; [lia|].
  pose proof (nstep_measure _ _ Hxy). pose proof (nstep_store_length _ _ Hxy). lia.
Qed.

(** C20: the sessions always drain, and each step serves exactly one
    note: from any pending notes [P0] there is a run that serves all of
    them and ends with the store [st0] followed by the notes of the
    sessions in turn; and after any run of [n] steps from [P0], [n]
    notes have left the queues and the store has grown by exactly [n]
    notes, so no run takes more steps than [P0] has notes. *)
Theorem notes_sessions_drain P0 st0 :
  rtc nstep (mkNotesSys P0 st0) (mkNotesSys ((fun _ => []) <$> P0) (st0 ++ concat P0)) /\
  (forall n s, nsteps nstep n (mkNotesSys P0 st0) s ->
     n + length (concat (pending s)) = length (concat P0) /\
     length (store s) = length st0 + n).
Proof.
  split.
  - revert st0. induction P0 as [|l P IH]; intros st0; simpl; [rewrite app_nil_r; apply rtc_refl|].
    eapply rtc_trans; [apply drain_head|]. rewrite app_assoc. by apply rtc_nstep_cons.
  - intros n s H. exact (nsteps_nstep_counts _ _ _ H).
Qed.

Definition two_sessions_served : NotesSys := mkNotesSys [[]; []] ["b"; "a"].

Lemma two_sessions_steps :
  nsteps nstep 2 (mkNotesSys [["a"]; ["b"]] []) two_sessions_served.
Proof.
  eapply nsteps_l; [eapply (nstep_add _ _ 1 "b" []); reflexivity|].
  eapply nsteps_l; [eapply (nstep_add _ _ 0 "a" []); reflexivity|].
  apply nsteps_O.
Qed.

Lemma notes_sessions_drain_witness :
  rtc nstep (mkNotesSys [["a"]; ["b"]] []) (mkNotesSys [[]; []] ["a"; "b"]) /\
  2 + length (concat (pending two_sessions_served)) = length (concat [["a"]; ["b"]]) /\
  length (store two_sessions_served) = 0 + 2.
Proof.
  split; [exact (proj1 (notes_sessions_drain [["a"]; ["b"]] []))|].
  exact (proj2 (notes_sessions_drain [["a"]; ["b"]] []) 2 _ two_sessions_steps).
Defined.
