(* ===== verification/Adapters.v ===== *)
(** * The tool adapters of [src/agent.py] (lines 12-90)

    The world the adapters act on: the process's stdin and stdout, whether
    each executor can be reached, and the notes process.  Each adapter
    formats a trace line (an f-string: CPython's [str(int)] limit applies),
    prints it, opens a connection to its executor ([async with client]),
    issues one [call_tool] and returns its result; an error result of the
    executor is raised by [Client.call_tool] as [ToolError], an executor
    that cannot be reached raises [ConnectionError].  [Client.call_tool]
    returns a [CallToolResult] (text content blocks, structured content
    and the deserialized [.data]); the model identifies that object with
    its [.data], the executor's value.

    Every [async with notes_client] under [asyncio.run] starts the stdio
    transport anew.  Whether the notes process (and its in-memory store)
    survives between two calls depends on the transport's keep-alive
    behaviour across event loops, which the sources do not fix: the world
    carries it as [w_keep_alive], and the theorems say what happens under
    each choice.

    The module prologue (lines 12-22) builds the two clients, which
    raises [FileNotFoundError] when a script file is missing (the file
    system is the parameter [present]); its [list_tools()] calls build
    coroutines that are never awaited and so contact no executor; its
    [except] branch prints two lines and calls [exit()], which raises
    [SystemExit]. *)

From S2P Require Import Prelude Py Mcp Calculator Notes.
From stdpp Require Import strings gmap.
From Stdlib Require Import String.

(** A line of stdin: its text once decoded as UTF-8, or bytes that are
    not valid UTF-8 (decoded text is a string of Latin-1 code points,
    the characters [Py.py_strip] and [Py.py_lower] know). *)
Inductive StdinLine : Type :=
| Text (s : string)
| Undecodable.

Record World : Type := mkWorld {
  w_stdin : list StdinLine;  (** lines not yet read *)
  w_stdout : list string;    (** everything written, in order *)
  w_calc_up : bool;          (** the calculator executor can be started *)
  w_notes_up : bool;         (** the notes executor can be started *)
  w_keep_alive : bool;       (** the notes process outlives a connection *)
  w_notes_live : bool;       (** a notes process is running *)
  w_notes : NotesState       (** its store *)
}.

Abbreviation PyW := (PyM PyExc World).

Definition set_stdout (w : World) (o : list string) : World :=
  mkWorld (w_stdin w) o (w_calc_up w) (w_notes_up w) (w_keep_alive w) (w_notes_live w) (w_notes w).
Definition set_stdin (w : World) (i : list StdinLine) : World :=
  mkWorld i (w_stdout w) (w_calc_up w) (w_notes_up w) (w_keep_alive w) (w_notes_live w) (w_notes w).
Definition set_notes (w : World) (live : bool) (st : NotesState) : World :=
  mkWorld (w_stdin w) (w_stdout w) (w_calc_up w) (w_notes_up w) (w_keep_alive w) live st.

(** [print(s, end=e)] *)
Definition write (s : string) : PyW unit := modify (fun w => set_stdout w (w_stdout w ++ [s])).
Definition print (s : string) : PyW unit := write (s ++ nl)%string.

Definition connect_error_msg (script : string) : string :=
  ("Failed to connect to " ++ script)%string.

(** [asyncio.run(_call_mcp())] on the calculator: connect, call, close. *)
Definition call_calculator (name : string) (args : Args) : PyW PyVal :=
  fun w =>
    if w_calc_up w then
      match call_tool name args tt with
      | (TOk v, _) => (Ret v, w)
      | (TErr m, _) => (Raise (ToolError m), w)
      end
    else (Raise (ConnectionError (connect_error_msg "server_calculator.py")), w).

(** The store a new connection to the notes executor sees: the running
    process's when it is kept alive, a fresh process's otherwise. *)
Definition notes_on_connect (w : World) : NotesState :=
  if w_keep_alive w && w_notes_live w then w_notes w else [].

Definition call_notes (name : string) (args : Args) : PyW PyVal :=
  fun w =>
    if w_notes_up w then
      let '(o, st') := call_tool name args (notes_on_connect w) in
      let w' := if w_keep_alive w then set_notes w true st' else set_notes w false [] in
      match o with
      | TOk v => (Ret v, w')
      | TErr m => (Raise (ToolError m), w')
      end
    else (Raise (ConnectionError (connect_error_msg "server_notes.py")), w).

Module Adapter.

Definition trace_line (call : string) : string :=
  ("--- Calling MCP Tool: " ++ call ++ " ---")%string.

(** The body shared by the four calculator adapters (lines 27-32). *)
Definition calc_adapter (name : string) (a b : Z) : PyW PyVal :=
  sa ← py_format_int a;
  sb ← py_format_int b;
  print (trace_line (name ++ "(" ++ sa ++ ", " ++ sb ++ ")")%string);;
  call_calculator name (int_args a b).

Definition add (a b : Z) : PyW PyVal := calc_adapter "add" a b.
Definition subtract (a b : Z) : PyW PyVal := calc_adapter "subtract" a b.
Definition multiply (a b : Z) : PyW PyVal := calc_adapter "multiply" a b.
Definition divide (a b : Z) : PyW PyVal := calc_adapter "divide" a b.

Definition add_note (message : string) : PyW PyVal :=
  print (trace_line ("add_note('" ++ message ++ "')")%string);;
  call_notes "add_note" (note_args message).

Definition read_notes : PyW PyVal :=
  print (trace_line "read_notes()");;
  call_notes "read_notes" ∅.

(** A LangChain [@tool]: its name, the parameters of its signature and
    the wrapped function on validated arguments. *)
Record LcTool : Type := {
  lc_name : string;
  lc_params : list (string * PType);
  lc_run : list PyVal -> PyW PyVal
}.

Definition int2 (name : string) (f : Z -> Z -> PyW PyVal) : LcTool :=
  {| lc_name := name; lc_params := int_params;
     lc_run := fun vs => match vs with
                         | [VInt a; VInt b] => f a b
                         | _ => raise (ValueError "invalid arguments")
                         end |}.

(** [tools = [add, subtract, multiply, divide, add_note, read_notes]] *)
Definition tools : list LcTool :=
  [int2 "add" add; int2 "subtract" subtract; int2 "multiply" multiply; int2 "divide" divide;
   {| lc_name := "add_note"; lc_params := [("message", TStr)];
      lc_run := fun vs => match vs with
                          | [VStr m] => add_note m
                          | _ => raise (ValueError "invalid arguments")
                          end |};
   {| lc_name := "read_notes"; lc_params := []; lc_run := fun _ => read_notes |}].

End Adapter.

(** ** Module start-up (lines 12-22)

    [Client("server_calculator.py")] infers a Python stdio transport from
    the [.py] path, which raises [FileNotFoundError] when the script file
    is not there; otherwise it only records the transport and starts
    nothing.  [client.list_tools()] without [await] builds a coroutine
    that is never run: it contacts no executor.  Which script files are
    present is a parameter ([present]): the file system does not change
    during a run.  (The error text carries the resolved absolute path in
    fastmcp; the model keeps the path as written.) *)
Definition client_new (present : string -> bool) (path : string) : PyW unit :=
  if present path then mret () else raise (FileNotFoundError ("Script not found: " ++ path)%string).

Definition client_list_tools_unawaited : PyW unit := mret ().

Definition startup (present : string -> bool) : PyW unit :=
  try_catch
    (client_new present "server_calculator.py";;
     client_list_tools_unawaited;;
     print "✅ Connected to FastMCP 'calculator' server.";;
     client_new present "server_notes.py";;
     client_list_tools_unawaited;;
     print "✅ Connected to FastMCP 'notes' server.")
    (fun e => print "❌ Failed to connect to FastMCP server. Is it running?";;
              print ("Error: " ++ py_str_exc e)%string;;
              raise SystemExit).

(** ** The adapters, case by case *)

(** [str(z)] succeeds: at most 4300 digits. *)
Definition small (z : Z) : Prop := (Z.abs z < 10 ^ int_max_str_digits)%Z.

Lemma py_format_int_small {S} (z : Z) (s : S) :
  small z -> py_format_int z s = (Ret (py_str_int z), s).
Proof. intros H. unfold py_format_int. rewrite decide_True; [done | exact H]. Qed.

Lemma py_format_int_large {S} (z : Z) (s : S) :
  ~ small z -> py_format_int z s = (Raise (ValueError int_str_limit_msg), s).
Proof. intros H. unfold py_format_int. rewrite decide_False; [done | exact H]. Qed.

Definition calc_trace (name : string) (a b : Z) : string :=
  (Adapter.trace_line (name ++ "(" ++ py_str_int a ++ ", " ++ py_str_int b ++ ")") ++ nl)%string.

(** With printable arguments, a calculator adapter prints its trace line
    and then makes its one remote call. *)
Lemma calc_adapter_run name a b w :
  small a -> small b ->
  Adapter.calc_adapter name a b w =
    call_calculator name (int_args a b) (set_stdout w (w_stdout w ++ [calc_trace name a b])).
Proof.
  intros Ha Hb. unfold Adapter.calc_adapter. cbv [mbind PyM_bind].
  rewrite (py_format_int_small a), (py_format_int_small b) by done. reflexivity.
Qed.

Lemma call_calculator_up name args w :
  w_calc_up w = true ->
  call_calculator name args w =
    match call_tool name args tt with
    | (TOk v, _) => (Ret v, w)
    | (TErr m, _) => (Raise (ToolError m), w)
    end.
Proof. intros H. unfold call_calculator. by rewrite ?H. Qed.

Lemma call_calculator_down name args w :
  w_calc_up w = false ->
  call_calculator name args w = (Raise (ConnectionError (connect_error_msg "server_calculator.py")), w).
Proof. intros H. unfold call_calculator. by rewrite H. Qed.

Lemma notes_on_connect_kept w st : w_keep_alive w = true -> notes_on_connect (set_notes w true st) = st.
Proof. intros H. unfold notes_on_connect. simpl. by rewrite H. Qed.

(** C17: CPython's digit limit on [str(int)]: an argument of more than
    4300 decimal digits makes the adapter's trace f-string raise
    [ValueError] before anything is printed and before the executor is
    contacted, although the executor's tools are total on [int]. *)
Theorem adapter_digit_limit name a b w :
  ~ small a \/ ~ small b ->
  Adapter.calc_adapter name a b w = (Raise (ValueError int_str_limit_msg), w).
Proof.
  intros Hab. unfold Adapter.calc_adapter. cbv [mbind PyM_bind].
  destruct (decide (small a)) as [Ha|Ha].
  - rewrite py_format_int_small by done.
    destruct Hab as [Ha'|Hb]; [done|]. by rewrite py_format_int_large.
  - by rewrite py_format_int_large.
Qed.

Lemma adapter_digit_limit_witness :
  Adapter.calc_adapter "add" (10 ^ 4300) 1 (mkWorld [] [] true true true false []) =
    (Raise (ValueError int_str_limit_msg), mkWorld [] [] true true true false []).
Proof.
  apply adapter_digit_limit. left. unfold small. vm_compute. discriminate.
Defined.

(** ** The notes process across calls *)

Definition notes_trace (m : string) : string :=
  (Adapter.trace_line ("add_note('" ++ m ++ "')") ++ nl)%string.

(** C12: when the notes process is kept alive, a note added through the
    adapter is seen by the next [read_notes]: the read returns the
    rendering of the store the connection found with the note appended,
    and that store is what the process keeps. *)
Theorem notes_persist_when_kept_alive x w :
  w_notes_up w = true -> w_keep_alive w = true ->
  exists w', (Adapter.add_note x;; Adapter.read_notes) w =
               (Ret (VStr (read_notes (notes_on_connect w ++ [x]))), w') /\
             w_notes w' = notes_on_connect w ++ [x] /\ w_notes_live w' = true.
Proof.
  intros Hup Hka. unfold Adapter.add_note, Adapter.read_notes, call_notes, print, write, notes_on_connect.
  pym_run. rewrite ?Hup, ?Hka. simpl. rewrite call_add_note. simpl.
  rewrite ?Hup, ?Hka. simpl. by eexists.
Qed.

Lemma notes_persist_when_kept_alive_witness :
  exists w', (Adapter.add_note "deploy key rotates monthly";; Adapter.read_notes)
               (mkWorld [] [] true true true false []) =
             (Ret (VStr (read_notes (notes_on_connect (mkWorld [] [] true true true false [])
                                      ++ ["deploy key rotates monthly"]))), w') /\
             w_notes w' = notes_on_connect (mkWorld [] [] true true true false []) ++ ["deploy key rotates monthly"] /\
             w_notes_live w' = true.
Proof. apply notes_persist_when_kept_alive; reflexivity. Defined.

(** C13: when every connection starts a fresh notes process, a note is
    acknowledged and then lost: [add_note] prints its trace and returns
    the confirmation ["Note added: x"] of a process whose store then
    holds the note, that process ends with its connection, and the next
    [read_notes] meets a fresh process and returns the empty-store
    message; no process is left holding notes. *)
Theorem notes_lost_without_keep_alive x w :
  w_notes_up w = true -> w_keep_alive w = false ->
  (call_tool "add_note" (note_args x) (notes_on_connect w)).2 = [x] /\
  exists w1 w', Adapter.add_note x w = (Ret (VStr ("Note added: " ++ x)), w1) /\
    w_stdout w1 = w_stdout w ++ [notes_trace x] /\
    Adapter.read_notes w1 = (Ret (VStr no_notes_msg), w') /\
    w_notes w' = [] /\ w_notes_live w' = false.
Proof.
  intros Hup Hka. assert (Hc : notes_on_connect w = []) by (unfold notes_on_connect; by rewrite Hka).
  rewrite Hc, call_add_note. split; [done|].
  unfold Adapter.add_note, Adapter.read_notes, call_notes, print, write.
  pym_run. rewrite ?Hup, ?Hka, ?Hc, ?call_add_note. simpl.
  eexists _, _. split; [reflexivity|]. split; [reflexivity|].
  unfold notes_on_connect. simpl. rewrite ?Hup, ?Hka. simpl. by split.
Qed.

Lemma notes_lost_without_keep_alive_witness :
  (call_tool "add_note" (note_args "deploy key rotates monthly")
     (notes_on_connect (mkWorld [] [] true true false false []))).2 = ["deploy key rotates monthly"] /\
  exists w1 w', Adapter.add_note "deploy key rotates monthly" (mkWorld [] [] true true false false []) =
                  (Ret (VStr ("Note added: " ++ "deploy key rotates monthly")), w1) /\
    w_stdout w1 = [] ++ [notes_trace "deploy key rotates monthly"] /\
    Adapter.read_notes w1 = (Ret (VStr no_notes_msg), w') /\
    w_notes w' = [] /\ w_notes_live w' = false.
Proof. apply notes_lost_without_keep_alive; reflexivity. Defined.

(** With both script files present the prologue prints its two
    "connected" lines and goes on, whatever the state of the executors:
    the coroutines of [list_tools()] are never awaited. *)
Lemma startup_present present w :
  present "server_calculator.py" = true -> present "server_notes.py" = true ->
  startup present w =
    (Ret (), set_stdout w (w_stdout w ++ ["✅ Connected to FastMCP 'calculator' server." ++ nl;
                                          "✅ Connected to FastMCP 'notes' server." ++ nl]%string)).
Proof.
  intros Hc Hn. unfold startup, client_new, client_list_tools_unawaited, print, write.
  rewrite Hc, Hn. pym_run. by rewrite <-app_assoc.
Qed.

(** With a script file missing, [Client(...)] raises, the [except]
    branch prints its two lines and [exit()] raises [SystemExit]. *)
Lemma startup_missing present w :
  present "server_calculator.py" = false \/ present "server_notes.py" = false ->
  exists out, startup present w = (Raise SystemExit, set_stdout w (w_stdout w ++ out)).
Proof.
  intros Hm. unfold startup, client_new, client_list_tools_unawaited, print, write.
  destruct (present "server_calculator.py") eqn:Hc; [destruct (present "server_notes.py") eqn:Hn|];
    [destruct Hm; discriminate| |]; pym_run; eexists; by rewrite <-?app_assoc.
Qed.

(** ** Frames: what the adapters leave alone

    A frame is a preorder on worlds that printing and the notes process
    respect.  Two frames matter: stdin is left as it was ([same_stdin]),
    and stdout only grows, so that what is printed is never taken back
    ([stdout_grows]).  Every lemma below is proved once for any frame. *)

Definition same_stdin (w w' : World) : Prop := w_stdin w' = w_stdin w.
Arguments same_stdin _ _ /.
Definition stdout_grows (w w' : World) : Prop := w_stdout w `prefix_of` w_stdout w'.

Class WorldFrame (R : relation World) : Prop := {
  world_frame_preorder :: PreOrder R;
  world_frame_write w s : R w (set_stdout w (w_stdout w ++ [s]));
  world_frame_notes w live st : R w (set_notes w live st)
}.

#[export] Instance same_stdin_frame : WorldFrame same_stdin.
Proof.
  split; [split|..]; [intros w; done|intros w1 w2 w3 H1 H2; simpl in *; congruence|done..].
Qed.

#[export] Instance stdout_grows_frame : WorldFrame stdout_grows.
Proof.
  unfold stdout_grows. split; [split|..];
    [intros w; done|intros w1 w2 w3 H1 H2; by trans (w_stdout w2)|..];
    intros; simpl; [by eexists|done].
Qed.

Definition keeps_stdin {A} (m : PyW A) : Prop := preserves same_stdin m.
Definition appends_stdout {A} (m : PyW A) : Prop := preserves stdout_grows m.

Section Frame.
Context (R : relation World) `{!WorldFrame R}.

Lemma frame_write s : preserves R (write s).
Proof. apply preserves_modify. intros w. apply world_frame_write. Qed.

Lemma frame_print s : preserves R (print s).
Proof. apply frame_write. Qed.

Lemma frame_format z : preserves R (py_format_int z).
Proof. unfold py_format_int. case_decide; [apply preserves_ret | apply preserves_raise]; apply _. Qed.

Lemma frame_call_calculator name args : preserves R (call_calculator name args).
Proof.
  intros w o w' H. unfold call_calculator in H.
  destruct (w_calc_up w), (call_tool name args tt) as [[v|m] ?]; injection H as _ <-; reflexivity.
Qed.

Lemma frame_call_notes name args : preserves R (call_notes name args).
Proof.
  intros w o w' H. unfold call_notes in H.
  destruct (w_notes_up w); [|injection H as _ <-; reflexivity].
  destruct (call_tool name args (notes_on_connect w)) as [[v|m] st'];
    destruct (w_keep_alive w); injection H as _ <-; apply world_frame_notes.
Qed.
End Frame.

#[export] Hint Resolve preserves_ret preserves_raise preserves_bind preserves_try_catch
  preserves_mapM frame_write frame_print frame_format frame_call_calculator frame_call_notes : agent.
#[export] Hint Extern 1 (PreOrder _) => apply world_frame_preorder : agent.

Section FrameAdapters.
Context (R : relation World) `{!WorldFrame R}.

Lemma frame_calc_adapter name a b : preserves R (Adapter.calc_adapter name a b).
Proof. unfold Adapter.calc_adapter. auto 10 with agent. Qed.

Lemma frame_add_note m : preserves R (Adapter.add_note m).
Proof. unfold Adapter.add_note. auto with agent. Qed.

Lemma frame_read_notes : preserves R Adapter.read_notes.
Proof. unfold Adapter.read_notes. auto with agent. Qed.
End FrameAdapters.

#[export] Hint Resolve frame_calc_adapter frame_add_note frame_read_notes : agent.

Lemma frame_lc_run R `{!WorldFrame R} t vs : t ∈ Adapter.tools -> preserves R (Adapter.lc_run t vs).
Proof.
  unfold Adapter.tools. intros Ht. apply list_elem_of_In in Ht.
  repeat destruct Ht as [<-|Ht]; try done; simpl; repeat case_match;
    unfold Adapter.add, Adapter.subtract, Adapter.multiply, Adapter.divide; auto with agent.
Qed.

(** ** The trace of a calculator call *)

(** C21: the printed trace identifies the call: two calls of the same
    calculator adapter print the same trace line exactly when their
    arguments are equal ([str(int)] is read back by [int()], and neither
    [,] nor [)] occurs in it, so the separator [", "] splits the line
    where the call's arguments meet). *)
Theorem calc_trace_determines_args name a b a' b' :
  calc_trace name a b = calc_trace name a' b' <-> a = a' /\ b = b'.
Proof.
  split; [|by intros [-> ->]].
  unfold calc_trace, Adapter.trace_line. rewrite !str_app_assoc. intros H.
  do 3 apply (inj (String.app _)) in H.
  apply app_sep_inj in H as [Ha H];
    [|apply str_has_py_str_int; set_solver ..].
  injection H as H.
  apply app_sep_inj in H as [Hb _]; [|apply str_has_py_str_int; set_solver ..].
  split; by apply py_str_int_inj.
Qed.

(** The witness of C21: [subtract(1, 23)] and [subtract(12, 3)], whose
    digits run together without the separator, print different lines. *)
Lemma calc_trace_determines_args_witness :
  calc_trace "subtract" 1 23 <> calc_trace "subtract" 12 3.
Proof.
  intros H. apply (calc_trace_determines_args "subtract" 1 23 12 3) in H. destruct H as [H _]. discriminate.
Defined.

Lemma notes_trace_forged x y :
  notes_trace (x ++ "') ---" ++ nl ++ "--- Calling MCP Tool: add_note('" ++ y)%string =
  (notes_trace x ++ notes_trace y)%string.
Proof. unfold notes_trace, Adapter.trace_line. rewrite !str_app_assoc. reflexivity. Qed.

(** With the notes executor reachable, [add_note] returns its
    confirmation and its only output is its trace line. *)
Lemma add_note_adapter_run m w :
  w_notes_up w = true ->
  exists w1, Adapter.add_note m w = (Ret (VStr ("Note added: " ++ m)), w1) /\
             w_stdout w1 = w_stdout w ++ [notes_trace m] /\ w_notes_up w1 = true.
Proof.
  intros Hup. unfold Adapter.add_note, call_notes, print, write. pym_run. rewrite Hup.
  rewrite call_add_note. destruct (w_keep_alive w); by eexists.
Qed.

(** C22: the trace of [add_note] is not one record per call: the message
    is printed unquoted inside [add_note('...')], so one call whose
    message contains a newline puts on the terminal exactly the text
    that two calls put there. *)
Theorem add_note_trace_forges_line x y w :
  w_notes_up w = true ->
  String.concat "" (w_stdout (snd (Adapter.add_note
      (x ++ "') ---" ++ nl ++ "--- Calling MCP Tool: add_note('" ++ y)%string w))) =
  String.concat "" (w_stdout (snd ((Adapter.add_note x;; Adapter.add_note y) w))).
Proof.
  intros Hup.
  destruct (add_note_adapter_run (x ++ "') ---" ++ nl ++ "--- Calling MCP Tool: add_note('" ++ y)%string w Hup)
    as (w0 & -> & Ho0 & _).
  destruct (add_note_adapter_run x w Hup) as (w1 & Hx & Ho1 & Hup1).
  destruct (add_note_adapter_run y w1 Hup1) as (w2 & Hy & Ho2 & _).
  rewrite (bind_Ret _ _ _ _ _ Hx), Hy. simpl. rewrite Ho0, Ho2, Ho1, <-app_assoc, !str_concat_app.
  by rewrite notes_trace_forged.
Qed.

(** The witness of C22 on a world whose notes executor is reachable. *)
Lemma add_note_trace_forges_line_witness :
  String.concat "" (w_stdout (snd (Adapter.add_note
      ("a') ---" ++ nl ++ "--- Calling MCP Tool: add_note('b")%string (mkWorld [] [] true true true false [])))) =
  String.concat "" (w_stdout (snd ((Adapter.add_note "a";; Adapter.add_note "b") (mkWorld [] [] true true true false [])))).
Proof. exact (add_note_trace_forges_line "a" "b" (mkWorld [] [] true true true false []) eq_refl). Defined.
