(* ===== verification/Engine.v ===== *)
(** * The conversation engine of [src/agent.py] (lines 91-131)

    [create_agent(model, tools, system_prompt=...)] builds LangGraph's
    tool-calling loop: a model node, which sends the system prompt and the
    conversation so far to the model and appends its answer, and a tool
    node, which runs every tool call of that answer in order and appends
    one tool message per call; the graph goes back to the model as long as
    the last answer calls tools.  Both nodes are library code, modelled
    from spec section 4.3: the model is an oracle [llm] (any function from
    the conversation to an answer or a backend error), and each node run
    consumes one step of the recursion limit; a node that would run after
    the limit is used up raises [GraphRecursionError].

    [run_agent] (lines 115-131) invokes the graph with the limit 50 on the
    user's message, returns the content of the last message as a fresh
    [AIMessage], and turns any exception into the message
    ["Error: <str(e)>. Try phrasing it differently."] after printing it. *)

From S2P Require Import Prelude Py Mcp Calculator Notes Adapters.
From stdpp Require Import strings gmap.
From Stdlib Require Import String.

Record ToolCall : Type := {
  tc_id : string;
  tc_name : string;
  tc_args : Args
}.

Inductive ToolContent : Type :=
| TCValue (v : PyVal)
| TCError (msg : string).

Inductive Msg : Type :=
| SystemMessage (content : string)
| HumanMessage (content : string)
| AIMessage (content : string) (calls : list ToolCall)
| ToolMessage (call_id : string) (name : string) (content : ToolContent).

(** The text of a message ([.content]); a tool message's value is shown
    by its string when it is one (other renderings are not modelled). *)
Definition msg_content (m : Msg) : string :=
  match m with
  | SystemMessage c | HumanMessage c | AIMessage c _ => c
  | ToolMessage _ _ (TCValue (VStr s)) => s
  | ToolMessage _ _ (TCValue (VInt z)) => py_str_int z
  | ToolMessage _ _ (TCValue (VFloat _)) => ""
  | ToolMessage _ _ (TCError m) => m
  end.

(** What the model answers: a message text and the tool calls it makes,
    or the error its backend raised. *)
Abbreviation Answer := (string + (string * list ToolCall))%type.

Definition system_prompt : string :=
"You are DevHelper, an expert software development assistant.
    Your job is to read, review, explain, and improve code.
    You can help with debugging, refactoring, architecture decisions, and explaining difficult concepts.

    You also have access to a calculator with the following tools:
    - add
    - subtract
    - multiply
    - divide
    If the user asks a math question, use these tools.

    Also, you can manage sticky notes with these tools:
    - add_note
    - read_notes
    If the user wants to save or read notes, use these tools.

    For all other requests, use your software development knowledge.
    ".

Definition recursion_limit : nat := 50.

Definition tool_names : string :=
  "add, subtract, multiply, divide, add_note, read_notes".

(** ** The tool node: one tool message per call, in the order of the calls *)

Definition find_lc_tool (name : string) : option Adapter.LcTool :=
  List.find (fun t => bool_decide (Adapter.lc_name t = name)) Adapter.tools.

(** An unknown tool name and arguments that do not fit the tool's
    signature become error messages for the model; an exception raised by
    the tool itself propagates. *)
Definition run_tool_call (c : ToolCall) : PyW Msg :=
  match find_lc_tool (tc_name c) with
  | None =>
      mret (ToolMessage (tc_id c) (tc_name c)
              (TCError ("Error: " ++ tc_name c ++ " is not a valid tool, try one of [" ++ tool_names ++ "].")%string))
  | Some t =>
      match validate (Adapter.lc_params t) (tc_args c) with
      | inl bad =>
          mret (ToolMessage (tc_id c) (tc_name c)
                  (TCError ("Error invoking tool '" ++ tc_name c ++ "': validation error for " ++ bad)%string))
      | inr vs => v ← Adapter.lc_run t vs; mret (ToolMessage (tc_id c) (tc_name c) (TCValue v))
      end
  end.

Definition tools_node (calls : list ToolCall) : PyW (list Msg) := mapM run_tool_call calls.

Section Loop.
Variable llm : list Msg -> Answer.

(** [fuel] is what is left of the recursion limit [limit]. *)
Fixpoint agent_steps (limit fuel : nat) (msgs : list Msg) : PyW (list Msg) :=
  match fuel with
  | O => raise (GraphRecursionError limit)
  | S fuel' =>
      match llm (SystemMessage system_prompt :: msgs) with
      | inl err => raise (ModelError err)
      | inr (content, calls) =>
          let msgs1 := msgs ++ [AIMessage content calls] in
          match calls with
          | [] => mret msgs1
          | _ :: _ =>
              match fuel' with
              | O => raise (GraphRecursionError limit)
              | S fuel'' =>
                  results ← tools_node calls;
                  agent_steps limit fuel'' (msgs1 ++ results)
              end
          end
      end
  end.

(** [agent.invoke({"messages": msgs}, config={"recursion_limit": limit})] *)
Definition agent_invoke (limit : nat) (msgs : list Msg) : PyW (list Msg) :=
  agent_steps limit limit msgs.

Definition agent_error_reply (e : PyExc) : string :=
  ("Error: " ++ py_str_exc e ++ ". Try phrasing it differently.")%string.

Definition run_agent (user_input : string) : PyW Msg :=
  try_catch
    (response ← agent_invoke recursion_limit [HumanMessage user_input];
     match last response with
     | Some m => mret (AIMessage (msg_content m) [])
     | None => raise (IndexError "list index out of range")
     end)
    (fun e => print (nl ++ "[Agent Error]: " ++ py_str_exc e)%string;;
              mret (AIMessage (agent_error_reply e) [])).
End Loop.

(** ** Transcripts: every tool-calling answer followed by its results *)

Definition tool_msg_id (m : Msg) : option string :=
  match m with ToolMessage id _ _ => Some id | _ => None end.

(** [Rounds r]: [r] is a sequence of rounds, each an answer with a
    nonempty list of calls followed by exactly one tool message per call,
    carrying the calls' ids in the calls' order. *)
Inductive Rounds : list Msg -> Prop :=
| rounds_nil : Rounds []
| rounds_cons c cs res rest :
    cs <> [] ->
    map tool_msg_id res = map (fun x => Some (tc_id x)) cs ->
    Rounds rest ->
    Rounds (AIMessage c cs :: res ++ rest).

Fixpoint count_ai (msgs : list Msg) : nat :=
  match msgs with
  | [] => 0
  | AIMessage _ _ :: r => S (count_ai r)
  | _ :: r => count_ai r
  end.

Lemma count_ai_app l1 l2 : count_ai (l1 ++ l2) = count_ai l1 + count_ai l2.
Proof. induction l1 as [|[] l1 IH]; simpl; lia. Qed.

Lemma count_ai_tool_msgs {A} res (cs : list A) f :
  map tool_msg_id res = map (fun x => Some (f x)) cs -> count_ai res = 0.
Proof.
  revert cs. induction res as [|[] res IH]; intros [|c cs] H; simpl in *; try done.
  injection H as _ H. by eapply IH.
Qed.

Lemma run_tool_call_id c w m w' :
  run_tool_call c w = (Ret m, w') -> tool_msg_id m = Some (tc_id c).
Proof.
  unfold run_tool_call. destruct (find_lc_tool (tc_name c)) as [t|].
  - destruct (validate _ _) as [bad|vs]; pym_run; [by injection 1 as <- _|].
    destruct (Adapter.lc_run t vs w) as [[v|e] w1]; simpl; [|discriminate].
    by injection 1 as <- _.
  - pym_run. by injection 1 as <- _.
Qed.

Lemma tools_node_ids calls w res w' :
  tools_node calls w = (Ret res, w') ->
  map tool_msg_id res = map (fun x => Some (tc_id x)) calls.
Proof.
  unfold tools_node. revert w res w'. induction calls as [|c calls IH]; intros w res w' H;
    simpl in H; cbv [mbind PyM_bind mret PyM_ret] in H.
  - by injection H as <- _.
  - destruct (run_tool_call c w) as [[m|e] w1] eqn:Hc; simpl in H; [|by injection H].
    destruct (mapM run_tool_call calls w1) as [[ms|e] w2] eqn:Hl; simpl in H; [|by injection H].
    injection H as <- _. simpl. erewrite run_tool_call_id by eassumption.
    f_equal. by eapply IH.
Qed.

Section Shape.
Variable llm : list Msg -> Answer.

(** A run of the loop that returns has appended complete rounds and one
    final answer without calls, and used one step per node run. *)
Lemma agent_steps_shape L fuel msgs w out w' :
  agent_steps llm L fuel msgs w = (Ret out, w') ->
  exists rounds c, out = msgs ++ rounds ++ [AIMessage c []] /\ Rounds rounds /\
                   2 * count_ai rounds + 1 <= fuel.
Proof.
  revert msgs w out w'. pattern fuel. apply (lt_wf_ind fuel). clear fuel.
  intros fuel IH msgs w out w' H. destruct fuel as [|fuel]; [discriminate|].
  cbn [agent_steps] in H.
  destruct (llm _) as [err|[content [|call calls]]]; cbv [mbind PyM_bind mret PyM_ret raise] in H;
    [discriminate| |].
  - injection H as <- _. exists [], content. split; [done|]. split; [apply rounds_nil|simpl; lia].
  - destruct fuel as [|fuel]; [discriminate|].
    destruct (tools_node (call :: calls) w) as [[res|e] w1] eqn:Ht; simpl in H; [|discriminate].
    destruct (IH fuel ltac:(lia) _ _ _ _ H) as (rounds & c & -> & Hr & Hb).
    pose proof (tools_node_ids _ _ _ _ Ht) as Hids.
    exists (AIMessage content (call :: calls) :: res ++ rounds), c. split.
    + rewrite <-!app_assoc. simpl. by rewrite <-!app_assoc.
    + split; [by constructor|]. simpl. rewrite count_ai_app.
      rewrite (count_ai_tool_msgs _ _ _ Hids). lia.
Qed.
End Shape.

(** ** What [run_agent] returns *)

Definition error_trace (e : PyExc) : string :=
  (nl ++ "[Agent Error]: " ++ py_str_exc e ++ nl)%string.

Lemma run_agent_unfold llm u w :
  run_agent llm u w =
    match agent_invoke llm recursion_limit [HumanMessage u] w with
    | (Ret out, w') =>
        match last out with
        | Some m => (Ret (AIMessage (msg_content m) []), w')
        | None => (Ret (AIMessage (agent_error_reply (IndexError "list index out of range")) []),
                   set_stdout w' (w_stdout w' ++ [error_trace (IndexError "list index out of range")]))
        end
    | (Raise e, w') => (Ret (AIMessage (agent_error_reply e) []), set_stdout w' (w_stdout w' ++ [error_trace e]))
    end.
Proof.
  unfold run_agent, try_catch. cbv [mbind PyM_bind].
  destruct (agent_invoke llm recursion_limit [HumanMessage u] w) as [[out|e] w'];
    [destruct (last out)|]; reflexivity.
Qed.

(** C2: [run_agent]'s contract.  When the graph run returns, the reply
    is the text of its final answer, which is an answer without tool
    calls, and nothing is printed; when anything in the run raises, the
    exception is printed after [[Agent Error]: ] and the reply is
    ["Error: <str(e)>. Try phrasing it differently."]. *)
Theorem run_agent_reply llm u w :
  match agent_invoke llm recursion_limit [HumanMessage u] w with
  | (Ret out, w') =>
      exists c, last out = Some (AIMessage c []) /\
                run_agent llm u w = (Ret (AIMessage c []), w')
  | (Raise e, w') =>
      run_agent llm u w =
        (Ret (AIMessage (agent_error_reply e) []), set_stdout w' (w_stdout w' ++ [error_trace e]))
  end.
Proof.
  rewrite run_agent_unfold.
  destruct (agent_invoke llm recursion_limit [HumanMessage u] w) as [[out|e] w'] eqn:Hrun; [|done].
  destruct (agent_steps_shape llm _ _ _ _ _ _ Hrun) as (rounds & c & -> & _ & _).
  exists c. rewrite !app_assoc, last_snoc. by split.
Qed.

(** C1: the engine never raises past its boundary: whatever the model
    answers and whatever the tools do, [run_agent] returns a message
    without tool calls. *)
Theorem run_agent_total llm u w :
  exists c w', run_agent llm u w = (Ret (AIMessage c []), w').
Proof.
  rewrite run_agent_unfold.
  destruct (agent_invoke llm recursion_limit [HumanMessage u] w) as [[out|e] w'] eqn:Hrun; [|by eauto].
  destruct (agent_steps_shape llm _ _ _ _ _ _ Hrun) as (rounds & c & -> & _ & _).
  rewrite !app_assoc, last_snoc. by eauto.
Qed.

(** C3: a run of the graph that returns is the user's message, complete
    rounds (an answer calling tools followed by exactly one result per
    call, in the calls' order) and a final answer without calls; the
    model was asked at most [(limit + 1) / 2] times. *)
Theorem agent_invoke_rounds llm limit u w out w' :
  agent_invoke llm limit [HumanMessage u] w = (Ret out, w') ->
  exists rounds c,
    out = HumanMessage u :: rounds ++ [AIMessage c []] /\ Rounds rounds /\
    2 * count_ai out <= limit + 1.
Proof.
  intros Hrun. destruct (agent_steps_shape llm _ _ _ _ _ _ Hrun) as (rounds & c & -> & Hr & Hb).
  exists rounds, c. split; [done|]. split; [done|].
  simpl. rewrite count_ai_app. simpl. lia.
Qed.

(** ** A model that never stops calling tools *)

Section ToolLoop.
Variable llm : list Msg -> Answer.

(** Every answer calls tools, and the tool node returns on them. *)
Definition always_calls_tools : Prop :=
  forall m, exists c cs, llm m = inr (c, cs) /\ cs <> [] /\
    forall w, exists res w', tools_node cs w = (Ret res, w').

Lemma agent_steps_tool_loop L fuel msgs w :
  always_calls_tools ->
  exists w', agent_steps llm L fuel msgs w = (Raise (GraphRecursionError L), w').
Proof.
  intros Hllm. revert msgs w. pattern fuel. apply (lt_wf_ind fuel). clear fuel.
  intros fuel IH msgs w. destruct fuel as [|fuel]; [by eexists|].
  cbn [agent_steps].
  destruct (Hllm (SystemMessage system_prompt :: msgs)) as (c & cs & -> & Hne & Htools).
  destruct cs as [|call calls]; [done|].
  destruct fuel as [|fuel]; [by eexists|].
  destruct (Htools w) as (res & w1 & Ht).
  cbv [mbind PyM_bind]. rewrite Ht. apply IH. lia.
Qed.
End ToolLoop.

(** C4: the iteration bound is a safety valve: when the model keeps
    asking for tools, [run_agent] stops after the recursion limit and
    answers with the [GraphRecursionError] message; it never loops. *)
Theorem run_agent_tool_loop_stops llm u w :
  always_calls_tools llm ->
  exists w', run_agent llm u w =
    (Ret (AIMessage (agent_error_reply (GraphRecursionError recursion_limit)) []), w').
Proof.
  intros Hllm. rewrite run_agent_unfold. unfold agent_invoke.
  destruct (agent_steps_tool_loop llm recursion_limit recursion_limit [HumanMessage u] w Hllm)
    as [w' ->].
  by eexists.
Qed.

(** ** A concrete session: "what is 7 times 6?" *)

Definition demo_question : string := "what is 7 times 6?".

Definition multiply_call : ToolCall :=
  {| tc_id := "call_1"; tc_name := "multiply"; tc_args := int_args 7 6 |}.

(** A model that asks for [multiply(7, 6)] and then reports the result. *)
Definition scripted_llm (msgs : list Msg) : Answer :=
  match last msgs with
  | Some (HumanMessage _) => inr (""%string, [multiply_call])
  | Some (ToolMessage _ _ (TCValue (VInt z))) => inr (("7 times 6 is " ++ py_str_int z)%string, [])
  | _ => inr ("I could not compute it."%string, [])
  end.

(** Both executors reachable, the notes process kept alive, no notes. *)
Definition demo_world : World := mkWorld [] [] true true true false [].

Definition demo_run := agent_invoke scripted_llm recursion_limit [HumanMessage demo_question] demo_world.
Definition demo_out : list Msg := match fst demo_run with Ret o => o | Raise _ => [] end.
Definition demo_world' : World := snd demo_run.

Lemma agent_invoke_rounds_witness :
  exists rounds c,
    demo_out = HumanMessage demo_question :: rounds ++ [AIMessage c []] /\ Rounds rounds /\
    2 * count_ai demo_out <= recursion_limit + 1.
Proof.
  apply (agent_invoke_rounds scripted_llm recursion_limit demo_question demo_world demo_out demo_world').
  vm_compute. reflexivity.
Defined.

(** A model that keeps calling a tool that does not exist. *)
Definition looping_llm (_ : list Msg) : Answer :=
  inr (""%string, [{| tc_id := "call_x"; tc_name := "calculator"; tc_args := ∅ |}]).

Lemma run_agent_tool_loop_stops_witness :
  exists w', run_agent looping_llm demo_question demo_world =
    (Ret (AIMessage (agent_error_reply (GraphRecursionError recursion_limit)) []), w').
Proof.
  apply (run_agent_tool_loop_stops looping_llm demo_question demo_world).
  intros m. exists ""%string, [{| tc_id := "call_x"; tc_name := "calculator"; tc_args := ∅ |}].
  split; [done|]. split; [done|]. intros w. eexists _, _. reflexivity.
Defined.

Example demo_reply :
  fst (run_agent scripted_llm demo_question demo_world) = Ret (AIMessage "7 times 6 is 42" []).
Proof. vm_compute. reflexivity. Qed.

(** ** The tool node on calculator calls *)

Definition calc_tool_names : list string := ["add"; "subtract"; "multiply"; "divide"].

Lemma find_calc_tool name :
  name ∈ calc_tool_names ->
  find_lc_tool name = Some (Adapter.int2 name (Adapter.calc_adapter name)).
Proof.
  unfold calc_tool_names. intros H. apply list_elem_of_In in H.
  repeat destruct H as [<-|H]; [reflexivity ..|done].
Qed.

Definition calc_call (id name : string) (a b : Z) : ToolCall :=
  {| tc_id := id; tc_name := name; tc_args := int_args a b |}.

Lemma run_calc_tool_call id name a b w :
  name ∈ calc_tool_names -> small a -> small b ->
  run_tool_call (calc_call id name a b) w =
    match call_calculator name (int_args a b) (set_stdout w (w_stdout w ++ [calc_trace name a b])) with
    | (Ret v, w') => (Ret (ToolMessage id name (TCValue v)), w')
    | (Raise e, w') => (Raise e, w')
    end.
Proof.
  intros Hn Ha Hb. unfold run_tool_call, calc_call. cbn [tc_name tc_id tc_args].
  rewrite (find_calc_tool name Hn).
  change (validate (Adapter.lc_params (Adapter.int2 name (Adapter.calc_adapter name))) (int_args a b))
    with (validate int_params (int_args a b)).
  replace (validate int_params (int_args a b)) with (inr (A:=string) [VInt a; VInt b]) by reflexivity.
  cbv [mbind PyM_bind mret PyM_ret]. simpl Adapter.lc_run. rewrite calc_adapter_run by done.
  by destruct (call_calculator _ _ _) as [[v|e] w'].
Qed.

(** C8: the engine's dispatch refines the calculator's contract: a model
    call of [add], [subtract] or [multiply] on printable integers, with the
    executor reachable, yields the tool message carrying the exact result
    under the call's id, and its only effect is the adapter's trace
    line. *)
Theorem tool_call_refines_arith id name a b r w :
  arith_spec name a b = Some r -> w_calc_up w = true -> small a -> small b ->
  run_tool_call (calc_call id name a b) w =
    (Ret (ToolMessage id name (TCValue (VInt r))),
     set_stdout w (w_stdout w ++ [calc_trace name a b])).
Proof.
  intros Hs Hup Ha Hb.
  assert (Hn : name ∈ calc_tool_names)
    by (apply arith_spec_cases in Hs as [[-> _]|[[-> _]|[-> _]]]; set_solver).
  rewrite run_calc_tool_call by done.
  rewrite call_calculator_up by done. by rewrite (call_arith name a b r Hs).
Qed.

Lemma tool_call_refines_arith_witness :
  run_tool_call (calc_call "call_1" "multiply" 7 6) demo_world =
    (Ret (ToolMessage "call_1" "multiply" (TCValue (VInt 42))),
     set_stdout demo_world (w_stdout demo_world ++ [calc_trace "multiply" 7 6])).
Proof.
  apply (tool_call_refines_arith "call_1" "multiply" 7 6 42 demo_world);
    [reflexivity | reflexivity | unfold small; vm_compute; reflexivity ..].
Defined.

(** Dividing by zero reaches the model as a value: with the
    calculator reachable, the tool message of [divide(a, 0)] carries the
    exact sentinel string, not an error, and the run goes on. *)
Theorem tool_call_divide_by_zero id a w :
  w_calc_up w = true -> small a ->
  run_tool_call (calc_call id "divide" a 0) w =
    (Ret (ToolMessage id "divide" (TCValue (VStr "Error: Cannot divide by zero."))),
     set_stdout w (w_stdout w ++ [calc_trace "divide" a 0])).
Proof.
  intros Hup Ha. rewrite run_calc_tool_call by (try done; set_solver).
  rewrite call_calculator_up by done. by rewrite call_divide.
Qed.

Lemma tool_call_divide_by_zero_witness :
  run_tool_call (calc_call "call_2" "divide" 5 0) demo_world =
    (Ret (ToolMessage "call_2" "divide" (TCValue (VStr "Error: Cannot divide by zero."))),
     set_stdout demo_world (w_stdout demo_world ++ [calc_trace "divide" 5 0])).
Proof.
  apply (tool_call_divide_by_zero "call_2" 5 demo_world);
    [reflexivity | unfold small; vm_compute; reflexivity].
Defined.

(** C10: a transport failure is not turned into an answer: when the
    calculator cannot be reached and the model's first answer calls a
    calculator tool, [run_agent] replies with the connection error, not
    with anything the model would compose. *)
Theorem calc_down_reported llm u w id name a b c :
  name ∈ calc_tool_names -> small a -> small b -> w_calc_up w = false ->
  llm [SystemMessage system_prompt; HumanMessage u] = inr (c, [calc_call id name a b]) ->
  fst (run_agent llm u w) =
    Ret (AIMessage (agent_error_reply (ConnectionError (connect_error_msg "server_calculator.py"))) []).
Proof.
  intros Hn Ha Hb Hdown Hllm. rewrite run_agent_unfold. unfold agent_invoke.
  cbn [agent_steps recursion_limit]. rewrite Hllm. cbv [mbind PyM_bind].
  unfold tools_node. cbn [mapM]. cbv [mbind PyM_bind].
  rewrite run_calc_tool_call by done. rewrite call_calculator_down by done.
  reflexivity.
Qed.

(** The model of the demo, with the calculator down. *)
Lemma calc_down_reported_witness :
  fst (run_agent scripted_llm demo_question (mkWorld [] [] false true true false [])) =
    Ret (AIMessage (agent_error_reply (ConnectionError (connect_error_msg "server_calculator.py"))) []).
Proof.
  apply (calc_down_reported scripted_llm demo_question _ "call_1" "multiply" 7 6 ""%string);
    [set_solver | unfold small; vm_compute; reflexivity .. | reflexivity | reflexivity].
Defined.

(** ** Frames: the engine never reads stdin and only appends to stdout *)

Lemma find_lc_tool_in name t : find_lc_tool name = Some t -> t ∈ Adapter.tools.
Proof. unfold find_lc_tool. intros H. apply List.find_some in H as [H _]. by apply list_elem_of_In. Qed.

Section FrameEngine.
Context (R : relation World) `{!WorldFrame R}.

Lemma frame_run_tool_call c : preserves R (run_tool_call c).
Proof.
  unfold run_tool_call. destruct (find_lc_tool (tc_name c)) as [t|] eqn:Hf; [|auto with agent].
  destruct (validate _ _); [auto with agent|].
  apply preserves_bind; [apply _|by apply frame_lc_run, (find_lc_tool_in (tc_name c))|auto with agent].
Qed.
#[local] Hint Resolve frame_run_tool_call : agent.

Lemma frame_agent_steps llm L fuel msgs : preserves R (agent_steps llm L fuel msgs).
Proof.
  revert msgs. pattern fuel. apply (lt_wf_ind fuel). clear fuel. intros fuel IH msgs.
  destruct fuel as [|fuel]; simpl; [auto with agent|].
  destruct (llm _) as [err|[content [|c cs]]]; [auto with agent..|].
  destruct fuel as [|fuel]; [auto with agent|]. unfold tools_node.
  apply preserves_bind; [apply _|auto with agent|]. intros res. apply IH. lia.
Qed.
#[local] Hint Resolve frame_agent_steps : agent.

Lemma frame_run_agent llm u : preserves R (run_agent llm u).
Proof.
  unfold run_agent, agent_invoke. apply preserves_try_catch; [apply _| |auto with agent].
  apply preserves_bind; [apply _|auto with agent|]. intros out. destruct (last out); auto with agent.
Qed.
End FrameEngine.
#[export] Hint Resolve frame_run_tool_call frame_agent_steps frame_run_agent : agent.

(** [run_agent] returns (the form the session loop uses). *)
Lemma run_agent_is_ret llm u w : is_ret (fst (run_agent llm u w)) = true.
Proof.
  rewrite run_agent_unfold.
  destruct (agent_invoke llm recursion_limit [HumanMessage u] w) as [[out|e] w'] eqn:Hrun; [|done].
  destruct (agent_steps_shape llm _ _ _ _ _ _ Hrun) as (rounds & c & -> & _ & _).
  by rewrite !app_assoc, last_snoc.
Qed.

(** ** Ill-formed tool calls *)

Lemma validate_missing ps (args : Args) x t :
  (x, t) ∈ ps -> args !! x = None -> exists bad, validate ps args = inl bad.
Proof.
  intros Hin Hx. apply validate_fails. intros vs Hf.
  apply list_elem_of_lookup in Hin as [i Hi].
  destruct (Forall2_lookup_l _ _ _ _ _ Hf Hi) as (v & _ & Hv). simpl in Hv.
  rewrite Hx in Hv. by destruct Hv.
Qed.

(** C28: a tool call the model gets wrong never reaches an adapter.  When
    no tool of [tools] has the call's name, or the call leaves out an
    argument that the tool of that name declares, the tool node answers
    with an error tool message under the call's id, and the world is
    unchanged: nothing is printed and no executor is contacted.  (A
    missing argument is rejected by pydantic in every mode; a present
    argument of another type may be coerced, which the model does not
    decide, so it is not part of the claim.) *)
Theorem run_tool_call_rejects c w :
  (forall t, t ∈ Adapter.tools -> Adapter.lc_name t = tc_name c ->
     exists x ty, (x, ty) ∈ Adapter.lc_params t /\ tc_args c !! x = None) ->
  exists msg, run_tool_call c w = (Ret (ToolMessage (tc_id c) (tc_name c) (TCError msg)), w).
Proof.
  intros Hbad. unfold run_tool_call.
  destruct (find_lc_tool (tc_name c)) as [t|] eqn:Hf; [|by eexists].
  pose proof (find_lc_tool_in _ _ Hf) as Hin.
  unfold find_lc_tool in Hf. apply List.find_some in Hf as [_ Hn].
  apply bool_decide_eq_true in Hn.
  destruct (Hbad t Hin Hn) as (x & ty & Hx & Hnone).
  destruct (validate_missing _ _ _ _ Hx Hnone) as [bad ->]. by eexists.
Qed.

Definition divide_bad_call : ToolCall :=
  {| tc_id := "call_7"; tc_name := "divide"; tc_args := {[ "b" := VInt 2 ]} |}.

(** The witness of C28: [divide] called without its argument [a]. *)
Lemma run_tool_call_rejects_witness :
  (forall t, t ∈ Adapter.tools -> Adapter.lc_name t = tc_name divide_bad_call ->
     exists x ty, (x, ty) ∈ Adapter.lc_params t /\ tc_args divide_bad_call !! x = None) /\
  exists msg, run_tool_call divide_bad_call demo_world =
    (Ret (ToolMessage "call_7" "divide" (TCError msg)), demo_world).
Proof.
  assert (H : forall t, t ∈ Adapter.tools -> Adapter.lc_name t = tc_name divide_bad_call ->
     exists x ty, (x, ty) ∈ Adapter.lc_params t /\ tc_args divide_bad_call !! x = None).
  { intros t Ht Hn. unfold Adapter.tools in Ht. apply list_elem_of_In in Ht.
    repeat destruct Ht as [<-|Ht]; try done; simpl in Hn; try discriminate.
    exists "a", TInt. split; [by left|reflexivity]. }
  split; [exact H|]. exact (run_tool_call_rejects divide_bad_call demo_world H).
Defined.
