(* ===== verification/Blind.v ===== *)
(** * Nothing reads what the program printed

    The world of [Adapters.World] carries stdout as the list of what was
    written; no operation of [src/agent.py] reads it back.  This file
    makes that precise as a setoid property: two worlds are equivalent
    ([≈ₒ]) when they agree on everything but stdout, and an action is
    [blind] when it is [Proper] for that equivalence, returning the same
    outcome on equivalent worlds and equivalent worlds after.  The
    combinators of the monad preserve blindness, and so every operation
    of a turn is blind, up to [Engine.run_agent]: a turn's reply and its
    effects on the executors do not depend on what earlier turns
    printed. *)

From S2P Require Import Prelude Py Mcp Calculator Notes Adapters Engine.
From stdpp Require Import strings gmap.
From Stdlib Require Import String.

Definition stdout_equiv (w w' : World) : Prop := set_stdout w [] = set_stdout w' [].

Declare Scope world_scope.
Delimit Scope world_scope with world.
Infix "≈ₒ" := stdout_equiv (at level 70) : world_scope.
Local Open Scope world_scope.

#[export] Instance stdout_equiv_equiv : Equivalence stdout_equiv.
Proof. unfold stdout_equiv. split; [done|by intros ??|by intros ??? -> ->]. Qed.

(** An action whose outcome and resulting world, up to stdout, depend on
    the world only up to stdout. *)
Definition blind {A} (m : PyW A) : Prop :=
  Proper (stdout_equiv ==> prod_relation eq stdout_equiv) m.

(** ** What equivalent worlds share *)

Section Equiv.
Context (w w' : World) (H : w ≈ₒ w').

Lemma equiv_stdin : w_stdin w = w_stdin w'.
Proof. exact (f_equal w_stdin H). Qed.
Lemma equiv_calc_up : w_calc_up w = w_calc_up w'.
Proof. exact (f_equal w_calc_up H). Qed.
Lemma equiv_notes_up : w_notes_up w = w_notes_up w'.
Proof. exact (f_equal w_notes_up H). Qed.
Lemma equiv_keep_alive : w_keep_alive w = w_keep_alive w'.
Proof. exact (f_equal w_keep_alive H). Qed.
Lemma equiv_notes_live : w_notes_live w = w_notes_live w'.
Proof. exact (f_equal w_notes_live H). Qed.
Lemma equiv_notes : w_notes w = w_notes w'.
Proof. exact (f_equal w_notes H). Qed.
Lemma equiv_notes_on_connect : notes_on_connect w = notes_on_connect w'.
Proof. unfold notes_on_connect. by rewrite equiv_keep_alive, equiv_notes_live, equiv_notes. Qed.

Lemma equiv_set_stdout o o' : set_stdout w o ≈ₒ set_stdout w' o'.
Proof. exact H. Qed.
Lemma equiv_set_notes live st : set_notes w live st ≈ₒ set_notes w' live st.
Proof.
  unfold stdout_equiv, set_notes, set_stdout. simpl.
  by rewrite equiv_stdin, equiv_calc_up, equiv_notes_up, equiv_keep_alive.
Qed.
End Equiv.

(** ** The combinators preserve blindness *)

Section Combinators.

Lemma blind_ret {A} (a : A) : blind (mret a).
Proof. intros w w' H. by split. Qed.

Lemma blind_raise {A} (e : PyExc) : blind (raise (A:=A) e).
Proof. intros w w' H. by split. Qed.

Lemma blind_bind {A B} (m : PyW A) (f : A -> PyW B) :
  blind m -> (forall a, blind (f a)) -> blind (m ≫= f).
Proof.
  intros Hm Hf w w' H. cbv [mbind PyM_bind].
  destruct (Hm w w' H) as [Ho Hw]. destruct (m w) as [[a|e] w1], (m w') as [o' w1'].
  - simpl in Ho, Hw. subst o'. exact (Hf a w1 w1' Hw).
  - simpl in Ho, Hw. subst o'. by split.
Qed.

Lemma blind_try_catch {A} (m : PyW A) (h : PyExc -> PyW A) :
  blind m -> (forall e, blind (h e)) -> blind (try_catch m h).
Proof.
  intros Hm Hh w w' H. unfold try_catch.
  destruct (Hm w w' H) as [Ho Hw]. destruct (m w) as [[a|e] w1], (m w') as [o' w1'].
  - simpl in Ho, Hw. subst o'. by split.
  - simpl in Ho, Hw. subst o'. exact (Hh e w1 w1' Hw).
Qed.

Lemma blind_mapM {A B} (f : A -> PyW B) l : (forall x, x ∈ l -> blind (f x)) -> blind (mapM f l).
Proof.
  induction l as [|x l IH]; intros Hf; cbn [mapM]; [apply blind_ret|].
  apply blind_bind; [apply Hf, elem_of_cons; by left|]. intros y.
  apply blind_bind; [apply IH; intros x' Hx'; apply Hf, elem_of_cons; by right|]. intros ys. apply blind_ret.
Qed.
End Combinators.

#[export] Hint Resolve blind_ret blind_raise blind_bind blind_try_catch blind_mapM : blind.

(** ** The operations of a turn are blind *)

Lemma blind_write s : blind (write s).
Proof. intros w w' H. split; [done|]. apply equiv_set_stdout, H. Qed.

Lemma blind_print s : blind (print s).
Proof. apply blind_write. Qed.

Lemma blind_format z : blind (py_format_int z).
Proof. unfold py_format_int. case_decide; auto with blind. Qed.

Lemma blind_call_calculator name args : blind (call_calculator name args).
Proof.
  intros w w' H. unfold call_calculator. rewrite (equiv_calc_up _ _ H).
  destruct (w_calc_up w'), (call_tool name args tt) as [[v|m] ?]; by split.
Qed.

Lemma blind_call_notes name args : blind (call_notes name args).
Proof.
  intros w w' H. unfold call_notes.
  rewrite (equiv_notes_up _ _ H), (equiv_notes_on_connect _ _ H), (equiv_keep_alive _ _ H).
  destruct (w_notes_up w'); [|by split].
  destruct (call_tool name args (notes_on_connect w')) as [[v|m] st'];
    destruct (w_keep_alive w'); (split; [done|]); by apply equiv_set_notes.
Qed.

#[export] Hint Resolve blind_write blind_print blind_format blind_call_calculator blind_call_notes : blind.

Lemma blind_lc_run t vs : t ∈ Adapter.tools -> blind (Adapter.lc_run t vs).
Proof.
  unfold Adapter.tools. intros Ht. apply list_elem_of_In in Ht.
  repeat destruct Ht as [<-|Ht]; try done; simpl; repeat case_match;
    unfold Adapter.add, Adapter.subtract, Adapter.multiply, Adapter.divide,
      Adapter.calc_adapter, Adapter.add_note, Adapter.read_notes; auto 10 with blind.
Qed.

Lemma blind_run_tool_call c : blind (run_tool_call c).
Proof.
  unfold run_tool_call. destruct (find_lc_tool (tc_name c)) as [t|] eqn:Hf; [|auto with blind].
  destruct (validate _ _); [auto with blind|].
  apply blind_bind; [by apply blind_lc_run, (find_lc_tool_in (tc_name c))|auto with blind].
Qed.

#[export] Hint Resolve blind_run_tool_call : blind.

Lemma blind_agent_steps llm L fuel msgs : blind (agent_steps llm L fuel msgs).
Proof.
  revert msgs. pattern fuel. apply (lt_wf_ind fuel). clear fuel. intros fuel IH msgs.
  destruct fuel as [|fuel]; simpl; [auto with blind|].
  destruct (llm _) as [err|[content [|c cs]]]; [auto with blind..|].
  destruct fuel as [|fuel]; [auto with blind|]. unfold tools_node.
  apply blind_bind; [auto with blind|]. intros res. apply IH. lia.
Qed.

#[export] Hint Resolve blind_agent_steps : blind.

Lemma blind_run_agent llm u : blind (run_agent llm u).
Proof.
  unfold run_agent, agent_invoke. apply blind_try_catch; [|auto with blind].
  apply blind_bind; [auto with blind|]. intros out. destruct (last out); auto with blind.
Qed.
