(* ===== verification/Runs.v ===== *)
(** * Completed agent runs: what the model sees ([src/agent.py], lines 91-131)

    Engine.v proves that a returning run is made of complete rounds
    (C3) and that one arithmetic tool call is answered exactly (C8).  This
    file composes the two over a whole run: the calculator's reachability
    is a frame of every operation ([same_calc_up], a [WorldFrame]), so an
    executor reachable when the run starts is reachable at every tool
    call, and each tool call of an answer is run by the tool node from a
    world reached from the start ([preserves_mapM_elem]).  The invariant
    [answered P] is proved once for any contract [P] the tool node meets
    at every world with the calculator up ([agent_invoke_answered]):
    every [add], [subtract] or [multiply] call the model makes on
    printable integers during a completed run has its exact result in the
    transcript, and every [divide(a, 0)] call the sentinel string.

    The second part runs the spec's end-to-end notes example through
    [run_agent] twice, for any model that behaves as the example
    expects ([notes_dialogue]), and for a scripted one.  The last part
    shows that a turn starts from a fresh conversation: two models that
    agree on the conversations of the turn's question give the same
    run, and worlds that differ only in earlier output give the same
    reply ([Blind.blind_run_agent]).  The file ends with spec section 8's idempotence of
    [read_notes()] through the adapter, and spec section 4.3's
    recursion limit as a safety valve: a completed run is the same under
    every larger limit. *)

From S2P Require Import Prelude Py Mcp Calculator Notes Adapters Engine Blind.
From stdpp Require Import strings gmap.
From Stdlib Require Import String.

(** Whether the calculator executor can be reached: no operation changes it. *)
Definition same_calc_up (w w' : World) : Prop := w_calc_up w' = w_calc_up w.
Arguments same_calc_up _ _ /.

(** [answered P msgs]: for every call [c] of an answer in [msgs] and
    value [v] with [P c v], the tool message carrying [v] under [c]'s id
    is among [msgs]. *)
Definition answered (P : ToolCall -> PyVal -> Prop) (msgs : list Msg) : Prop :=
  forall content calls c v, AIMessage content calls ∈ msgs -> c ∈ calls -> P c v ->
    ToolMessage (tc_id c) (tc_name c) (TCValue v) ∈ msgs.

(** The calculator's contracts on calls: exact arithmetic on printable
    integers, and the sentinel for a zero divisor. *)
Definition arith_expect (c : ToolCall) (v : PyVal) : Prop :=
  exists a b r, tc_args c = int_args a b /\ arith_spec (tc_name c) a b = Some r /\
                small a /\ small b /\ v = VInt r.

Definition div0_expect (c : ToolCall) (v : PyVal) : Prop :=
  exists a, tc_name c = "divide" /\ tc_args c = int_args a 0 /\ small a /\
            v = VStr divide_by_zero_msg.

(** The spec's "divide 5 by 0" example: a model that asks for
    [divide(5, 0)] and then reports. *)
Definition divide_call : ToolCall :=
  {| tc_id := "call_d"; tc_name := "divide"; tc_args := int_args 5 0 |}.

Definition div0_llm (msgs : list Msg) : Answer :=
  match last msgs with
  | Some (HumanMessage _) => inr (""%string, [divide_call])
  | _ => inr ("Dividing by zero is not possible."%string, [])
  end.

(** A model that answers only the conversations of the demo question. *)
Definition forgetful_llm (msgs : list Msg) : Answer :=
  match msgs with
  | SystemMessage _ :: HumanMessage q :: _ =>
      if String.eqb q demo_question then scripted_llm msgs else inl "unseen"%string
  | _ => inl "unseen"%string
  end.

(** ** The spec's notes dialogue

    "remember that ..." followed by "what did I ask you to remember?":
    the calls a cooperative model makes, and a scripted model that makes
    them. *)

Definition note_call (id m : string) : ToolCall :=
  {| tc_id := id; tc_name := "add_note"; tc_args := note_args m |}.
Definition read_call (id : string) : ToolCall :=
  {| tc_id := id; tc_name := "read_notes"; tc_args := ∅ |}.

Definition remember_question : string := "remember that the deploy key rotates monthly".
Definition recall_question : string := "what did I ask you to remember?".
Definition deploy_note : string := "the deploy key rotates monthly".

Definition notes_llm (msgs : list Msg) : Answer :=
  match last msgs with
  | Some (HumanMessage u) =>
      if String.eqb u remember_question then inr (""%string, [note_call "call_n" deploy_note])
      else inr (""%string, [read_call "call_r"])
  | Some (ToolMessage _ name v) =>
      if String.eqb name "add_note" then inr ("Noted."%string, [])
      else match v with TCValue (VStr s) => inr (s, []) | _ => inr ("Noted."%string, []) end
  | _ => inr ("Noted."%string, [])
  end.

#[export] Instance same_calc_up_frame : WorldFrame same_calc_up.
Proof.
  split; [split|..]; [intros w; done|intros w1 w2 w3 H1 H2; simpl in *; congruence|done..].
Qed.

(** One arithmetic call, at any world where the calculator is up. *)
Lemma run_arith_call c a b r w :
  w_calc_up w = true -> tc_args c = int_args a b -> arith_spec (tc_name c) a b = Some r ->
  small a -> small b ->
  exists w', run_tool_call c w = (Ret (ToolMessage (tc_id c) (tc_name c) (TCValue (VInt r))), w').
Proof.
  destruct c as [id name args]; cbn [tc_args tc_name tc_id]. intros Hup -> Hs Ha Hb.
  assert (Hn : name ∈ calc_tool_names)
    by (apply arith_spec_cases in Hs as [[-> _]|[[-> _]|[-> _]]]; set_solver).
  change {| tc_id := id; tc_name := name; tc_args := int_args a b |} with (calc_call id name a b).
  rewrite run_calc_tool_call by done.
  rewrite call_calculator_up by done. rewrite (call_arith name a b r Hs). by eexists.
Qed.

Lemma run_arith_expect c v w :
  w_calc_up w = true -> arith_expect c v ->
  exists w', run_tool_call c w = (Ret (ToolMessage (tc_id c) (tc_name c) (TCValue v)), w').
Proof. intros Hup (a & b & r & Hargs & Hs & Ha & Hb & ->). by apply (run_arith_call c a b r w). Qed.

Lemma run_div0_expect c v w :
  w_calc_up w = true -> div0_expect c v ->
  exists w', run_tool_call c w = (Ret (ToolMessage (tc_id c) (tc_name c) (TCValue v)), w').
Proof.
  destruct c as [id name args]. unfold div0_expect. cbn [tc_args tc_name tc_id].
  intros Hup (a & -> & -> & Ha & ->).
  change {| tc_id := id; tc_name := "divide"; tc_args := int_args a 0 |} with (calc_call id "divide" a 0).
  rewrite run_calc_tool_call by (try done; set_solver).
  rewrite call_calculator_up by done. rewrite call_divide. by eexists.
Qed.

(** The tool node's results are tool messages only. *)
Lemma tools_node_no_ai calls w res w' content cs :
  tools_node calls w = (Ret res, w') -> AIMessage content cs ∉ res.
Proof.
  intros Ht Hin. apply list_elem_of_In, (in_map tool_msg_id) in Hin.
  rewrite (tools_node_ids _ _ _ _ Ht) in Hin.
  apply in_map_iff in Hin as (x & Hx & _). discriminate.
Qed.

Section Answered.
Variable P : ToolCall -> PyVal -> Prop.
(** [P] is a contract the tool node meets whenever the calculator is up. *)
Hypothesis P_run : forall c v w, w_calc_up w = true -> P c v ->
  exists w', run_tool_call c w = (Ret (ToolMessage (tc_id c) (tc_name c) (TCValue v)), w').

Lemma answered_final msgs content :
  answered P msgs -> answered P (msgs ++ [AIMessage content []]).
Proof.
  intros Hm content' calls c v Hin Hc Hp.
  apply elem_of_app in Hin as [Hin|Hin].
  - apply elem_of_app. left. by eapply Hm.
  - apply list_elem_of_singleton in Hin. injection Hin as _ ->. by apply not_elem_of_nil in Hc.
Qed.

Lemma answered_round msgs content cs res w w' :
  w_calc_up w = true -> answered P msgs -> tools_node cs w = (Ret res, w') ->
  answered P (msgs ++ [AIMessage content cs] ++ res).
Proof.
  intros Hup Hm Ht content' calls c v Hin Hc Hp.
  apply elem_of_app in Hin as [Hin|Hin]; [apply elem_of_app; left; by eapply Hm|].
  apply elem_of_app in Hin as [Hin|Hin]; [|by apply (tools_node_no_ai _ _ _ _ _ _ Ht) in Hin].
  apply list_elem_of_singleton in Hin. injection Hin as _ <-.
  destruct (preserves_mapM_elem same_calc_up run_tool_call calls w res w'
              (frame_run_tool_call same_calc_up) Ht c Hc) as (w1 & w2 & y & Hw1 & Hy & Hyin).
  simpl in Hw1. rewrite Hup in Hw1.
  destruct (P_run c v w1 Hw1 Hp) as [w3 Hrun].
  rewrite Hrun in Hy. injection Hy as <- _.
  apply elem_of_app. right. apply elem_of_app. by right.
Qed.

Variable llm : list Msg -> Answer.

(** The invariant of the loop: answered conversations stay answered. *)
Lemma agent_steps_answered L fuel msgs w out w' :
  w_calc_up w = true -> answered P msgs ->
  agent_steps llm L fuel msgs w = (Ret out, w') -> answered P out.
Proof.
  revert msgs w out w'. pattern fuel. apply (lt_wf_ind fuel). clear fuel.
  intros fuel IH msgs w out w' Hup Hm H. destruct fuel as [|fuel]; [discriminate|].
  cbn [agent_steps] in H.
  destruct (llm _) as [err|[content [|call calls]]]; cbv [mbind PyM_bind mret PyM_ret raise] in H;
    [discriminate| |].
  - injection H as <- _. by apply answered_final.
  - destruct fuel as [|fuel]; [discriminate|].
    destruct (tools_node (call :: calls) w) as [[res|e] w1] eqn:Ht; simpl in H; [|discriminate].
    refine (IH fuel ltac:(lia) _ w1 _ _ _ _ H).
    + rewrite <-Hup. exact (preserves_mapM same_calc_up run_tool_call _ (frame_run_tool_call same_calc_up) _ _ _ Ht).
    + rewrite <-app_assoc. by eapply answered_round.
Qed.

(** A run from the user's message alone answers every call it makes. *)
Lemma agent_invoke_answered limit u w out w' :
  w_calc_up w = true -> agent_invoke llm limit [HumanMessage u] w = (Ret out, w') -> answered P out.
Proof.
  intros Hup Hrun. apply (agent_steps_answered limit limit [HumanMessage u] w out w' Hup); [|exact Hrun].
  intros content calls c v Hin. apply list_elem_of_singleton in Hin. discriminate.
Qed.
End Answered.

(** C29: the model never sees a wrong arithmetic result.  In every run of
    the agent on a user message that completes, with the calculator
    reachable when it starts, every [add], [subtract] or [multiply] call
    that an answer of the model makes on printable integers [a], [b] has
    in the transcript the tool message carrying the exact [a + b],
    [a - b] or [a * b] under the call's id. *)
Theorem agent_run_arith_exact llm limit u w out w' :
  w_calc_up w = true ->
  agent_invoke llm limit [HumanMessage u] w = (Ret out, w') ->
  forall content calls c a b r,
    AIMessage content calls ∈ out -> c ∈ calls ->
    tc_args c = int_args a b -> arith_spec (tc_name c) a b = Some r -> small a -> small b ->
    ToolMessage (tc_id c) (tc_name c) (TCValue (VInt r)) ∈ out.
Proof.
  intros Hup Hrun content calls c a b r Hin Hc Hargs Hs Ha Hb.
  apply (agent_invoke_answered arith_expect run_arith_expect llm limit u w out w' Hup Hrun content calls);
    [done..|]. by exists a, b, r.
Qed.

(** The witness of C29 on the spec's example: the scripted model's
    [multiply(7, 6)] is answered with [42]. *)
Lemma agent_run_arith_exact_witness :
  w_calc_up demo_world = true /\
  agent_invoke scripted_llm recursion_limit [HumanMessage demo_question] demo_world = (Ret demo_out, demo_world') /\
  AIMessage "" [multiply_call] ∈ demo_out /\ multiply_call ∈ [multiply_call] /\
  tc_args multiply_call = int_args 7%Z 6%Z /\ arith_spec (tc_name multiply_call) 7%Z 6%Z = Some 42%Z /\
  small 7%Z /\ small 6%Z /\
  ToolMessage "call_1" "multiply" (TCValue (VInt 42%Z)) ∈ demo_out.
Proof.
  assert (H1 : w_calc_up demo_world = true) by reflexivity.
  assert (H2 : agent_invoke scripted_llm recursion_limit [HumanMessage demo_question] demo_world
               = (Ret demo_out, demo_world')) by (vm_compute; reflexivity).
  assert (H3 : AIMessage "" [multiply_call] ∈ demo_out)
    by (apply list_elem_of_In; vm_compute; tauto).
  assert (H4 : multiply_call ∈ [multiply_call]) by (apply list_elem_of_singleton; reflexivity).
  assert (H5 : tc_args multiply_call = int_args 7%Z 6%Z) by reflexivity.
  assert (H6 : arith_spec (tc_name multiply_call) 7%Z 6%Z = Some 42%Z) by reflexivity.
  assert (H7 : small 7%Z) by (unfold small; vm_compute; reflexivity).
  assert (H8 : small 6%Z) by (unfold small; vm_compute; reflexivity).
  do 8 (split; [assumption|]).
  exact (agent_run_arith_exact scripted_llm recursion_limit demo_question demo_world demo_out demo_world'
           H1 H2 "" [multiply_call] multiply_call 7%Z 6%Z 42%Z H3 H4 H5 H6 H7 H8).
Defined.

(** C31: division by zero reaches the model as the sentinel, over a
    whole run: in every completed run on a user message with the
    calculator reachable, every [divide(a, 0)] call the model makes on a
    printable [a] has in the transcript the tool message carrying the
    exact string "Error: Cannot divide by zero." under the call's id. *)
Theorem agent_run_div0_sentinel llm limit u w out w' :
  w_calc_up w = true ->
  agent_invoke llm limit [HumanMessage u] w = (Ret out, w') ->
  forall content calls c a,
    AIMessage content calls ∈ out -> c ∈ calls ->
    tc_name c = "divide" -> tc_args c = int_args a 0 -> small a ->
    ToolMessage (tc_id c) "divide" (TCValue (VStr "Error: Cannot divide by zero.")) ∈ out.
Proof.
  intros Hup Hrun content calls c a Hin Hc Hn Hargs Ha. rewrite <-Hn.
  apply (agent_invoke_answered div0_expect run_div0_expect llm limit u w out w' Hup Hrun content calls);
    [done..|]. by exists a.
Qed.

(** The witness of C31 on the spec's example. *)
Lemma agent_run_div0_sentinel_witness :
  exists out w',
    agent_invoke div0_llm recursion_limit [HumanMessage "divide 5 by 0"] demo_world = (Ret out, w') /\
    ToolMessage "call_d" "divide" (TCValue (VStr "Error: Cannot divide by zero.")) ∈ out.
Proof.
  eexists _, _. split; [vm_compute; reflexivity|].
  apply (agent_run_div0_sentinel div0_llm recursion_limit "divide 5 by 0" demo_world _ _
           eq_refl ltac:(vm_compute; reflexivity) "" [divide_call] divide_call 5%Z);
    [apply list_elem_of_In; vm_compute; tauto|apply list_elem_of_singleton; reflexivity
    |reflexivity|reflexivity|unfold small; vm_compute; reflexivity].
Defined.

(** ** Notes across two turns *)

Lemma run_note_call id m w :
  w_notes_up w = true ->
  run_tool_call (note_call id m) w =
    (Ret (ToolMessage id "add_note" (TCValue (VStr ("Note added: " ++ m)))),
     let w1 := set_stdout w (w_stdout w ++ [notes_trace m]) in
     if w_keep_alive w then set_notes w1 true (notes_on_connect w ++ [m]) else set_notes w1 false []).
Proof.
  intros Hup. unfold run_tool_call, note_call. cbn [tc_name tc_id tc_args].
  simpl. unfold note_args.
  rewrite lookup_singleton. simpl.
  unfold Adapter.add_note, call_notes, print, write. pym_run. rewrite Hup.
  rewrite call_add_note. destruct (w_keep_alive w); reflexivity.
Qed.

Lemma run_read_call id w :
  w_notes_up w = true ->
  run_tool_call (read_call id) w =
    (Ret (ToolMessage id "read_notes" (TCValue (VStr (read_notes (notes_on_connect w))))),
     let w1 := set_stdout w (w_stdout w ++ [Adapter.trace_line "read_notes()" ++ nl]%string) in
     if w_keep_alive w then set_notes w1 true (notes_on_connect w) else set_notes w1 false []).
Proof.
  intros Hup. unfold run_tool_call, read_call. cbn [tc_name tc_id tc_args]. simpl.
  unfold Adapter.read_notes, call_notes, print, write. pym_run. rewrite Hup.
  destruct (w_keep_alive w); reflexivity.
Qed.

Section OneCall.
Variable llm : list Msg -> Answer.

(** A turn in which the model makes one tool call and then answers. *)
Lemma run_agent_one_call u content c tm d w w1 :
  llm [SystemMessage system_prompt; HumanMessage u] = inr (content, [c]) ->
  run_tool_call c w = (Ret tm, w1) ->
  llm [SystemMessage system_prompt; HumanMessage u; AIMessage content [c]; tm] = inr (d, []) ->
  run_agent llm u w = (Ret (AIMessage d []), w1).
Proof.
  intros H1 Hc H2. rewrite run_agent_unfold. unfold agent_invoke, recursion_limit.
  cbn [agent_steps]. rewrite H1. cbv [mbind PyM_bind mret PyM_ret]. unfold tools_node. cbn [mapM].
  cbv [mbind PyM_bind mret PyM_ret]. rewrite Hc. cbn [agent_steps app]. rewrite H2. reflexivity.
Qed.
End OneCall.

Section NotesDialogue.
Variable llm : list Msg -> Answer.
Variables q1 q2 m id1 id2 c1 d1 c2 : string.
Hypothesis llm_remember :
  forall msgs, last msgs = Some (HumanMessage q1) -> llm msgs = inr (c1, [note_call id1 m]).
Hypothesis llm_confirm :
  forall msgs id v, last msgs = Some (ToolMessage id "add_note" v) -> llm msgs = inr (d1, []).
Hypothesis llm_recall :
  forall msgs, last msgs = Some (HumanMessage q2) -> llm msgs = inr (c2, [read_call id2]).
Hypothesis llm_echo :
  forall msgs id s, last msgs = Some (ToolMessage id "read_notes" (TCValue (VStr s))) -> llm msgs = inr (s, []).

(** C30: the spec's notes dialogue, for any model that saves the note
    on the first question, confirms, calls [read_notes] on the second
    question and repeats what it returns: the second reply is the notes
    store's rendering of the store the first connection found with the
    note appended when the notes process is kept alive between calls,
    and the empty-store message when each call starts a fresh process:
    the note is remembered only under keep-alive. *)
Theorem notes_dialogue w :
  w_notes_up w = true ->
  exists w1 w2, run_agent llm q1 w = (Ret (AIMessage d1 []), w1) /\
    run_agent llm q2 w1 =
      (Ret (AIMessage (if w_keep_alive w then read_notes (notes_on_connect w ++ [m]) else no_notes_msg) []), w2).
Proof.
  intros Hup. pose proof (run_note_call id1 m w Hup) as Hn.
  destruct (w_keep_alive w) eqn:Hka; simpl in Hn; (eexists _, _; split;
    [eapply run_agent_one_call; [apply llm_remember; reflexivity|exact Hn|eapply llm_confirm; reflexivity]|]);
    (eapply run_agent_one_call; [apply llm_recall; reflexivity|apply run_read_call; exact Hup|]);
    (erewrite llm_echo by reflexivity; unfold notes_on_connect; simpl; by rewrite Hka).
Qed.
End NotesDialogue.

(** The witness of C30 with the scripted model, a kept-alive notes
    process started fresh: the second reply is the note itself. *)
Lemma notes_dialogue_witness :
  exists w1 w2,
    run_agent notes_llm remember_question (mkWorld [] [] true true true false []) =
      (Ret (AIMessage "Noted." []), w1) /\
    run_agent notes_llm recall_question w1 =
      (Ret (AIMessage (if w_keep_alive (mkWorld [] [] true true true false [])
                       then read_notes (notes_on_connect (mkWorld [] [] true true true false []) ++ [deploy_note])
                       else no_notes_msg) []), w2).
Proof.
  apply (notes_dialogue notes_llm remember_question recall_question deploy_note "call_n" "call_r" "" "Noted." "");
    [intros; match goal with H : last _ = _ |- _ => unfold notes_llm; rewrite H; reflexivity end ..
    |reflexivity].
Defined.

(** The dialogue run end to end: with a kept-alive process the second
    reply is the note; with a fresh process per call it is the
    empty-store message. *)
Example notes_dialogue_kept_alive :
  fst (run_agent notes_llm recall_question
         (snd (run_agent notes_llm remember_question (mkWorld [] [] true true true false []))))
  = Ret (AIMessage deploy_note []).
Proof. vm_compute. reflexivity. Qed.

Example notes_dialogue_fresh_process :
  fst (run_agent notes_llm recall_question
         (snd (run_agent notes_llm remember_question (mkWorld [] [] true true false false []))))
  = Ret (AIMessage no_notes_msg []).
Proof. vm_compute. reflexivity. Qed.

(** ** Each turn starts from a fresh conversation *)

Section Fresh.
Variables llm llm' : list Msg -> Answer.
Variable u : string.
(** The two models agree on every conversation of this turn. *)
Hypothesis agree : forall rest,
  llm (SystemMessage system_prompt :: HumanMessage u :: rest) =
  llm' (SystemMessage system_prompt :: HumanMessage u :: rest).

Lemma agent_steps_local L fuel rest w :
  agent_steps llm L fuel (HumanMessage u :: rest) w = agent_steps llm' L fuel (HumanMessage u :: rest) w.
Proof.
  revert rest w. pattern fuel. apply (lt_wf_ind fuel). clear fuel. intros fuel IH rest w.
  destruct fuel as [|fuel]; [reflexivity|]. cbn [agent_steps]. rewrite agree.
  destruct (llm' _) as [err|[content [|call calls]]]; [reflexivity..|].
  destruct fuel as [|fuel]; [reflexivity|]. cbv [mbind PyM_bind].
  destruct (tools_node (call :: calls) w) as [[res|e] w1]; [|reflexivity].
  apply IH. lia.
Qed.
End Fresh.

(** C33: agent.py's engine keeps no state across calls: the outcome of
    [run_agent] on a line [u] (its reply and everything it does) depends
    only on how the model answers conversations that start with the
    system prompt and [u] itself, so no earlier turn can be seen by the
    model; and it does not depend on what was printed before: on two
    worlds that differ only in their stdout, the reply is the same and
    the worlds after differ only in their stdout. *)
Theorem run_agent_fresh_context llm llm' u w w' :
  (forall rest, llm (SystemMessage system_prompt :: HumanMessage u :: rest) =
                llm' (SystemMessage system_prompt :: HumanMessage u :: rest)) ->
  stdout_equiv w w' ->
  run_agent llm u w = run_agent llm' u w /\
  fst (run_agent llm u w) = fst (run_agent llm u w') /\
  stdout_equiv (snd (run_agent llm u w)) (snd (run_agent llm u w')).
Proof.
  intros Hagree Hw. split.
  - rewrite !run_agent_unfold. unfold agent_invoke.
    by rewrite (agent_steps_local llm llm' u Hagree recursion_limit recursion_limit [] w).
  - exact (blind_run_agent llm u w w' Hw).
Qed.

(** The witness of C33: the scripted model and one that fails on every
    other conversation run the demo question identically, and the same
    turn after earlier output gives the same reply. *)
Lemma run_agent_fresh_context_witness :
  (forall rest, scripted_llm (SystemMessage system_prompt :: HumanMessage demo_question :: rest) =
                forgetful_llm (SystemMessage system_prompt :: HumanMessage demo_question :: rest)) /\
  stdout_equiv demo_world (set_stdout demo_world ["You: earlier question"]) /\
  run_agent scripted_llm demo_question demo_world = run_agent forgetful_llm demo_question demo_world /\
  fst (run_agent scripted_llm demo_question demo_world) =
    fst (run_agent scripted_llm demo_question (set_stdout demo_world ["You: earlier question"])) /\
  stdout_equiv (snd (run_agent scripted_llm demo_question demo_world))
    (snd (run_agent scripted_llm demo_question (set_stdout demo_world ["You: earlier question"]))).
Proof.
  assert (H : forall rest, scripted_llm (SystemMessage system_prompt :: HumanMessage demo_question :: rest) =
                           forgetful_llm (SystemMessage system_prompt :: HumanMessage demo_question :: rest)).
  { intros rest. unfold forgetful_llm. by rewrite String.eqb_refl. }
  assert (Hw : stdout_equiv demo_world (set_stdout demo_world ["You: earlier question"])) by reflexivity.
  split; [exact H|]. split; [exact Hw|].
  exact (run_agent_fresh_context scripted_llm forgetful_llm demo_question _ _ H Hw).
Defined.

(** ** Reading the notes twice *)

Lemma read_notes_adapter_run w :
  w_notes_up w = true ->
  Adapter.read_notes w =
    (Ret (VStr (read_notes (notes_on_connect w))),
     let w1 := set_stdout w (w_stdout w ++ [Adapter.trace_line "read_notes()" ++ nl]%string) in
     if w_keep_alive w then set_notes w1 true (notes_on_connect w) else set_notes w1 false []).
Proof.
  intros Hup. unfold Adapter.read_notes, call_notes, print, write. pym_run.
  rewrite Hup. by destruct (w_keep_alive w).
Qed.

(** C37: spec section 8's idempotence, through the adapter: a second
    [read_notes()] right after one that returned gives the same text and
    leaves the store as the first left it, whether or not the notes
    process is kept alive between connections. *)
Theorem read_notes_idempotent w v w1 :
  Adapter.read_notes w = (Ret v, w1) ->
  exists w2, Adapter.read_notes w1 = (Ret v, w2) /\
             w_notes w2 = w_notes w1 /\ w_notes_live w2 = w_notes_live w1.
Proof.
  destruct (w_notes_up w) eqn:Hup;
    [|unfold Adapter.read_notes, call_notes, print, write; pym_run; by rewrite Hup].
  rewrite (read_notes_adapter_run w Hup). intros [= <- <-].
  rewrite read_notes_adapter_run by (destruct (w_keep_alive w); exact Hup).
  destruct (w_keep_alive w) eqn:Hka; unfold notes_on_connect; simpl; rewrite ?Hka; simpl;
    eexists; by split.
Qed.

(** The witness of C37 on a kept-alive store of two notes. *)
Lemma read_notes_idempotent_witness :
  exists w2, Adapter.read_notes (snd (Adapter.read_notes (mkWorld [] [] true true true true ["a"; "b"])))
               = (Ret (VStr "a
b"), w2) /\
             w_notes w2 = ["a"; "b"] /\ w_notes_live w2 = true.
Proof.
  apply (read_notes_idempotent (mkWorld [] [] true true true true ["a"; "b"])). vm_compute. reflexivity.
Defined.

(** ** The recursion limit is a safety valve *)

Lemma agent_steps_more_fuel llm L L' fuel fuel' msgs w out w' :
  fuel <= fuel' -> agent_steps llm L fuel msgs w = (Ret out, w') ->
  agent_steps llm L' fuel' msgs w = (Ret out, w').
Proof.
  revert fuel' msgs w. pattern fuel. apply (lt_wf_ind fuel). clear fuel.
  intros fuel IH fuel' msgs w Hle Hrun.
  destruct fuel as [|fuel]; [discriminate|]. destruct fuel' as [|fuel']; [lia|].
  cbn [agent_steps] in *. destruct (llm _) as [err|[content [|c cs]]]; [discriminate|done|].
  destruct fuel as [|fuel]; [discriminate|]. destruct fuel' as [|fuel']; [lia|].
  cbv [mbind PyM_bind] in *. destruct (tools_node (c :: cs) w) as [[res|e] w1]; [|discriminate].
  exact (IH fuel ltac:(lia) fuel' _ _ ltac:(lia) Hrun).
Qed.

(** C38: spec section 4.3's recursion limit is a safety valve and not
    part of the answer: a run of the graph that completes under a limit
    completes with the same transcript and the same effects under every
    larger limit. *)
Theorem agent_invoke_limit_monotone llm L L' msgs w out w' :
  L <= L' -> agent_invoke llm L msgs w = (Ret out, w') -> agent_invoke llm L' msgs w = (Ret out, w').
Proof. apply agent_steps_more_fuel. Qed.

(** The witness of C38: the scripted [7 times 6] run needs three node
    runs, and gives the same result under the default limit. *)
Lemma agent_invoke_limit_monotone_witness :
  3 <= recursion_limit /\
  agent_invoke scripted_llm recursion_limit [HumanMessage demo_question] demo_world =
    agent_invoke scripted_llm 3 [HumanMessage demo_question] demo_world.
Proof.
  split; [vm_compute; lia|].
  rewrite (agent_invoke_limit_monotone scripted_llm 3 recursion_limit [HumanMessage demo_question] demo_world
             demo_out demo_world'); [reflexivity|vm_compute; lia|vm_compute; reflexivity].
Defined.
