(* ===== verification/Session.v ===== *)
(** * The interactive sessions: [src/agent.py] lines 134-152 and
      [src/main.py]

    Both programs read a line with [input("You: ")], strip it, stop on a
    sentinel compared case-insensitively, and otherwise print
    ["Agent: "], the reply of their [run_agent] and an empty line.
    [main.py] keeps a history of (human, agent) turns that its prompt
    template puts between the system message and the question, and runs
    two such loops one after the other, the second also stopping on an
    empty line.  [input] raises [EOFError] at the end of stdin and
    [UnicodeDecodeError] on a line whose bytes are not UTF-8 (stdin
    decoded strictly, as under a UTF-8 locale); neither program catches
    them.  agent.py first runs its module prologue, which exits when a
    server script is missing ([Adapters.startup]).

    [repl] is the loop shared by the three [while True] loops; it runs on
    fuel, and [session] gives it one more unit than there are lines left,
    which the termination theorem shows is always enough.  The
    transcript lemma [repl_transcript] holds for any turn that keeps
    stdin, only appends to stdout and always returns; it gives agent.py's
    command-line contract. *)

From S2P Require Import Prelude Py Mcp Calculator Notes Adapters Engine.
From stdpp Require Import strings gmap.
From Stdlib Require Import String.

(** The text of CPython's decoding error is a stand-in: the real one
    names the offending byte and its position. *)
Definition decode_error_msg : string := "'utf-8' codec can't decode the line".

(** Read one line of stdin; [EOFError] when there is none,
    [UnicodeDecodeError] when its bytes do not decode. *)
Definition read_line : PyW string :=
  fun w => match w_stdin w with
           | [] => (Raise EOFError, w)
           | Text l :: rest => (Ret l, set_stdin w rest)
           | Undecodable :: rest => (Raise (UnicodeDecodeError decode_error_msg), set_stdin w rest)
           end.

(** [input(prompt)] *)
Definition input (prompt : string) : PyW string := write prompt;; read_line.

Definition is_quit (words : list string) (s : string) : bool :=
  bool_decide (py_lower s ∈ words).

Inductive LoopEnd : Type := Quit | OutOfFuel.

Section Repl.
Context {H : Type}.
(** The sentinels, the call that answers a line given the history, and
    how a turn is recorded in the history. *)
Variable words : list string.
Variable turn : string -> H -> PyW Msg.
Variable record : H -> string -> Msg -> H.

Fixpoint repl (fuel : nat) (h : H) : PyW (LoopEnd * H) :=
  match fuel with
  | O => mret (OutOfFuel, h)
  | S fuel' =>
      line ← input "You: ";
      let user_input := py_strip line in
      if is_quit words user_input then print "Goodbye!";; mret (Quit, h)
      else
        write "Agent: ";;
        response ← turn user_input h;
        print (msg_content response);;
        print "";;
        repl fuel' (record h user_input response)
  end.

Definition session (h : H) : PyW (LoopEnd * H) :=
  fun w => repl (S (List.length (w_stdin w))) h w.
End Repl.

(** ** agent.py *)

Definition agent_quit_words : list string := ["quit"; "exit"; "q"].

Definition agent_banner : PyW unit :=
  print "============================================================";;
  print "DevHelper Agent (with Calculator & Notes Tools)";;
  print "============================================================";;
  print "... (Startup messages) ...";;
  print "============================================================".

(** The whole program, with the script files [present]: the module
    prologue, the banner and the loop. *)
Definition agent_main (present : string -> bool) (llm : list Msg -> Answer) : PyW LoopEnd :=
  startup present;;
  agent_banner;;
  '(r, _) ← session agent_quit_words (fun u (_ : unit) => run_agent llm u) (fun _ _ _ => ()) ();
  mret r.

(** ** main.py *)

Definition chat_system_prompt : string :=
"You are DevHelper, an expert software development assistant.
    Your job is to read, review, explain, and improve code.
    You can help with debugging, refactoring, architecture decisions, and explaining difficult concepts.

    BEHAVIOR RULES:
    - Provide concise, accurate, developer-friendly explanations.
    - When reviewing code, focus on correctness, clarity, maintainability, and best practices.
    - Suggest improvements only when they add real value.
    - If the user’s request is ambiguous, infer reasonable context rather than asking unnecessary questions.
    - Always structure answers clearly (bullet points, short paragraphs, etc.).
    - Do not generate sample data unless explicitly asked.
    - Do not apply previous dataset logic from earlier versions of this prompt.

    Your primary role: Be a highly reliable and technically skilled software development assistant.
    ".

(** The messages [template] renders (lines 17-37). *)
Definition format_prompt (history : list Msg) (user_input : string) : list Msg :=
  [SystemMessage chat_system_prompt] ++ history ++
  [HumanMessage ("Here is the question to answer: " ++ user_input)%string].

(** [OllamaLLM] is a completion model: it returns a string, or raises. *)
Abbreviation Completion := (string + string)%type.

(** [run_agent(user_input, history)] of main.py (lines 43-59): the chain
    returns a string, which is not a [BaseMessage], so it is wrapped. *)
(** [chain = template | model]: the prompt fed to the model. *)
Definition chain (llm : list Msg -> Completion) (history : list Msg) (user_input : string) : Completion :=
  llm (format_prompt history user_input).

Definition chat_run_agent (llm : list Msg -> Completion) (user_input : string)
    (history : list Msg) : PyW Msg :=
  try_catch
    (match chain llm history user_input with
     | inl err => raise (ModelError err)
     | inr result => mret (AIMessage result [])
     end)
    (fun e => mret (AIMessage ("Error: " ++ py_str_exc e ++ ". Try phrasing it differently.")%string [])).

Definition record_turn (history : list Msg) (user_input : string) (response : Msg) : list Msg :=
  history ++ [HumanMessage user_input; response].

Definition main_quit_words1 : list string := ["quit"; "exit"; "q"].
Definition main_quit_words2 : list string := ["quit"; "exit"; "q"; ""].

Definition main_banner : PyW unit :=
  print "============================================================";;
  print "DevHelper Agent";;
  print "============================================================";;
  print "An interactive developer assistant for reviewing, debugging, ";;
  print "and improving code. Ask anything related to software development.";;
  print "";;
  print "Examples:";;
  print "  - Review this function and suggest improvements";;
  print "  - Explain why this FastAPI route throws an error";;
  print "  - Refactor this class into a cleaner architecture";;
  print "  - Help me design a database model for my service";;
  print "";;
  print "Commands: 'quit' or 'exit' to end";;
  print "============================================================".

Definition main_loop (llm : list Msg -> Completion) (words : list string) : PyW (LoopEnd * list Msg) :=
  session words (chat_run_agent llm) record_turn [].

(** The whole of main.py run as a script (lines 62-108). *)
Definition main_py (llm : list Msg -> Completion) : PyW LoopEnd :=
  main_banner;;
  '(_, _) ← main_loop llm main_quit_words1;
  '(r, _) ← main_loop llm main_quit_words2;
  mret r.

(** What one answered line prints: the prompt, ["Agent: "], whatever the
    turn itself prints [d], the reply [c] and an empty line. *)
Definition turn_output (d : list string) (c : string) : list string :=
  ["You: "; "Agent: "] ++ d ++ [c ++ nl; "" ++ nl]%string.

(** ** Reading input *)

Lemma input_cons p w l rest :
  w_stdin w = Text l :: rest ->
  input p w = (Ret l, set_stdin (set_stdout w (w_stdout w ++ [p])) rest).
Proof. intros H. unfold input, read_line, write. pym_run. by rewrite H. Qed.

Lemma input_nil p w :
  w_stdin w = [] -> input p w = (Raise EOFError, set_stdout w (w_stdout w ++ [p])).
Proof. intros H. unfold input, read_line, write. pym_run. by rewrite H. Qed.

Lemma input_undecodable p w rest :
  w_stdin w = Undecodable :: rest ->
  input p w = (Raise (UnicodeDecodeError decode_error_msg), set_stdin (set_stdout w (w_stdout w ++ [p])) rest).
Proof. intros H. unfold input, read_line, write. pym_run. by rewrite H. Qed.

(** How a run that does not hang ends: a clean return after a sentinel,
    or one of the two errors [input] raises. *)
Definition input_error (e : PyExc) : Prop := e = EOFError \/ e = UnicodeDecodeError decode_error_msg.

(** ** The loop ends: on a sentinel, or on [EOFError] at the end of input *)

Section ReplEnds.
Context {H : Type}.
Variable words : list string.
Variable turn : string -> H -> PyW Msg.
Variable record : H -> string -> Msg -> H.
Hypothesis turn_keeps : forall u h, keeps_stdin (turn u h).
Hypothesis turn_total : forall u h w, is_ret (fst (turn u h w)) = true.

Lemma repl_ends fuel h w :
  List.length (w_stdin w) < fuel ->
  (exists h' w', repl words turn record fuel h w = (Ret (Quit, h'), w')) \/
  (exists e w', input_error e /\ repl words turn record fuel h w = (Raise e, w')).
Proof.
  revert h w. induction fuel as [|fuel IH]; intros h w Hlen; [lia|].
  cbn [repl]. destruct (w_stdin w) as [|[l|] rest] eqn:Hin.
  - right. rewrite (bind_Raise _ _ _ _ _ (input_nil _ _ Hin)). eexists _, _. split; [by left|done].
  - rewrite (bind_Ret _ _ _ _ _ (input_cons _ _ _ _ Hin)).
    destruct (is_quit words (py_strip l)); [left; pym_run; by eauto|].
    cbv [mbind PyM_bind write modify].
    destruct (turn (py_strip l) h _) as [o w1] eqn:Ht.
    pose proof (turn_total (py_strip l) h
      (set_stdout (set_stdin (set_stdout w (w_stdout w ++ ["You: "])) rest)
         (w_stdout (set_stdin (set_stdout w (w_stdout w ++ ["You: "])) rest) ++ ["Agent: "]))) as Htot.
    rewrite Ht in Htot. destruct o as [r|e]; [|done].
    apply turn_keeps in Ht. simpl in Ht. cbv [print write modify]. simpl.
    apply IH. simpl. rewrite Ht. simpl in Hlen. lia.
  - right. rewrite (bind_Raise _ _ _ _ _ (input_undecodable _ _ _ Hin)). eexists _, _. split; [by right|done].
Qed.
End ReplEnds.

Lemma frame_chat_run_agent R `{!WorldFrame R} llm u h : preserves R (chat_run_agent llm u h).
Proof. unfold chat_run_agent, chain. destruct (llm _); auto with agent. Qed.

Lemma chat_run_agent_is_ret llm u h w : is_ret (fst (chat_run_agent llm u h w)) = true.
Proof. unfold chat_run_agent, chain, try_catch. by destruct (llm _). Qed.

Lemma agent_main_loop present llm w w2 :
  startup present w = (Ret (), w2) ->
  agent_main present llm w =
    ('(r, _) ← session agent_quit_words (fun u (_ : unit) => run_agent llm u) (fun _ _ _ => ()) ();
     mret r) (snd (agent_banner w2)).
Proof. intros Hs. unfold agent_main. rewrite (bind_Ret _ _ _ _ _ Hs). reflexivity. Qed.

(** C14: every run of agent.py ends.  With both server scripts present
    the loop consumes one line per iteration and the engine always
    returns, so the program stops on a sentinel or dies of an uncaught
    error of [input] ([EOFError] when stdin runs out, or
    [UnicodeDecodeError] on a line that is not UTF-8), whatever the
    state of the executors; with a script missing the prologue exits
    with [SystemExit] before reading anything.  It never hangs and no
    other exception escapes. *)
Theorem agent_main_ends present llm w :
  (present "server_calculator.py" = true -> present "server_notes.py" = true ->
     (exists w', agent_main present llm w = (Ret Quit, w')) \/
     (exists e w', input_error e /\ agent_main present llm w = (Raise e, w'))) /\
  (present "server_calculator.py" = false \/ present "server_notes.py" = false ->
     exists w', agent_main present llm w = (Raise SystemExit, w') /\ w_stdin w' = w_stdin w).
Proof.
  split.
  - intros Hc Hn. rewrite (agent_main_loop _ _ _ _ (startup_present present w Hc Hn)).
    set (w2 := snd (agent_banner _)). unfold session. cbv [mbind PyM_bind].
    destruct (repl_ends agent_quit_words (fun u (_ : unit) => run_agent llm u) (fun _ _ _ => ())
                (fun u _ => frame_run_agent same_stdin llm u) (fun u _ => run_agent_is_ret llm u)
                (S (List.length (w_stdin w2))) () w2 ltac:(lia))
      as [(h' & w' & ->)|(e & w' & He & ->)]; [left|right]; by eauto.
  - intros Hm. destruct (startup_missing present w Hm) as [out Hs].
    unfold agent_main. rewrite (bind_Raise _ _ _ _ _ Hs). by eexists.
Qed.

(** The repository as it stands: [server_notes.py] is not among the
    sources. *)
Definition shipped_scripts (path : string) : bool := String.eqb path "server_calculator.py".

(** The witness of C14: with both scripts the demo question then [quit];
    as shipped, the prologue exits. *)
Lemma agent_main_ends_witness :
  (exists w', agent_main (fun _ => true) scripted_llm
                 (mkWorld [Text demo_question; Text "quit"] [] true true true false []) = (Ret Quit, w')) /\
  exists w', agent_main shipped_scripts scripted_llm
               (mkWorld [Text demo_question; Text "quit"] [] true true true false []) = (Raise SystemExit, w') /\
             w_stdin w' = [Text demo_question; Text "quit"].
Proof.
  destruct (agent_main_ends (fun _ => true) scripted_llm
              (mkWorld [Text demo_question; Text "quit"] [] true true true false [])) as [H1 _].
  destruct (agent_main_ends shipped_scripts scripted_llm
              (mkWorld [Text demo_question; Text "quit"] [] true true true false [])) as [_ H2].
  split; [|exact (H2 (or_intror eq_refl))].
  destruct (H1 eq_refl eq_refl) as [Hq|(e & w' & _ & He)]; [exact Hq|].
  vm_compute in He. discriminate.
Defined.

Lemma main_banner_run w :
  exists out, main_banner w = (Ret (), set_stdout w out).
Proof. eexists. reflexivity. Qed.

Lemma repl_quit {H} words turn record fuel (h : H) w l rest :
  w_stdin w = Text l :: rest -> is_quit words (py_strip l) = true ->
  repl words turn record (S fuel) h w =
    (Ret (Quit, h), set_stdout (set_stdin (set_stdout w (w_stdout w ++ ["You: "])) rest)
                      (w_stdout w ++ ["You: "; "Goodbye!" ++ nl]%string)).
Proof.
  intros Hin Hq. cbn [repl]. rewrite (bind_Ret _ _ _ _ _ (input_cons _ _ _ _ Hin)).
  rewrite Hq. unfold print, write. pym_run. by rewrite <-app_assoc.
Qed.

(** C16: in main.py a sentinel does not end the program: after the first
    loop's "quit" (or "exit", "q") the script prints "Goodbye!" and
    starts a second loop, with an empty history, on the rest of the
    input. *)
Theorem main_py_continues_after_quit llm w l rest :
  w_stdin w = Text l :: rest -> is_quit main_quit_words1 (py_strip l) = true ->
  exists w1, w_stdin w1 = rest /\
    main_py llm w = ('(r, _) ← main_loop llm main_quit_words2; mret r) w1.
Proof.
  intros Hin Hq. unfold main_py. destruct (main_banner_run w) as [out Hb].
  rewrite (bind_Ret _ _ _ _ _ Hb).
  assert (Hin' : w_stdin (set_stdout w out) = Text l :: rest) by exact Hin.
  cbv beta. cbv [mbind PyM_bind].
  change (main_loop llm main_quit_words1 (set_stdout w out)) with
    (repl main_quit_words1 (chat_run_agent llm) record_turn
       (S (List.length (w_stdin (set_stdout w out)))) [] (set_stdout w out)).
  rewrite Hin'. cbn [List.length].
  rewrite (repl_quit _ _ _ _ _ _ _ _ Hin' Hq).
  eexists. split; [|reflexivity]. reflexivity.
Qed.

Definition demo_chat_llm (_ : list Msg) : Completion := inr "ok"%string.

Lemma main_py_continues_after_quit_witness :
  exists w1, w_stdin w1 = [Text "hello"; Text "q"] /\
    main_py demo_chat_llm (mkWorld [Text "quit"; Text "hello"; Text "q"] [] true true true false []) =
      ('(r, _) ← main_loop demo_chat_llm main_quit_words2; mret r) w1.
Proof. apply (main_py_continues_after_quit demo_chat_llm _ "quit" [Text "hello"; Text "q"]); reflexivity. Defined.

(** ** main.py's history, as a pure function of the lines read *)

(** The reply main.py's [run_agent] gives to [u] after history [h]. *)
Definition chat_reply (llm : list Msg -> Completion) (h : list Msg) (u : string) : Msg :=
  match llm (format_prompt h u) with
  | inl err => AIMessage ("Error: " ++ err ++ ". Try phrasing it differently.")%string []
  | inr t => AIMessage t []
  end.

(** The history after the lines [us]: each line followed by its reply,
    in the order of the lines, each reply computed from the history of
    the turns before it. *)
Fixpoint chat_history (llm : list Msg -> Completion) (h : list Msg) (us : list string) : list Msg :=
  match us with
  | [] => h
  | u :: us' => chat_history llm (h ++ [HumanMessage u; chat_reply llm h u]) us'
  end.

Lemma chat_run_agent_pure llm u h w :
  chat_run_agent llm u h w = (Ret (chat_reply llm h u), w).
Proof. unfold chat_run_agent, chain, chat_reply, try_catch. by destruct (llm _). Qed.

Lemma repl_chat_history llm words ls q rest fuel h w :
  Forall (fun l => is_quit words (py_strip l) = false) ls ->
  is_quit words (py_strip q) = true ->
  w_stdin w = map Text ls ++ Text q :: rest -> List.length ls < fuel ->
  exists w', repl words (chat_run_agent llm) record_turn fuel h w =
               (Ret (Quit, chat_history llm h (map py_strip ls)), w') /\ w_stdin w' = rest.
Proof.
  intros Hls Hq. revert fuel h w. induction Hls as [|l ls Hl Hls IH]; intros fuel h w Hin Hf;
    (destruct fuel as [|fuel]; [simpl in Hf; lia|]).
  - rewrite (repl_quit _ _ _ _ _ _ _ _ Hin Hq). by eexists.
  - cbn [repl]. rewrite (bind_Ret _ _ _ _ _ (input_cons _ _ _ _ Hin)). rewrite Hl.
    cbv [mbind PyM_bind write modify]. rewrite chat_run_agent_pure. cbv [print write modify].
    apply IH; [done|simpl in Hf; lia].
Qed.

(** C15: main.py's loop keeps the conversation in order: on input lines
    [ls] followed by a sentinel, it stops on the sentinel, leaves the
    rest of stdin unread, and its history is the (human, agent) pairs of
    the stripped lines in order, where the reply to each line is the
    model's completion of the template over exactly the turns before it
    (or the error reply when the model raised). *)
Theorem main_loop_history llm words ls q rest w :
  Forall (fun l => is_quit words (py_strip l) = false) ls ->
  is_quit words (py_strip q) = true ->
  w_stdin w = map Text ls ++ Text q :: rest ->
  exists w', session words (chat_run_agent llm) record_turn [] w =
               (Ret (Quit, chat_history llm [] (map py_strip ls)), w') /\ w_stdin w' = rest.
Proof.
  intros Hls Hq Hin. unfold session. apply (repl_chat_history llm words ls q rest); [done..|].
  rewrite Hin, length_app, length_map. simpl. lia.
Qed.

Lemma main_loop_history_witness :
  exists w', session main_quit_words1 (chat_run_agent demo_chat_llm) record_turn []
               (mkWorld [Text " What is a monad? "; Text "thanks"; Text "  QUIT "; Text "later"] [] true true true false []) =
             (Ret (Quit, chat_history demo_chat_llm [] (map py_strip [" What is a monad? "; "thanks"])), w') /\
             w_stdin w' = [Text "later"].
Proof.
  apply (main_loop_history demo_chat_llm main_quit_words1 [" What is a monad? "; "thanks"] "  QUIT " [Text "later"]);
    [repeat constructor | reflexivity | reflexivity].
Defined.

(** ** Sentinels *)

(** C18: a sentinel is recognised whatever surrounds it and however it
    is capitalised: a line made of Python whitespace, a word whose lower
    case is a sentinel, and whitespace again ends the loop at once, with
    the history unchanged. *)
Theorem repl_quits_on_padded_sentinel {H} words turn record fuel (h : H) w pre core suf rest :
  all_space pre = true -> all_space suf = true -> head_ok core = true -> last_ok core = true ->
  py_lower core ∈ words -> w_stdin w = Text (pre ++ core ++ suf)%string :: rest ->
  fst (repl words turn record (S fuel) h w) = Ret (Quit, h).
Proof.
  intros Hp Hs Hh Hl Hw Hin.
  assert (Hq : is_quit words (py_strip (pre ++ core ++ suf)) = true).
  { rewrite py_strip_frame by done. unfold is_quit. by apply bool_decide_eq_true_2. }
  by rewrite (repl_quit _ _ _ _ _ _ _ _ Hin Hq).
Qed.

Lemma repl_quits_on_padded_sentinel_witness :
  fst (repl agent_quit_words (fun u (_ : unit) => run_agent looping_llm u) (fun _ _ _ => ()) 1 ()
         (mkWorld [Text " 	QuIt  "] [] true true true false [])) = Ret (Quit, ()).
Proof.
  apply (repl_quits_on_padded_sentinel _ _ _ _ _ _ " 	" "QuIt" "  " []);
    [reflexivity .. | unfold agent_quit_words; vm_compute; set_solver | reflexivity].
Defined.

(** ** main.py ends *)

Lemma main_loop_ends llm words w :
  (exists h w', main_loop llm words w = (Ret (Quit, h), w')) \/
  (exists e w', input_error e /\ main_loop llm words w = (Raise e, w')).
Proof.
  unfold main_loop, session.
  destruct (repl_ends words (chat_run_agent llm) record_turn
              (frame_chat_run_agent same_stdin llm) (chat_run_agent_is_ret llm)
              (S (List.length (w_stdin w))) [] w ltac:(lia)) as [(h & w' & ->)|(e & w' & He & ->)];
    [left|right]; by eauto.
Qed.

(** C26: every run of main.py ends: each of its two loops stops on a
    sentinel or dies of an uncaught error of [input] ([EOFError] at the
    end of stdin, [UnicodeDecodeError] on a line that is not UTF-8), so
    the script either returns after a sentinel of its second loop or
    raises one of those two; it never hangs and no other exception
    escapes. *)
Theorem main_py_ends llm w :
  (exists w', main_py llm w = (Ret Quit, w')) \/
  (exists e w', input_error e /\ main_py llm w = (Raise e, w')).
Proof.
  unfold main_py. destruct (main_banner_run w) as [out Hb].
  rewrite (bind_Ret _ _ _ _ _ Hb). cbv beta. cbv [mbind PyM_bind].
  destruct (main_loop_ends llm main_quit_words1 (set_stdout w out))
    as [(h & w1 & ->)|(e & w1 & He & ->)]; [|right; by eauto].
  destruct (main_loop_ends llm main_quit_words2 w1)
    as [(h2 & w2 & ->)|(e & w2 & He & ->)]; [left|right]; by eauto.
Qed.

(** ** The transcript of a session *)

Section ReplTranscript.
Context {H : Type}.
Variable words : list string.
Variable turn : string -> H -> PyW Msg.
Variable record : H -> string -> Msg -> H.
Hypothesis turn_keeps : forall u h, keeps_stdin (turn u h).
Hypothesis turn_appends : forall u h, appends_stdout (turn u h).
Hypothesis turn_total : forall u h w, is_ret (fst (turn u h w)) = true.

Lemma repl_transcript ls q rest fuel h w :
  Forall (fun l => is_quit words (py_strip l) = false) ls ->
  is_quit words (py_strip q) = true ->
  w_stdin w = map Text ls ++ Text q :: rest -> List.length ls < fuel ->
  exists h' w' outs,
    repl words turn record fuel h w = (Ret (Quit, h'), w') /\ w_stdin w' = rest /\
    Forall2 (fun u '(d, c) => exists h0 w0 w1 r, turn u h0 w0 = (Ret r, w1) /\
                              w_stdout w1 = w_stdout w0 ++ d /\ c = msg_content r)
            (map py_strip ls) outs /\
    w_stdout w' = w_stdout w ++ List.concat (map (fun '(d, c) => turn_output d c) outs)
                    ++ ["You: "; "Goodbye!" ++ nl]%string.
Proof.
  intros Hls Hq. revert fuel h w. induction Hls as [|l ls Hl Hls IH]; intros fuel h w Hin Hf;
    (destruct fuel as [|fuel]; [simpl in Hf; lia|]).
  - rewrite (repl_quit _ _ _ _ _ _ _ _ Hin Hq). by eexists _, _, [].
  - cbn [repl]. rewrite (bind_Ret _ _ _ _ _ (input_cons _ _ _ _ Hin)). rewrite Hl.
    cbv [mbind PyM_bind write modify].
    match goal with |- context [turn ?u ?h0 ?w1] =>
      destruct (turn u h0 w1) as [o w2] eqn:Ht;
      pose proof (turn_total u h0 w1) as Htot; rewrite Ht in Htot;
      pose proof (turn_keeps u h0 _ _ _ Ht) as Hk; pose proof (turn_appends u h0 _ _ _ Ht) as [d Hd]
    end.
    destruct o as [r|e]; [|done]. simpl in Hk, Hd. cbv [print write modify].
    match goal with |- context [repl words turn record fuel ?h1 ?w3] =>
      destruct (IH fuel h1 w3) as (h' & w' & outs & Hrun & Hrest & Hlen & Hout);
      [simpl; rewrite Hk; reflexivity|simpl in Hf; lia|] end.
    exists h', w', ((d, msg_content r) :: outs). split; [exact Hrun|]. split; [done|].
    split; [constructor; [by eauto 10|done]|]. rewrite Hout. simpl. rewrite Hd. simpl.
    unfold turn_output. by rewrite <-!app_assoc.
Qed.
End ReplTranscript.

Lemma appends_stdout_run_agent llm u : appends_stdout (run_agent llm u).
Proof. apply frame_run_agent, _. Qed.

(** C27: agent.py's command-line contract.  When both server scripts
    are present, the start-up block prints its two "Connected" lines
    (its [list_tools()] calls are never awaited, so it contacts no
    executor); then on stdin lines [ls] without a sentinel followed by a
    sentinel line, agent.py (after those lines and its banner) prints, for each line of [ls] in order, the prompt
    ["You: "], ["Agent: "], what [run_agent] prints on the stripped
    line, the content of the reply [run_agent] returns for it and an
    empty line; then the prompt and ["Goodbye!"]; it exits
    cleanly and leaves the rest of stdin unread. *)
Theorem agent_session_transcript present llm ls q rest w :
  present "server_calculator.py" = true -> present "server_notes.py" = true ->
  Forall (fun l => is_quit agent_quit_words (py_strip l) = false) ls ->
  is_quit agent_quit_words (py_strip q) = true ->
  w_stdin w = map Text ls ++ Text q :: rest ->
  exists w' banner outs,
    agent_main present llm w = (Ret Quit, w') /\ w_stdin w' = rest /\
    Forall2 (fun u '(d, c) => exists w0 w1 r, run_agent llm u w0 = (Ret r, w1) /\
                              w_stdout w1 = w_stdout w0 ++ d /\ c = msg_content r)
            (map py_strip ls) outs /\
    w_stdout w' = w_stdout w ++ banner ++ List.concat (map (fun '(d, c) => turn_output d c) outs)
                    ++ ["You: "; "Goodbye!" ++ nl]%string.
Proof.
  intros Hc Hn Hls Hq Hin. unfold agent_main. cbv [mbind PyM_bind].
  rewrite (startup_present present w Hc Hn).
  destruct (agent_banner _) as [[[]|e] w2] eqn:Hb; [|discriminate].
  assert (Hpre : exists banner, w_stdout w2 = w_stdout w ++ banner /\ w_stdin w2 = w_stdin w).
  { unfold agent_banner, print, write in Hb. pym_run. injection Hb as <-. simpl.
    eexists. split; [by rewrite <-!app_assoc|done]. }
  destruct Hpre as (banner & Hout2 & Hin2).
  unfold session. rewrite Hin2, Hin.
  destruct (repl_transcript agent_quit_words (fun u (_ : unit) => run_agent llm u) (fun _ _ _ => ())
              (fun u _ => frame_run_agent same_stdin llm u) (fun u _ => appends_stdout_run_agent llm u)
              (fun u _ => run_agent_is_ret llm u) ls q rest
              (S (List.length (map Text ls ++ Text q :: rest))) () w2 Hls Hq ltac:(by rewrite Hin2)
              ltac:(rewrite length_app, length_map; simpl; lia))
    as ([] & w' & outs & -> & Hrest & Hturns & Hout).
  exists w', banner, outs. split; [done|]. split; [done|].
  split; [|by rewrite Hout, Hout2, <-!app_assoc].
  eapply Forall2_impl; [exact Hturns|]. intros u [d c] (_ & v0 & v1 & r & ?). by exists v0, v1, r.
Qed.

(** The witness of C27: the question of the spec's end-to-end example,
    then a padded, capitalised sentinel. *)
Lemma agent_session_transcript_witness :
  Forall (fun l => is_quit agent_quit_words (py_strip l) = false) [demo_question] /\
  is_quit agent_quit_words (py_strip " Quit") = true /\
  exists w' banner outs,
    agent_main (fun _ => true) scripted_llm
      (mkWorld [Text demo_question; Text " Quit"] [] true true true false []) = (Ret Quit, w') /\
    w_stdin w' = [] /\
    Forall2 (fun u '(d, c) => exists w0 w1 r, run_agent scripted_llm u w0 = (Ret r, w1) /\
                              w_stdout w1 = w_stdout w0 ++ d /\ c = msg_content r)
            (map py_strip [demo_question]) outs /\
    w_stdout w' = [] ++ banner ++ List.concat (map (fun '(d, c) => turn_output d c) outs)
                    ++ ["You: "; "Goodbye!" ++ nl]%string.
Proof.
  assert (H1 : Forall (fun l => is_quit agent_quit_words (py_strip l) = false) [demo_question])
    by (repeat constructor).
  assert (H2 : is_quit agent_quit_words (py_strip " Quit") = true) by reflexivity.
  split; [exact H1|]. split; [exact H2|].
  exact (agent_session_transcript (fun _ => true) scripted_llm [demo_question] " Quit" []
           (mkWorld [Text demo_question; Text " Quit"] [] true true true false []) eq_refl eq_refl H1 H2 eq_refl).
Defined.

(** ** A blank line in main.py's two loops *)

Lemma py_strip_all_space l : all_space l = true -> py_strip l = "".
Proof. intros H. unfold py_strip. by rewrite lstrip_all_space. Qed.

(** C32: main.py's two loops disagree on a blank line (empty, or only
    whitespace): the first loop sends the empty question to the model
    and records the turn in the history, the second loop stops on it
    as on a sentinel. *)
Theorem main_loops_blank_line llm fuel h w l rest :
  all_space l = true -> w_stdin w = Text l :: rest ->
  (exists w1, w_stdin w1 = rest /\
     repl main_quit_words1 (chat_run_agent llm) record_turn (S fuel) h w =
     repl main_quit_words1 (chat_run_agent llm) record_turn fuel
       (record_turn h "" (chat_reply llm h "")) w1) /\
  fst (repl main_quit_words2 (chat_run_agent llm) record_turn (S fuel) h w) = Ret (Quit, h).
Proof.
  intros Hs Hin. split.
  - cbn [repl]. rewrite (bind_Ret _ _ _ _ _ (input_cons _ _ _ _ Hin)), py_strip_all_space by done.
    replace (is_quit main_quit_words1 "") with false by reflexivity.
    cbv [mbind PyM_bind write modify]. rewrite chat_run_agent_pure. cbv [print write modify].
    eexists. split; [|reflexivity]. reflexivity.
  - rewrite (repl_quit _ _ _ _ _ _ _ _ Hin); [done|]. by rewrite py_strip_all_space.
Qed.

Lemma main_loops_blank_line_witness :
  all_space "  " = true /\
  (exists w1, w_stdin w1 = [Text "q"] /\
     repl main_quit_words1 (chat_run_agent demo_chat_llm) record_turn 2 []
       (mkWorld [Text "  "; Text "q"] [] true true true false []) =
     repl main_quit_words1 (chat_run_agent demo_chat_llm) record_turn 1
       (record_turn [] "" (chat_reply demo_chat_llm [] "")) w1) /\
  fst (repl main_quit_words2 (chat_run_agent demo_chat_llm) record_turn 2 []
         (mkWorld [Text "  "; Text "q"] [] true true true false [])) = Ret (Quit, []).
Proof.
  assert (H : all_space "  " = true) by reflexivity.
  split; [exact H|].
  exact (main_loops_blank_line demo_chat_llm 1 [] (mkWorld [Text "  "; Text "q"] [] true true true false []) "  " [Text "q"] H eq_refl).
Defined.
