(* ===== verification/Dispatch.v ===== *)
(** * The order of the calls of one answer (spec section 5)

    The tool node runs the calls of one answer in the order the model
    gives them ([Engine.tools_node] is [mapM run_tool_call]).  Spec
    section 5 allows an implementation to run the independent calls of
    one answer in any order, or in parallel, as long as each result is
    re-associated with its request.  This file shows which calls that
    holds for.

    A calculator call, with the calculator reachable, does nothing but
    print: its result and the lines it prints do not depend on the world.
    Such an action denotes a value of the writer-and-exception monad
    [PD] (a result or an exception, and the lines printed), and
    [prints_only m d] says that [m] runs as [d] in every world where the
    calculator can be reached.  The tool node on calculator calls is then
    [mapM] in [PD], which commutes with permutations of the calls: the
    results come back permuted in the same way, and the trace lines too
    (C35).  A notes call is not of this kind: an [add_note] and a
    [read_notes] of one answer read differently in the two orders
    (C36). *)

From S2P Require Import Prelude Py Mcp Calculator Notes Adapters Engine Runs.
From stdpp Require Import strings gmap.
From Stdlib Require Import String.

(** ** Print-only actions *)

(** A result or an exception, and the lines printed before it. *)
Definition PD (A : Type) : Type := (Out PyExc A * list string)%type.

(** The denotation of a list of actions run in order, each stopping the
    sequence when it raises: [mapM] in [PD]. *)
Fixpoint seq_denote {A B} (d : A -> PD B) (l : list A) : PD (list B) :=
  match l with
  | [] => (Ret [], [])
  | x :: l =>
      match d x with
      | (Raise e, o) => (Raise e, o)
      | (Ret y, o) =>
          match seq_denote d l with
          | (Ret ys, os) => (Ret (y :: ys), o ++ os)
          | (Raise e, os) => (Raise e, o ++ os)
          end
      end
  end.

(** [m] only prints, as [d] says, when the calculator can be reached. *)
Definition prints_only {A} (m : PyW A) (d : PD A) : Prop :=
  forall w, w_calc_up w = true -> m w = (d.1, set_stdout w (w_stdout w ++ d.2)).

(** The denotation of an action read off one run: a world with the
    calculator reachable and nothing printed yet. *)
Definition calc_world : World := mkWorld [] [] true false false false [].

Definition denote_at {A} (m : PyW A) : PD A := let '(r, w') := m calc_world in (r, w_stdout w').

(** The denotation of a calculator call. *)
Definition calc_denote (c : ToolCall) : PD Msg := denote_at (run_tool_call c).

Lemma set_stdout_nil w : set_stdout w (w_stdout w ++ []) = w.
Proof. rewrite app_nil_r. by destruct w. Qed.

Lemma set_stdout_twice w o1 o2 : set_stdout (set_stdout w o1) o2 = set_stdout w o2.
Proof. reflexivity. Qed.

(** If [m] has a print-only denotation, [denote_at m] is one. *)
Lemma prints_only_denote_at {A} (m : PyW A) d : prints_only m d -> prints_only m (denote_at m).
Proof.
  intros Hm w Hw. unfold denote_at. rewrite (Hm calc_world eq_refl), (Hm w Hw). by destruct d.
Qed.

Lemma prints_only_mapM {A B} (f : A -> PyW B) d l :
  (forall x, x ∈ l -> prints_only (f x) (d x)) -> prints_only (mapM f l) (seq_denote d l).
Proof.
  induction l as [|x l IH]; intros Hf w Hw; cbn [mapM seq_denote]; pym_run.
  - by rewrite set_stdout_nil.
  - rewrite (Hf x ltac:(apply elem_of_cons; by left) w Hw). destruct (d x) as [[y|e] o]; simpl; [|done].
    rewrite (IH (fun x' Hx' => Hf x' ltac:(apply elem_of_cons; by right))) by done.
    destruct (seq_denote d l) as [[ys|e] os]; simpl; by rewrite <-app_assoc.
Qed.

(** ** A calculator call only prints *)

Lemma calc_adapter_prints_only name a b :
  prints_only (Adapter.calc_adapter name a b) (denote_at (Adapter.calc_adapter name a b)).
Proof.
  apply (prints_only_denote_at _
    (if decide (small a /\ small b) then
       (match call_tool name (int_args a b) tt with
        | (TOk v, _) => Ret v | (TErr m, _) => Raise (ToolError m) end, [calc_trace name a b])
     else (Raise (ValueError int_str_limit_msg), []))).
  intros w Hw. case_decide as Hab.
  - destruct Hab as [Ha Hb]. rewrite calc_adapter_run, call_calculator_up by done. simpl.
    by destruct (call_tool name (int_args a b) tt) as [[v|m] ?].
  - rewrite adapter_digit_limit; [by rewrite set_stdout_nil|].
    destruct (decide (small a)); [right; naive_solver|by left].
Qed.

Lemma run_calc_call_prints_only c :
  tc_name c ∈ calc_tool_names -> prints_only (run_tool_call c) (calc_denote c).
Proof.
  intros Hn. apply (prints_only_denote_at _
    (match validate int_params (tc_args c) with
     | inl bad => (Ret (ToolMessage (tc_id c) (tc_name c)
                   (TCError ("Error invoking tool '" ++ tc_name c ++ "': validation error for " ++ bad)%string)), [])
     | inr [VInt a; VInt b] =>
         match denote_at (Adapter.calc_adapter (tc_name c) a b) with
         | (Ret v, o) => (Ret (ToolMessage (tc_id c) (tc_name c) (TCValue v)), o)
         | (Raise e, o) => (Raise e, o)
         end
     | inr _ => (Raise (ValueError "invalid arguments"), [])
     end)).
  intros w Hw. unfold run_tool_call. rewrite (find_calc_tool _ Hn).
  change (Adapter.lc_params _) with int_params. cbv [mbind PyM_bind mret PyM_ret].
  destruct (validate int_params (tc_args c)) as [bad|vs]; [by rewrite set_stdout_nil|].
  destruct vs as [|[a| |] [|[b| |] [|]]]; simpl; try by rewrite set_stdout_nil.
  rewrite (calc_adapter_prints_only _ a b w Hw).
  by destruct (denote_at (Adapter.calc_adapter (tc_name c) a b)) as [[v|e] o].
Qed.

(** ** Reordering the calls *)

Section Reorder.
Context {A B : Type} (d : A -> PD B).

Lemma seq_denote_cons_Ret x l ys o :
  seq_denote d (x :: l) = (Ret ys, o) ->
  exists y ys' ox ol, d x = (Ret y, ox) /\ seq_denote d l = (Ret ys', ol) /\ ys = y :: ys' /\ o = ox ++ ol.
Proof.
  simpl. destruct (d x) as [[y|e] ox]; [|discriminate].
  destruct (seq_denote d l) as [[ys'|e] ol]; [|discriminate]. intros [= <- <-]. by eexists _, _, _, _.
Qed.

Lemma seq_denote_cons_eq x l y ys ox ol :
  d x = (Ret y, ox) -> seq_denote d l = (Ret ys, ol) -> seq_denote d (x :: l) = (Ret (y :: ys), ox ++ ol).
Proof. simpl. by intros -> ->. Qed.

(** The calls run in another order all return, and their results and
    their printed lines are the same up to the permutation. *)
Lemma seq_denote_perm l l' ys o :
  l ≡ₚ l' -> seq_denote d l = (Ret ys, o) ->
  exists ys' o', seq_denote d l' = (Ret ys', o') /\ ys ≡ₚ ys' /\ o ≡ₚ o'.
Proof.
  intros Hp. revert ys o. induction Hp as [|x l l' Hp IH|x y l|l l' l'' _ IH1 _ IH2]; intros ys o H.
  - exists ys, o. by split.
  - destruct (seq_denote_cons_Ret _ _ _ _ H) as (y & ys1 & ox & ol & Hx & Hl & -> & ->).
    destruct (IH _ _ Hl) as (ys1' & ol' & Hl' & Hys & Ho).
    exists (y :: ys1'), (ox ++ ol'). split; [by apply seq_denote_cons_eq|]. split; by f_equiv.
  - destruct (seq_denote_cons_Ret _ _ _ _ H) as (y' & ys1 & oy & o1 & Hy & H1 & -> & ->).
    destruct (seq_denote_cons_Ret _ _ _ _ H1) as (x' & ys2 & ox & o2 & Hx & H2 & -> & ->).
    exists (x' :: y' :: ys2), (ox ++ oy ++ o2).
    split; [by do 2 (eapply seq_denote_cons_eq; [done|])|].
    split; [apply perm_swap|]. rewrite !app_assoc. f_equiv. apply Permutation_app_comm.
  - destruct (IH1 _ _ H) as (ys1 & o1 & H1 & Hys1 & Ho1).
    destruct (IH2 _ _ H1) as (ys2 & o2 & H2 & Hys2 & Ho2).
    exists ys2, o2. split; [done|]. split; by etrans.
Qed.
End Reorder.

(** C35: spec section 5 holds for the calculator: when the calculator
    can be reached, the tool node run on any reordering of the calculator
    calls of an answer returns too, with the same tool messages (each
    under its call's id) permuted the same way, and prints the same trace
    lines up to the order; no other part of the world differs. *)
Theorem tools_node_calc_reorder calls calls' w res w' :
  Forall (fun c => tc_name c ∈ calc_tool_names) calls -> calls ≡ₚ calls' -> w_calc_up w = true ->
  tools_node calls w = (Ret res, w') ->
  exists res' out out',
    w' = set_stdout w (w_stdout w ++ out) /\
    tools_node calls' w = (Ret res', set_stdout w (w_stdout w ++ out')) /\
    res ≡ₚ res' /\ out ≡ₚ out'.
Proof.
  intros Hc Hp Hw Hrun. rewrite Forall_forall in Hc.
  assert (HP : forall cs, cs ≡ₚ calls -> prints_only (tools_node cs) (seq_denote calc_denote cs)).
  { intros cs Hcs. apply prints_only_mapM. intros c Hin. apply run_calc_call_prints_only, Hc.
    by rewrite <-Hcs. }
  rewrite (HP calls ltac:(done) w Hw) in Hrun.
  destruct (seq_denote calc_denote calls) as [r out] eqn:Hd. simpl in Hrun.
  injection Hrun as -> <-.
  destruct (seq_denote_perm _ _ _ _ _ Hp Hd) as (res' & out' & Hd' & Hres & Hout).
  exists res', out, out'. rewrite (HP calls' ltac:(done) w Hw), Hd'. done.
Qed.

Definition add_call : ToolCall := calc_call "call_1" "add" 1 2.
Definition mul_call : ToolCall := calc_call "call_2" "multiply" 7 6.

(** The witness of C35: [add(1, 2)] and [multiply(7, 6)] of one answer,
    run in the two orders. *)
Lemma tools_node_calc_reorder_witness :
  exists res' out out',
    snd (tools_node [add_call; mul_call] demo_world) = set_stdout demo_world (w_stdout demo_world ++ out) /\
    tools_node [mul_call; add_call] demo_world = (Ret res', set_stdout demo_world (w_stdout demo_world ++ out')) /\
    [ToolMessage "call_1" "add" (TCValue (VInt 3)); ToolMessage "call_2" "multiply" (TCValue (VInt 42))] ≡ₚ res' /\
    out ≡ₚ out'.
Proof.
  apply (tools_node_calc_reorder [add_call; mul_call] [mul_call; add_call] demo_world).
  - repeat constructor; vm_compute; set_solver.
  - apply perm_swap.
  - reflexivity.
  - vm_compute. reflexivity.
Defined.

(** ** Notes calls of one answer are not independent *)

Lemma tools_node_note_read id1 id2 x w :
  w_notes_up w = true -> w_keep_alive w = true ->
  exists w1, tools_node [note_call id1 x; read_call id2] w =
    (Ret [ToolMessage id1 "add_note" (TCValue (VStr ("Note added: " ++ x)));
          ToolMessage id2 "read_notes" (TCValue (VStr (read_notes (notes_on_connect w ++ [x]))))], w1) /\
    w_notes w1 = notes_on_connect w ++ [x].
Proof.
  intros Hup Hka. unfold tools_node. cbn [mapM]. cbv [mbind PyM_bind mret PyM_ret].
  rewrite run_note_call by done. cbn zeta. rewrite Hka, run_read_call by done.
  rewrite notes_on_connect_kept by done. eexists; split; [reflexivity|]. simpl. by rewrite Hka.
Qed.

Lemma tools_node_read_note id1 id2 x w :
  w_notes_up w = true -> w_keep_alive w = true ->
  exists w1, tools_node [read_call id2; note_call id1 x] w =
    (Ret [ToolMessage id2 "read_notes" (TCValue (VStr (read_notes (notes_on_connect w))));
          ToolMessage id1 "add_note" (TCValue (VStr ("Note added: " ++ x)))], w1) /\
    w_notes w1 = notes_on_connect w ++ [x].
Proof.
  intros Hup Hka. unfold tools_node. cbn [mapM]. cbv [mbind PyM_bind mret PyM_ret].
  rewrite run_read_call by done. cbn zeta. rewrite Hka, run_note_call by done.
  rewrite notes_on_connect_kept by done. eexists; split; [reflexivity|]. simpl. by rewrite Hka.
Qed.

(** C36: spec section 5 does not hold for the notes tools: with the notes
    process kept alive and its store empty, an answer that calls
    [add_note(x)] and [read_notes()] gets results that are not a
    permutation of each other in the two orders (the read sees the note
    in one order only, unless the note is the empty-store text itself),
    although both orders leave the same store [[x]]. *)
Theorem tools_node_notes_order_matters id1 id2 x w :
  w_notes_up w = true -> w_keep_alive w = true -> notes_on_connect w = [] -> x <> no_notes_msg ->
  exists res res' w1 w2,
    tools_node [note_call id1 x; read_call id2] w = (Ret res, w1) /\
    tools_node [read_call id2; note_call id1 x] w = (Ret res', w2) /\
    ~ res ≡ₚ res' /\ w_notes w1 = [x] /\ w_notes w2 = [x].
Proof.
  intros Hup Hka Hnil Hx.
  destruct (tools_node_note_read id1 id2 x w Hup Hka) as (w1 & H1 & Hn1).
  destruct (tools_node_read_note id1 id2 x w Hup Hka) as (w2 & H2 & Hn2).
  rewrite Hnil in H1, H2, Hn1, Hn2. eexists _, _, w1, w2. split; [exact H1|]. split; [exact H2|].
  split; [|done]. by intros [Hp|Hp]%Permutation_length_2_inv; simplify_eq.
Qed.

(** The witness of C36 on the demo world, whose notes process is kept
    alive and empty. *)
Lemma tools_node_notes_order_matters_witness :
  exists res res' w1 w2,
    tools_node [note_call "call_1" deploy_note; read_call "call_2"] demo_world = (Ret res, w1) /\
    tools_node [read_call "call_2"; note_call "call_1" deploy_note] demo_world = (Ret res', w2) /\
    ~ res ≡ₚ res' /\ w_notes w1 = [deploy_note] /\ w_notes w2 = [deploy_note].
Proof.
  apply tools_node_notes_order_matters; [reflexivity|reflexivity|reflexivity|].
  unfold deploy_note, no_notes_msg. discriminate.
Defined.
