(* ===== verification/Server.v ===== *)
(** * The executor processes and the connections to them

    [src/server_calculator.py] ends with [def main(): mcp.run()] and
    [if __name__ == "__main__": main()]: the process serves the
    calculator's registry to one client over stdio, request after request
    ([Mcp.serve] from the state [tt]); [CalcServer.main] is that process
    as a function of the requests it reads.  The notes executor
    ([server_notes.py], modelled from the spec) is the same loop over the
    notes registry from the empty store.

    The adapters of [src/agent.py] do not keep a session: every call runs
    [asyncio.run(_call_mcp())], which opens a connection, makes one call
    and closes it ([Adapters.call_calculator], [Adapters.call_notes]).
    Spec section 9 suggests one pooled session per executor instead, as
    long as pooling introduces no state across requests.  The theorems
    here compare the two: for the calculator, whose state is [unit], the
    per-call connections answer a sequence of calls exactly as one
    pooled session does, and a session whose calls all succeed is
    [CalcServer.main] on those calls; for the notes executor this holds
    when the process outlives its connections ([w_keep_alive]), and
    otherwise pooling would change the answers (a pooled session keeps
    the notes that per-call connections lose, C13). *)

From S2P Require Import Prelude Py Mcp Calculator Notes Adapters.
From stdpp Require Import strings gmap.
From Stdlib Require Import String.

Module CalcServer.
(** [main()] run as a script: the calculator process on its requests. *)
Definition main (reqs : list Request) : list Response := (serve (S:=unit) reqs tt).1.
End CalcServer.

Module NotesServer.
(** The notes process on its requests, from an empty store. *)
Definition main (reqs : list Request) : list Response := (serve (S:=NotesState) reqs []).1.
End NotesServer.

(** A sequence of calls through the adapters' connection helpers, each on
    a connection of its own, stopping at the first that raises. *)
Definition calc_calls (calls : list (string * Args)) : PyW (list PyVal) :=
  mapM (fun c => call_calculator c.1 c.2) calls.
Definition notes_calls (calls : list (string * Args)) : PyW (list PyVal) :=
  mapM (fun c => call_notes c.1 c.2) calls.

(** ** The calculator process keeps no state *)

Lemma calc_main_app r1 r2 : CalcServer.main (r1 ++ r2) = CalcServer.main r1 ++ CalcServer.main r2.
Proof.
  unfold CalcServer.main. rewrite serve_app.
  destruct (serve r1 tt) as [o1 []]. by destruct (serve r2 tt).
Qed.

(** ** Per-call connections and one pooled session *)

Lemma calc_calls_session calls w :
  w_calc_up w = true -> calc_calls calls w = ((client_session (S:=unit) calls tt).1, w).
Proof.
  intros Hup. unfold calc_calls. induction calls as [|[n a] cs IH]; [done|].
  rewrite mapM_cons_run. cbn [client_session fst snd].
  rewrite call_calculator_up by done.
  destruct (call_tool n a tt) as [[v|m] []]; [|done].
  rewrite IH. by destruct (client_session cs tt) as [[vs|e] []].
Qed.

Lemma notes_calls_session calls w :
  w_notes_up w = true -> w_keep_alive w = true -> calls <> [] ->
  notes_calls calls w =
    let '(r, st) := client_session (S:=NotesState) calls (notes_on_connect w) in (r, set_notes w true st).
Proof.
  unfold notes_calls. revert w. induction calls as [|[n a] cs IH]; intros w Hup Hka Hne; [done|].
  rewrite mapM_cons_run. cbn [client_session fst snd]. unfold call_notes at 1.
  rewrite Hup, Hka. destruct (call_tool n a (notes_on_connect w)) as [[v|m] st1]; [|done].
  destruct cs as [|c cs]; [done|].
  rewrite IH by (done || by apply notes_on_connect_kept).
  rewrite notes_on_connect_kept by done.
  by destruct (client_session (c :: cs) st1) as [[vs|e] st2].
Qed.

(** C9: spec section 9's pooled connection, against the code's
    per-call connections: with the calculator reachable, a sequence of
    calculator calls made one connection at a time returns exactly what
    one pooled session returns, and, when every call succeeds, the values
    are the replies of the calculator process [main()] to those calls;
    with the notes process kept alive, a nonempty sequence of notes calls
    returns what one pooled session on the store a connection finds
    returns, and leaves the process holding that session's final store. *)
Theorem adapters_refine_pooled_session calls w :
  (w_calc_up w = true ->
     calc_calls calls w = ((client_session (S:=unit) calls tt).1, w) /\
     forall vs, calc_calls calls w = (Ret vs, w) ->
       CalcServer.main (map call_req calls) = map (fun v => RespResult (TOk v)) vs) /\
  (w_notes_up w = true -> w_keep_alive w = true -> calls <> [] ->
     notes_calls calls w =
       let '(r, st) := client_session (S:=NotesState) calls (notes_on_connect w) in
       (r, set_notes w true st)).
Proof.
  split; [|apply notes_calls_session]. intros Hup. rewrite calc_calls_session by done.
  split; [done|]. intros vs [= Hs]. unfold CalcServer.main.
  destruct (client_session calls tt) as [r []] eqn:Hc. simpl in Hs. subst r.
  by rewrite (client_session_serve _ _ _ _ Hc).
Qed.

Definition mul_req : string * Args := ("multiply", int_args 7 6).
Definition div0_req : string * Args := ("divide", int_args 5 0).
(** Both executors reachable, the notes process kept alive, not started. *)
Definition up_world : World := mkWorld [] [] true true true false [].

(** The witness of C9: [multiply(7, 6)] then [divide(5, 0)] on a reachable
    calculator, and two notes calls on a kept-alive notes process. *)
Lemma adapters_refine_pooled_session_witness :
  calc_calls [mul_req; div0_req] up_world =
    (Ret [VInt 42; VStr divide_by_zero_msg], up_world) /\
  CalcServer.main (map call_req [mul_req; div0_req]) =
    [RespResult (TOk (VInt 42)); RespResult (TOk (VStr divide_by_zero_msg))] /\
  notes_calls [("add_note", note_args "x"); ("read_notes", ∅)] up_world =
    (Ret [VStr "Note added: x"; VStr "x"], set_notes up_world true ["x"]).
Proof.
  destruct (adapters_refine_pooled_session [mul_req; div0_req] up_world) as [Hc _].
  destruct (adapters_refine_pooled_session [("add_note", note_args "x"); ("read_notes", ∅)] up_world)
    as [_ Hn].
  destruct (Hc eq_refl) as [H1 H2].
  assert (Hcalc : calc_calls [mul_req; div0_req] up_world =
                  (Ret [VInt 42; VStr divide_by_zero_msg], up_world)) by (rewrite H1; vm_compute; reflexivity).
  split; [exact Hcalc|]. split; [exact (H2 _ Hcalc)|].
  rewrite (Hn eq_refl eq_refl ltac:(discriminate)). vm_compute. reflexivity.
Defined.
